(** * rootplotlib: a shallow embedding of the figure registry, the canvas
      builders, the axis formatter, the plot orchestration and the 2D
      histogram helpers, with the properties of the specification and
      further properties of the code.

    The Python objects live in a store (one list per class of object, a
    reference is a class tag and an index), so that identity, aliasing and
    in-place mutation are those of the program.  Every function of the source
    is an action of the monad [Py]: it takes the world, returns a value or
    raises a Python exception, and leaves the mutations done so far. *)

From Stdlib Require Import ZArith Floats String List Bool Lia.
From stdpp Require Import base option list.

#[local] Set Warnings "-inexact-float".
#[local] Open Scope string_scope.
#[local] Open Scope Z_scope.

(* ===================================================================== *)
(** ** Python values, references and exceptions                           *)
(* ===================================================================== *)

(** The exceptions the modelled code can raise. [LookupError] stands for the
    whole class (KeyError, IndexError of a mapping); [IndexError] is the one
    of a list subscript out of range. *)
Inductive Exception :=
| TypeError
| IndexError
| AttributeError
| LookupError
| ValueError
| ZeroDivisionError
| UnboundLocalError.

Inductive Result (A : Type) :=
| Ok (a : A)
| Raise (e : Exception).
Arguments Ok {A} a.
Arguments Raise {A} e.

(** A reference to a Python object: the class of the object and its index in
    the store of that class. [RPad] covers TCanvas and TPad (a TCanvas is a
    TPad in ROOT); [ROpaque] is any other object (TLatex, TLegend, TFrame...),
    which has none of the attributes the code asks for. *)
Inductive Ref :=
| RNone
| RFigure (i : nat)
| RPad (i : nat)
| RHist (i : nat)
| RGraph (i : nat)
| ROpaque (i : nat).

Definition Ref_eqb (a b : Ref) : bool :=
  match a, b with
  | RNone, RNone => true
  | RFigure i, RFigure j | RPad i, RPad j | RHist i, RHist j
  | RGraph i, RGraph j | ROpaque i, ROpaque j => Nat.eqb i j
  | _, _ => false
  end.

(* ===================================================================== *)
(** ** The objects of the plotting library (ROOT), as the code uses them  *)
(* ===================================================================== *)

(** TAxis: the attributes set by the axis formatter. Sizes and offsets are
    floats in the library (a Python integer such as 22 is converted);
    [fNdivisions] holds n1 + 100*n2 + 10000*n3, as [SetNdivisions(n1,n2,n3)]
    stores it. *)
Record TAxis := mkTAxis {
  fTitleSize : float;
  fTitleOffset : float;
  fTitleFont : Z;
  fLabelSize : float;
  fLabelOffset : float;
  fLabelFont : Z;
  fTickLength : float;
  fNdivisions : Z
}.

Definition SetTitleSize (v : float) (a : TAxis) : TAxis :=
  mkTAxis v (fTitleOffset a) (fTitleFont a) (fLabelSize a) (fLabelOffset a)
          (fLabelFont a) (fTickLength a) (fNdivisions a).
Definition SetTitleOffset (v : float) (a : TAxis) : TAxis :=
  mkTAxis (fTitleSize a) v (fTitleFont a) (fLabelSize a) (fLabelOffset a)
          (fLabelFont a) (fTickLength a) (fNdivisions a).
Definition SetTitleFont (v : Z) (a : TAxis) : TAxis :=
  mkTAxis (fTitleSize a) (fTitleOffset a) v (fLabelSize a) (fLabelOffset a)
          (fLabelFont a) (fTickLength a) (fNdivisions a).
Definition SetLabelSize (v : float) (a : TAxis) : TAxis :=
  mkTAxis (fTitleSize a) (fTitleOffset a) (fTitleFont a) v (fLabelOffset a)
          (fLabelFont a) (fTickLength a) (fNdivisions a).
Definition SetLabelOffset (v : float) (a : TAxis) : TAxis :=
  mkTAxis (fTitleSize a) (fTitleOffset a) (fTitleFont a) (fLabelSize a) v
          (fLabelFont a) (fTickLength a) (fNdivisions a).
Definition SetLabelFont (v : Z) (a : TAxis) : TAxis :=
  mkTAxis (fTitleSize a) (fTitleOffset a) (fTitleFont a) (fLabelSize a)
          (fLabelOffset a) v (fTickLength a) (fNdivisions a).
Definition SetTickLength (v : float) (a : TAxis) : TAxis :=
  mkTAxis (fTitleSize a) (fTitleOffset a) (fTitleFont a) (fLabelSize a)
          (fLabelOffset a) (fLabelFont a) v (fNdivisions a).
Definition SetNdivisions (n1 n2 n3 : Z) (a : TAxis) : TAxis :=
  mkTAxis (fTitleSize a) (fTitleOffset a) (fTitleFont a) (fLabelSize a)
          (fLabelOffset a) (fLabelFont a) (fTickLength a)
          (n1 + 100 * n2 + 10000 * n3).

(** Line and marker attributes (TAttLine, TAttMarker). *)
Record TAtt := mkTAtt {
  fLineColor : Z;
  fMarkerColor : Z;
  fMarkerStyle : Z;
  fMarkerSize : float
}.

(** A histogram (TH1 and its subclasses): its name, the number of bins of
    its X axis, its cells (bin contents, with the underflow and overflow
    cells: N+2 cells for a 1D histogram of N bins), its attributes and its
    three axes. *)
Record TH1 := mkTH1 {
  fName : string;
  fNbinsX : Z;
  fArray : list float;
  fAtt : TAtt;
  fXaxis : TAxis;
  fYaxis : TAxis;
  fZaxis : TAxis
}.

(** A graph (TGraph): a drawable with a horizontal and a vertical axis and
    no depth axis. *)
Record TGraph := mkTGraph {
  gName : string;
  gAtt : TAtt;
  gXaxis : TAxis;
  gYaxis : TAxis
}.

(** A region: a TCanvas ([pCanvasSize] is its width and height) or a TPad
    of a canvas, with its normalized extent, its margins and the list of the
    drawables drawn into it, each with its draw option. *)
Record TPad := mkTPad {
  pName : string;
  pTitle : string;
  pCanvasSize : option (Z * Z);
  fXlowNDC : float;
  fYlowNDC : float;
  fXupNDC : float;
  fYupNDC : float;
  fBottomMargin : float;
  fTopMargin : float;
  fRightMargin : float;
  fLeftMargin : float;
  fFillColor : Z;
  fFillStyle : Z;
  fPrimitives : list (Ref * string)
}.

(** Modelled from the spec: the class Figure (rootplotlib/figures.py is not
    among the sources). A Figure wraps one drawing surface ([RNone] for
    [Figure()]) and an ordered mapping from region name to region handle;
    the axis titles set through the figure are kept per region name. *)
Record Figure := mkFigure {
  fig_canvas : Ref;
  fig_pads : list (string * Ref);
  fig_xlabel : list (option string * string);
  fig_ylabel : list (option string * string)
}.

(* ===================================================================== *)
(** ** The world and the monad of Python actions                          *)
(* ===================================================================== *)

Record World := mkWorld {
  figures : list Figure;
  pads : list TPad;
  hists : list TH1;
  graphs : list TGraph;
  current_figure : Ref;      (** the module global [__figure] *)
  gPad : Ref;                (** ROOT's current pad *)
  stdout : list string
}.

Definition with_figures (x : list Figure) (w : World) : World :=
  mkWorld x (pads w) (hists w) (graphs w) (current_figure w) (gPad w) (stdout w).
Definition with_pads (x : list TPad) (w : World) : World :=
  mkWorld (figures w) x (hists w) (graphs w) (current_figure w) (gPad w) (stdout w).
Definition with_hists (x : list TH1) (w : World) : World :=
  mkWorld (figures w) (pads w) x (graphs w) (current_figure w) (gPad w) (stdout w).
Definition with_graphs (x : list TGraph) (w : World) : World :=
  mkWorld (figures w) (pads w) (hists w) x (current_figure w) (gPad w) (stdout w).
Definition with_current_figure (x : Ref) (w : World) : World :=
  mkWorld (figures w) (pads w) (hists w) (graphs w) x (gPad w) (stdout w).
Definition with_gPad (x : Ref) (w : World) : World :=
  mkWorld (figures w) (pads w) (hists w) (graphs w) (current_figure w) x (stdout w).
Definition with_stdout (x : list string) (w : World) : World :=
  mkWorld (figures w) (pads w) (hists w) (graphs w) (current_figure w) (gPad w) x.

Definition Py (A : Type) : Type := World -> Result A * World.

Definition ret {A} (a : A) : Py A := fun w => (Ok a, w).
Definition raise {A} (e : Exception) : Py A := fun w => (Raise e, w).
Definition bind {A B} (m : Py A) (k : A -> Py B) : Py B :=
  fun w => match m w with
           | (Ok a, w') => k a w'
           | (Raise e, w') => (Raise e, w')
           end.

Declare Scope py_scope.
Delimit Scope py_scope with py.
Notation "x <- m ;; k" := (bind m (fun x => k))
  (at level 100, m at next level, right associativity) : py_scope.
Notation "m ;; k" := (bind m (fun _ => k))
  (at level 100, right associativity) : py_scope.
#[local] Open Scope py_scope.

(** [try: m except e: handler]: only the exception [e] is caught. *)
Definition Exception_eqb (a b : Exception) : bool :=
  match a, b with
  | TypeError, TypeError | IndexError, IndexError
  | AttributeError, AttributeError | LookupError, LookupError
  | ValueError, ValueError | ZeroDivisionError, ZeroDivisionError
  | UnboundLocalError, UnboundLocalError => true
  | _, _ => false
  end.

Definition try_except {A} (m : Py A) (e : Exception) (handler : Py A) : Py A :=
  fun w => match m w with
           | (Ok a, w') => (Ok a, w')
           | (Raise e', w') => if Exception_eqb e e' then handler w'
                               else (Raise e', w')
           end.

(** A [for] loop whose body ends an iteration normally or by [continue]
    ([Next]) or leaves the loop by [break] ([Break]). *)
Inductive Flow := Next | Break.

Fixpoint for_each {A} (l : list A) (body : A -> Py Flow) : Py unit :=
  match l with
  | [] => ret tt
  | x :: l' => c <- body x ;;
               match c with
               | Next => for_each l' body
               | Break => ret tt
               end
  end.

(** [a / float(b)] on Python floats: a zero divisor raises. *)
Definition py_div (a b : float) : Py float :=
  if PrimFloat.eqb b 0%float then raise ZeroDivisionError
  else ret (a / b)%float.

Definition print (line : string) : Py unit :=
  fun w => (Ok tt, with_stdout (stdout w ++ [line]) w).

(* ===================================================================== *)
(** ** Access to the store                                                *)
(* ===================================================================== *)

(** A reference that names no object of the store has no attribute: an
    attribute access through it raises AttributeError, as on [None]. *)
Definition is_object (w : World) (r : Ref) : bool :=
  match r with
  | RNone => false
  | RFigure i => bool_decide (is_Some (figures w !! i))
  | RPad i => bool_decide (is_Some (pads w !! i))
  | RHist i => bool_decide (is_Some (hists w !! i))
  | RGraph i => bool_decide (is_Some (graphs w !! i))
  | ROpaque _ => true
  end.

Definition get_Figure (r : Ref) : Py Figure := fun w =>
  match r with
  | RFigure i => match figures w !! i with
                 | Some f => (Ok f, w)
                 | None => (Raise AttributeError, w)
                 end
  | _ => (Raise AttributeError, w)
  end.

Definition update_Figure (r : Ref) (f : Figure -> Figure) : Py unit := fun w =>
  match r with
  | RFigure i => match figures w !! i with
                 | Some x => (Ok tt, with_figures (<[i := f x]> (figures w)) w)
                 | None => (Raise AttributeError, w)
                 end
  | _ => (Raise AttributeError, w)
  end.

Definition get_TPad (r : Ref) : Py TPad := fun w =>
  match r with
  | RPad i => match pads w !! i with
              | Some p => (Ok p, w)
              | None => (Raise AttributeError, w)
              end
  | _ => (Raise AttributeError, w)
  end.

Definition update_TPad (r : Ref) (f : TPad -> TPad) : Py unit := fun w =>
  match r with
  | RPad i => match pads w !! i with
              | Some p => (Ok tt, with_pads (<[i := f p]> (pads w)) w)
              | None => (Raise AttributeError, w)
              end
  | _ => (Raise AttributeError, w)
  end.

Definition get_TH1 (r : Ref) : Py TH1 := fun w =>
  match r with
  | RHist i => match hists w !! i with
               | Some h => (Ok h, w)
               | None => (Raise AttributeError, w)
               end
  | _ => (Raise AttributeError, w)
  end.

Definition update_TH1 (r : Ref) (f : TH1 -> TH1) : Py unit := fun w =>
  match r with
  | RHist i => match hists w !! i with
               | Some h => (Ok tt, with_hists (<[i := f h]> (hists w)) w)
               | None => (Raise AttributeError, w)
               end
  | _ => (Raise AttributeError, w)
  end.

Definition new_TH1 (h : TH1) : Py Ref := fun w =>
  (Ok (RHist (length (hists w))), with_hists (hists w ++ [h]) w).

(* ===================================================================== *)
(** ** The plotting library: canvases and pads                            *)
(* ===================================================================== *)

Definition set_fBottomMargin (v : float) (p : TPad) : TPad :=
  mkTPad (pName p) (pTitle p) (pCanvasSize p) (fXlowNDC p) (fYlowNDC p)
         (fXupNDC p) (fYupNDC p) v (fTopMargin p) (fRightMargin p)
         (fLeftMargin p) (fFillColor p) (fFillStyle p) (fPrimitives p).
Definition set_fTopMargin (v : float) (p : TPad) : TPad :=
  mkTPad (pName p) (pTitle p) (pCanvasSize p) (fXlowNDC p) (fYlowNDC p)
         (fXupNDC p) (fYupNDC p) (fBottomMargin p) v (fRightMargin p)
         (fLeftMargin p) (fFillColor p) (fFillStyle p) (fPrimitives p).
Definition set_fRightMargin (v : float) (p : TPad) : TPad :=
  mkTPad (pName p) (pTitle p) (pCanvasSize p) (fXlowNDC p) (fYlowNDC p)
         (fXupNDC p) (fYupNDC p) (fBottomMargin p) (fTopMargin p) v
         (fLeftMargin p) (fFillColor p) (fFillStyle p) (fPrimitives p).
Definition set_fLeftMargin (v : float) (p : TPad) : TPad :=
  mkTPad (pName p) (pTitle p) (pCanvasSize p) (fXlowNDC p) (fYlowNDC p)
         (fXupNDC p) (fYupNDC p) (fBottomMargin p) (fTopMargin p)
         (fRightMargin p) v (fFillColor p) (fFillStyle p) (fPrimitives p).
Definition set_fFillColor (v : Z) (p : TPad) : TPad :=
  mkTPad (pName p) (pTitle p) (pCanvasSize p) (fXlowNDC p) (fYlowNDC p)
         (fXupNDC p) (fYupNDC p) (fBottomMargin p) (fTopMargin p)
         (fRightMargin p) (fLeftMargin p) v (fFillStyle p) (fPrimitives p).
Definition set_fFillStyle (v : Z) (p : TPad) : TPad :=
  mkTPad (pName p) (pTitle p) (pCanvasSize p) (fXlowNDC p) (fYlowNDC p)
         (fXupNDC p) (fYupNDC p) (fBottomMargin p) (fTopMargin p)
         (fRightMargin p) (fLeftMargin p) (fFillColor p) v (fPrimitives p).
Definition set_fPrimitives (v : list (Ref * string)) (p : TPad) : TPad :=
  mkTPad (pName p) (pTitle p) (pCanvasSize p) (fXlowNDC p) (fYlowNDC p)
         (fXupNDC p) (fYupNDC p) (fBottomMargin p) (fTopMargin p)
         (fRightMargin p) (fLeftMargin p) (fFillColor p) (fFillStyle p) v.

(** A pad as its constructor leaves it: the extent given, the margins and
    fill of the default style, nothing drawn. *)
Definition fresh_pad (name title : string) (size : option (Z * Z))
           (xlow ylow xup yup : float) : TPad :=
  mkTPad name title size xlow ylow xup yup 0.1 0.1 0.1 0.1 0 1001 [].

(** [ROOT.TCanvas(name, title, canw, canh)]: the new canvas spans the whole
    surface and becomes the current pad. *)
Definition TCanvas (name title : string) (canw canh : Z) : Py Ref := fun w =>
  let r := RPad (length (pads w)) in
  (Ok r, with_gPad r
           (with_pads (pads w ++ [fresh_pad name title (Some (canw, canh))
                                            0 0 1 1]) w)).

(** [ROOT.TPad(name, title, xlow, ylow, xup, yup)]: a pad with that
    normalized extent; the current pad stays what it was. *)
Definition TPad_new (name title : string) (xlow ylow xup yup : float) : Py Ref :=
  fun w =>
  (Ok (RPad (length (pads w))),
   with_pads (pads w ++ [fresh_pad name title None xlow ylow xup yup]) w).

(** [pad.cd()] *)
Definition cd (r : Ref) : Py unit :=
  _ <- get_TPad r ;; fun w => (Ok tt, with_gPad r w).

(** [pad.GetHNDC()]: the height of the pad in normalized coordinates, 1 for
    a canvas. *)
Definition HNDC (p : TPad) : float := (fYupNDC p - fYlowNDC p)%float.
Definition GetHNDC (r : Ref) : Py float := p <- get_TPad r ;; ret (HNDC p).

Definition GetName (r : Ref) : Py string := fun w =>
  match r with
  | RPad i => match pads w !! i with
              | Some p => (Ok (pName p), w) | None => (Raise AttributeError, w)
              end
  | RHist i => match hists w !! i with
               | Some h => (Ok (fName h), w) | None => (Raise AttributeError, w)
               end
  | RGraph i => match graphs w !! i with
                | Some g => (Ok (gName g), w) | None => (Raise AttributeError, w)
                end
  | _ => (Raise AttributeError, w)
  end.

Definition GetListOfPrimitives (r : Ref) : Py (list Ref) :=
  p <- get_TPad r ;; ret (map fst (fPrimitives p)).

(** [obj.Draw(option)]: the object joins the list of primitives of the
    current pad, with its option. *)
Definition Draw (obj : Ref) (option : string) : Py unit := fun w =>
  if negb (is_object w obj) then (Raise AttributeError, w)
  else if Ref_eqb (gPad w) obj then (Ok tt, w)
  else update_TPad (gPad w)
         (fun p => set_fPrimitives (fPrimitives p ++ [(obj, option)]) p) w.

(** [pad.Modified()] and [pad.Update()] ask for a repaint; nothing of the
    modelled state changes, but the receiver has to be a pad. *)
Definition Modified (r : Ref) : Py unit := _ <- get_TPad r ;; ret tt.
Definition Update (r : Ref) : Py unit := _ <- get_TPad r ;; ret tt.

(* ===================================================================== *)
(** ** Figure (rootplotlib/figures.py)                                    *)
(* ===================================================================== *)

Fixpoint assoc {A} (k : string) (l : list (string * A)) : option A :=
  match l with
  | [] => None
  | (k', v) :: l' => if String.eqb k k' then Some v else assoc k l'
  end.

(** Modelled from the spec: [Figure(canvas)] wraps the surface, with no
    sub-region. *)
Definition Figure_new (canvas : Ref) : Py Ref := fun w =>
  (Ok (RFigure (length (figures w))),
   with_figures (figures w ++ [mkFigure canvas [] [] []]) w).

(** Modelled from the spec: [fig.append(pad)] registers a new named
    sub-region, after the ones registered before, and fails if the name
    already exists. The source passes the handle alone: the name is the
    handle's own. *)
Definition Figure_append (fig pad : Ref) : Py unit :=
  f <- get_Figure fig ;;
  name <- GetName pad ;;
  match assoc name (fig_pads f) with
  | Some _ => raise ValueError
  | None => update_Figure fig (fun f =>
              mkFigure (fig_canvas f) (fig_pads f ++ [(name, pad)])
                       (fig_xlabel f) (fig_ylabel f))
  end.

(** Modelled from the spec: [fig.get_pad(name)] resolves a region name to
    its handle, [None] to the whole surface, and fails with LookupError on
    an unknown name. (The spec says what [None] resolves to for a figure
    without sub-regions; the surface is taken for every figure.) *)
Definition Figure_get_pad (fig : Ref) (name : option string) : Py Ref :=
  f <- get_Figure fig ;;
  match name with
  | None => ret (fig_canvas f)
  | Some n => match assoc n (fig_pads f) with
              | Some r => ret r
              | None => raise LookupError
              end
  end.

(** Modelled from the spec: [fig.add_hist(hist, drawopt, pad)] resolves the
    region, issues the draw call with the option and so appends the series
    to the draw list of that region. *)
Definition Figure_add_hist (fig hist : Ref) (drawopt : string)
           (pad : option string) : Py unit :=
  region <- Figure_get_pad fig pad ;;
  cd region ;;
  Draw hist drawopt.

(** Modelled from the spec: [fig.set_xlabel(text, pad)] and
    [fig.set_ylabel(text, pad)] set the axis title text on the resolved
    region. *)
Definition Figure_set_xlabel (fig : Ref) (text : string)
           (pad : option string) : Py unit :=
  _ <- Figure_get_pad fig pad ;;
  update_Figure fig (fun f =>
    mkFigure (fig_canvas f) (fig_pads f) ((pad, text) :: fig_xlabel f)
             (fig_ylabel f)).

(** Modelled from the spec: see [fig.set_xlabel]. *)
Definition Figure_set_ylabel (fig : Ref) (text : string)
           (pad : option string) : Py unit :=
  _ <- Figure_get_pad fig pad ;;
  update_Figure fig (fun f =>
    mkFigure (fig_canvas f) (fig_pads f) (fig_xlabel f)
             ((pad, text) :: fig_ylabel f)).

(* ===================================================================== *)
(** ** rootplotlib/__init__.py                                            *)
(* ===================================================================== *)

(** [type(canvas) is Figure] *)
Definition type_is_Figure (r : Ref) : bool :=
  match r with RFigure _ => true | _ => false end.

Definition set_figure (canvas : Ref) : Py unit :=
  if type_is_Figure canvas then
    fun w => (Ok tt, with_current_figure canvas w)
  else
    f <- Figure_new canvas ;;
    fun w => (Ok tt, with_current_figure f w).

Definition get_figure : Py Ref := fun w => (Ok (current_figure w), w).

(* ===================================================================== *)
(** ** rootplotlib/canvas.py: the builders                                *)
(* ===================================================================== *)

Definition create_canvas (name title : string) (canw canh : Z) : Py Ref :=
  canvas <- TCanvas name title canw canh ;;
  fig <- Figure_new canvas ;;
  set_figure fig ;;
  ret fig.

Definition create_ratio_canvas (name title : string) (canw canh : Z)
           (ratio_size_as_fraction : float) (drawopt : string) : Py Ref :=
  canvas <- TCanvas name title canw canh ;;
  fig <- Figure_new canvas ;;
  set_figure fig ;;
  update_TPad canvas (set_fFillStyle 4050) ;;
  (* Top *)
  cd canvas ;;
  top <- TPad_new "pad_top" "This is the top pad"
                  0.0 ratio_size_as_fraction 1.0 1.0 ;;
  h <- GetHNDC top ;; m <- py_div 0.02 h ;;
  update_TPad top (set_fBottomMargin m) ;;
  h <- GetHNDC top ;; m <- py_div 0.04 h ;;
  update_TPad top (set_fTopMargin m) ;;
  update_TPad top (set_fRightMargin 0.05) ;;
  update_TPad top (set_fLeftMargin 0.16) ;;
  update_TPad top (set_fFillColor 0) ;;
  Draw top drawopt ;;
  Figure_append fig top ;;
  (* Bot *)
  cd canvas ;;
  bot <- TPad_new "pad_bot" "This is the bottom pad"
                  0.0 0.0 1.0 ratio_size_as_fraction ;;
  h <- GetHNDC bot ;; m <- py_div 0.12 h ;;
  update_TPad bot (set_fBottomMargin m) ;;
  h <- GetHNDC bot ;; m <- py_div 0.02 h ;;
  update_TPad bot (set_fTopMargin m) ;;
  update_TPad bot (set_fRightMargin 0.05) ;;
  update_TPad bot (set_fLeftMargin 0.16) ;;
  update_TPad bot (set_fFillColor 0) ;;
  Draw bot drawopt ;;
  Figure_append fig bot ;;
  ret fig.

(* ===================================================================== *)
(** ** The plotting library: drawables with axes                          *)
(* ===================================================================== *)

Definition set_fName (v : string) (h : TH1) : TH1 :=
  mkTH1 v (fNbinsX h) (fArray h) (fAtt h) (fXaxis h) (fYaxis h) (fZaxis h).
Definition set_fArray (v : list float) (h : TH1) : TH1 :=
  mkTH1 (fName h) (fNbinsX h) v (fAtt h) (fXaxis h) (fYaxis h) (fZaxis h).
Definition set_fAtt (v : TAtt) (h : TH1) : TH1 :=
  mkTH1 (fName h) (fNbinsX h) (fArray h) v (fXaxis h) (fYaxis h) (fZaxis h).
Definition set_fXaxis (v : TAxis) (h : TH1) : TH1 :=
  mkTH1 (fName h) (fNbinsX h) (fArray h) (fAtt h) v (fYaxis h) (fZaxis h).
Definition set_fYaxis (v : TAxis) (h : TH1) : TH1 :=
  mkTH1 (fName h) (fNbinsX h) (fArray h) (fAtt h) (fXaxis h) v (fZaxis h).
Definition set_fZaxis (v : TAxis) (h : TH1) : TH1 :=
  mkTH1 (fName h) (fNbinsX h) (fArray h) (fAtt h) (fXaxis h) (fYaxis h) v.

Definition set_gAtt (v : TAtt) (g : TGraph) : TGraph :=
  mkTGraph (gName g) v (gXaxis g) (gYaxis g).
Definition set_gXaxis (v : TAxis) (g : TGraph) : TGraph :=
  mkTGraph (gName g) (gAtt g) v (gYaxis g).
Definition set_gYaxis (v : TAxis) (g : TGraph) : TGraph :=
  mkTGraph (gName g) (gAtt g) (gXaxis g) v.

Definition update_TGraph (r : Ref) (f : TGraph -> TGraph) : Py unit := fun w =>
  match r with
  | RGraph i => match graphs w !! i with
                | Some g => (Ok tt, with_graphs (<[i := f g]> (graphs w)) w)
                | None => (Raise AttributeError, w)
                end
  | _ => (Raise AttributeError, w)
  end.

(** [hasattr(primitive, 'GetXaxis')]: histograms and graphs have a
    horizontal (and a vertical) axis. *)
Definition has_GetXaxis (w : World) (r : Ref) : bool :=
  match r with
  | RHist i => bool_decide (is_Some (hists w !! i))
  | RGraph i => bool_decide (is_Some (graphs w !! i))
  | _ => false
  end.

(** [hasattr(primitive, 'GetZaxis')]: of the drawables, histograms only. *)
Definition has_GetZaxis (w : World) (r : Ref) : bool :=
  match r with
  | RHist i => bool_decide (is_Some (hists w !! i))
  | _ => false
  end.

Definition hasattr_GetXaxis (r : Ref) : Py bool :=
  fun w => (Ok (has_GetXaxis w r), w).
Definition hasattr_GetZaxis (r : Ref) : Py bool :=
  fun w => (Ok (has_GetZaxis w r), w).

(** [obj.GetXaxis().Set...(v)], [obj.GetYaxis().Set...(v)] and
    [obj.GetZaxis().Set...(v)]: the axis is part of the drawable and is
    changed in place. *)
Definition on_Xaxis (r : Ref) (f : TAxis -> TAxis) : Py unit :=
  match r with
  | RHist _ => update_TH1 r (fun h => set_fXaxis (f (fXaxis h)) h)
  | RGraph _ => update_TGraph r (fun g => set_gXaxis (f (gXaxis g)) g)
  | _ => raise AttributeError
  end.
Definition on_Yaxis (r : Ref) (f : TAxis -> TAxis) : Py unit :=
  match r with
  | RHist _ => update_TH1 r (fun h => set_fYaxis (f (fYaxis h)) h)
  | RGraph _ => update_TGraph r (fun g => set_gYaxis (f (gYaxis g)) g)
  | _ => raise AttributeError
  end.
Definition on_Zaxis (r : Ref) (f : TAxis -> TAxis) : Py unit :=
  match r with
  | RHist _ => update_TH1 r (fun h => set_fZaxis (f (fZaxis h)) h)
  | _ => raise AttributeError
  end.

(** The attribute setters of TAttLine and TAttMarker. *)
Definition on_Att (r : Ref) (f : TAtt -> TAtt) : Py unit :=
  match r with
  | RHist _ => update_TH1 r (fun h => set_fAtt (f (fAtt h)) h)
  | RGraph _ => update_TGraph r (fun g => set_gAtt (f (gAtt g)) g)
  | _ => raise AttributeError
  end.
Definition SetLineColor (r : Ref) (v : Z) : Py unit :=
  on_Att r (fun a => mkTAtt v (fMarkerColor a) (fMarkerStyle a) (fMarkerSize a)).
Definition SetMarkerColor (r : Ref) (v : Z) : Py unit :=
  on_Att r (fun a => mkTAtt (fLineColor a) v (fMarkerStyle a) (fMarkerSize a)).
Definition SetMarkerStyle (r : Ref) (v : Z) : Py unit :=
  on_Att r (fun a => mkTAtt (fLineColor a) (fMarkerColor a) v (fMarkerSize a)).
Definition SetMarkerSize (r : Ref) (v : float) : Py unit :=
  on_Att r (fun a => mkTAtt (fLineColor a) (fMarkerColor a) (fMarkerStyle a) v).

(* ===================================================================== *)
(** ** rootplotlib/canvas.py: the axis formatter                          *)
(* ===================================================================== *)

(** The keyword arguments of [format_canvas_axes]. A division spec is
    [None] or a list of integers. *)
Record AxesConfig := mkAxesConfig {
  XTitleSize : float;
  XTitleOffset : float;
  XTitleFont : Z;
  XLabelSize : float;
  XLabelOffset : float;
  XLabelFont : Z;
  XNDiv : option (list Z);
  YTitleSize : float;
  YTitleOffset : float;
  YTitleFont : Z;
  YLabelSize : float;
  YLabelOffset : float;
  YLabelFont : Z;
  YNDiv : option (list Z);
  ZTitleSize : float;
  ZTitleOffset : float;
  ZTitleFont : Z;
  ZLabelSize : float;
  ZLabelOffset : float;
  ZLabelFont : Z
}.

(** The defaults of the signature of [format_canvas_axes]. *)
Definition default_axes : AxesConfig :=
  mkAxesConfig 22 0.98 43 22 0.002 43 None
               22 1.75 43 22 0.006 43 (Some [10; 5; 0])
               22 0.85 43 22 0.002 43.

(** [if v:] on [None] or a list. *)
Definition truthy (v : option (list Z)) : bool :=
  match v with
  | Some (_ :: _) => true
  | _ => false
  end.

(** [v[i]]: [None] is not subscriptable, a list raises out of range. *)
Definition subscript (v : option (list Z)) (i : nat) : Py Z :=
  match v with
  | None => raise TypeError
  | Some l => match l !! i with
              | Some x => ret x
              | None => raise IndexError
              end
  end.

(** The body of the loop of [format_canvas_axes], for one primitive. *)
Definition format_primitive (c : AxesConfig) (canvas primitive : Ref) : Py Flow :=
  hx <- hasattr_GetXaxis primitive ;;
  if negb hx then ret Next else
  on_Xaxis primitive (SetTitleSize (XTitleSize c)) ;;
  h <- GetHNDC canvas ;; v <- py_div (XTitleOffset c) h ;;
  on_Xaxis primitive (SetTitleOffset v) ;;
  on_Xaxis primitive (SetTitleFont (XTitleFont c)) ;;
  on_Xaxis primitive (SetLabelSize (XLabelSize c)) ;;
  h <- GetHNDC canvas ;; v <- py_div (XLabelOffset c) h ;;
  on_Xaxis primitive (SetLabelOffset v) ;;
  on_Xaxis primitive (SetLabelFont (XLabelFont c)) ;;
  h <- GetHNDC canvas ;; v <- py_div 0.02 h ;;
  on_Xaxis primitive (SetTickLength v) ;;
  (if truthy (XNDiv c) then
     n1 <- subscript (XNDiv c) 0 ;;
     n2 <- subscript (XNDiv c) 1 ;;
     n3 <- subscript (XNDiv c) 2 ;;
     on_Xaxis primitive (SetNdivisions n1 n2 n3)
   else ret tt) ;;
  on_Yaxis primitive (SetTitleSize (YTitleSize c)) ;;
  on_Yaxis primitive (SetTitleOffset (YTitleOffset c)) ;;
  on_Yaxis primitive (SetTitleFont (YTitleFont c)) ;;
  on_Yaxis primitive (SetLabelSize (YLabelSize c)) ;;
  on_Yaxis primitive (SetLabelOffset (YLabelOffset c)) ;;
  on_Yaxis primitive (SetLabelFont (YLabelFont c)) ;;
  n1 <- subscript (YNDiv c) 0 ;;
  n2 <- subscript (YNDiv c) 1 ;;
  n3 <- subscript (YNDiv c) 2 ;;
  on_Yaxis primitive (SetNdivisions n1 n2 n3) ;;
  hz <- hasattr_GetZaxis primitive ;;
  if negb hz then ret Next else
  on_Zaxis primitive (SetTitleSize (ZTitleSize c)) ;;
  on_Zaxis primitive (SetTitleOffset (ZTitleOffset c)) ;;
  on_Zaxis primitive (SetTitleFont (ZTitleFont c)) ;;
  on_Zaxis primitive (SetLabelSize (ZLabelSize c)) ;;
  on_Zaxis primitive (SetLabelOffset (ZLabelOffset c)) ;;
  on_Zaxis primitive (SetLabelFont (ZLabelFont c)) ;;
  (* if here, we setup x, y and z axis *)
  ret Break.

(** [format_canvas_axes(pad=pad, fig=fig)] with the keywords [c]; [fig] is [RNone] for
    [fig=None]. *)
Definition format_canvas_axes (c : AxesConfig) (pad : option string)
           (fig : Ref) : Py unit :=
  fig <- (match fig with RNone => get_figure | _ => ret fig end) ;;
  canvas <- Figure_get_pad fig pad ;;
  prims <- GetListOfPrimitives canvas ;;
  for_each prims (format_primitive c canvas) ;;
  Modified canvas ;;
  Update canvas.

(** [format_ratio_canvas_axes(fig=fig)] with the keywords [c]: this function has no XNDiv
    and forwards no XNDiv; the top pad gets XLabelOffset 0.1, the bottom pad
    YLabelOffset 0.009 and the divisions [5,5,0]. *)
Definition format_ratio_canvas_axes (c : AxesConfig) (fig : Ref) : Py unit :=
  format_canvas_axes
    (mkAxesConfig (XTitleSize c) (XTitleOffset c) (XTitleFont c)
                  (XLabelSize c) 0.1 (XLabelFont c) None
                  (YTitleSize c) (YTitleOffset c) (YTitleFont c)
                  (YLabelSize c) (YLabelOffset c) (YLabelFont c) (YNDiv c)
                  (ZTitleSize c) (ZTitleOffset c) (ZTitleFont c)
                  (ZLabelSize c) (ZLabelOffset c) (ZLabelFont c))
    (Some "pad_top") fig ;;
  format_canvas_axes
    (mkAxesConfig (XTitleSize c) (XTitleOffset c) (XTitleFont c)
                  (XLabelSize c) (XLabelOffset c) (XLabelFont c) None
                  (YTitleSize c) (YTitleOffset c) (YTitleFont c)
                  (YLabelSize c) 0.009 (YLabelFont c) (Some [5; 5; 0])
                  (ZTitleSize c) (ZTitleOffset c) (ZTitleFont c)
                  (ZLabelSize c) (ZLabelOffset c) (ZLabelFont c))
    (Some "pad_bot") fig.

(* ===================================================================== *)
(** ** The plotting library: histogram contents                           *)
(* ===================================================================== *)

(** [obj.Clone()]: a new object, a copy of the receiver. *)
Definition Clone (r : Ref) : Py Ref := fun w =>
  match r with
  | RHist i => match hists w !! i with
               | Some h => new_TH1 h w
               | None => (Raise AttributeError, w)
               end
  | RGraph i => match graphs w !! i with
                | Some g => (Ok (RGraph (length (graphs w))),
                             with_graphs (graphs w ++ [g]) w)
                | None => (Raise AttributeError, w)
                end
  | _ => (Raise AttributeError, w)
  end.

Definition SetName (r : Ref) (name : string) : Py unit :=
  match r with
  | RHist _ => update_TH1 r (set_fName name)
  | RGraph _ => update_TGraph r (fun g => mkTGraph name (gAtt g) (gXaxis g) (gYaxis g))
  | _ => raise AttributeError
  end.

(** [TH1::Divide(den)] on the cells: content over content, and 0 where the
    denominator is 0; histograms with different numbers of cells are not
    divided (the library reports an error and leaves the receiver). *)
Definition div_cell (c0 c1 : float) : float :=
  if PrimFloat.eqb c1 0%float then 0%float else (c0 / c1)%float.

Fixpoint div_cells (num den : list float) : list float :=
  match num, den with
  | c0 :: num', c1 :: den' => div_cell c0 c1 :: div_cells num' den'
  | _, _ => []
  end.

Definition TH1_Divide (h den : TH1) : TH1 :=
  if Nat.eqb (length (fArray h)) (length (fArray den))
  then set_fArray (div_cells (fArray h) (fArray den)) h
  else h.

(** [h.Divide(den)]: the receiver has to be a histogram, and so has the
    argument (the binding refuses anything else with a TypeError). *)
Definition Divide (h den : Ref) : Py unit :=
  _ <- get_TH1 h ;;
  d <- try_except (get_TH1 den) AttributeError (raise TypeError) ;;
  update_TH1 h (fun x => TH1_Divide x d).

(** [h.Scale(c)] *)
Definition TH1_Scale (c : float) (h : TH1) : TH1 :=
  set_fArray (map (fun x => (c * x)%float) (fArray h)) h.
Definition Scale (h : Ref) (c : float) : Py unit := update_TH1 h (TH1_Scale c).

(** [h.Reset(option)]: every cell back to 0. *)
Definition TH1_Reset (h : TH1) : TH1 :=
  set_fArray (map (fun _ => 0%float) (fArray h)) h.
Definition Reset (h : Ref) (option : string) : Py unit := update_TH1 h TH1_Reset.

Definition GetNbinsX (h : Ref) : Py Z := x <- get_TH1 h ;; ret (fNbinsX x).

(** [TH1::GetBinContent(bin)]: a cell number below 0 reads cell 0, one
    past the last cell reads the last cell. *)
Definition TH1_GetBinContent (h : TH1) (bin : Z) : float :=
  let n := Z.of_nat (length (fArray h)) in
  let b := if bin <? 0 then 0 else if n <=? bin then n - 1 else bin in
  nth (Z.to_nat b) (fArray h) 0%float.
Definition GetBinContent (h : Ref) (bin : Z) : Py float :=
  x <- get_TH1 h ;; ret (TH1_GetBinContent x bin).

(** [TH1::SetBinContent(bin, content)]: a cell number outside the cells of
    the histogram writes nothing (the axes are not extendable). *)
Definition TH1_SetBinContent (bin : Z) (content : float) (h : TH1) : TH1 :=
  if (bin <? 0) || (Z.of_nat (length (fArray h)) <=? bin) then h
  else set_fArray (<[Z.to_nat bin := content]> (fArray h)) h.
Definition SetBinContent (h : Ref) (bin : Z) (content : float) : Py unit :=
  update_TH1 h (TH1_SetBinContent bin content).

(** [range(a, b)] *)
Definition py_range (a b : Z) : list Z :=
  map (fun k => a + Z.of_nat k) (seq 0 (Z.to_nat (b - a))).

(** [zip(a, b, c)] and [enumerate] *)
Definition zip3 {A B C} (a : list A) (b : list B) (c : list C)
  : list (A * (B * C)) := zip a (zip b c).

Fixpoint enumerate_from {A} (n : nat) (l : list A) : list (nat * A) :=
  match l with
  | [] => []
  | x :: l' => (n, x) :: enumerate_from (S n) l'
  end.
Definition enumerate {A} (l : list A) : list (nat * A) := enumerate_from 0 l.

(** A [for] loop over [l] whose body reads and assigns a local variable. *)
Fixpoint for_each_var {A S} (l : list A) (s : S) (body : S -> A -> Py S) : Py S :=
  match l with
  | [] => ret s
  | x :: l' => s' <- body s x ;; for_each_var l' s' body
  end.

(* ===================================================================== *)
(** ** rootplotlib/plots.py                                               *)
(* ===================================================================== *)

(** The dictionary [canvas_kwargs]: the keywords a canvas builder knows,
    each present or not, and the names of any other keyword in it. *)
Record CanvasKwargs := mkCanvasKwargs {
  kw_name : option string;
  kw_title : option string;
  kw_canw : option Z;
  kw_canh : option Z;
  kw_ratio_size_as_fraction : option float;
  kw_drawopt : option string;
  kw_others : list string
}.

Definition no_kwargs : CanvasKwargs :=
  mkCanvasKwargs None None None None None None [].

(** [if canvas_kwargs]: a dictionary is true when it is not empty. *)
Definition kwargs_truthy (k : CanvasKwargs) : bool :=
  negb (match kw_name k, kw_title k, kw_canw k, kw_canh k,
              kw_ratio_size_as_fraction k, kw_drawopt k, kw_others k with
        | None, None, None, None, None, None, [] => true
        | _, _, _, _, _, _, _ => false
        end).

(** [rpl.create_canvas] on the keywords of [canvas_kwargs]: [name] is required, and a
    keyword the builder does not have is a TypeError. *)
Definition create_canvas_kw (k : CanvasKwargs) : Py Ref :=
  match kw_name k, kw_ratio_size_as_fraction k, kw_drawopt k, kw_others k with
  | Some name, None, None, [] =>
      create_canvas name (default "" (kw_title k)) (default 700 (kw_canw k))
                    (default 500 (kw_canh k))
  | _, _, _, _ => raise TypeError
  end.

(** [rpl.create_ratio_canvas] on the keywords of [canvas_kwargs] *)
Definition create_ratio_canvas_kw (k : CanvasKwargs) : Py Ref :=
  match kw_name k, kw_others k with
  | Some name, [] =>
      create_ratio_canvas name (default "" (kw_title k))
        (default 700 (kw_canw k)) (default 500 (kw_canh k))
        (default 0.35%float (kw_ratio_size_as_fraction k))
        (default "pE1" (kw_drawopt k))
  | _, _ => raise TypeError
  end.

Definition add_hist (hist : Ref) (drawopt : string) (pad : option string) : Py unit :=
  fig <- get_figure ;;
  Figure_add_hist fig hist drawopt pad.

Definition hist_divide (num den : Ref) : Py Ref :=
  num_name <- GetName num ;;
  den_name <- GetName den ;;
  let ratio_name := num_name ++ "_over_" ++ den_name in
  ratio <- Clone num ;;
  SetName ratio ratio_name ;;
  Divide ratio den ;;
  ret ratio.

(** The body of the loop of [plot_hist]. *)
Definition plot_hist_body (fig : Ref) (drawopt : string)
           (item : Ref * (Z * Z)) : Py Flow :=
  let '(hist, (color, marker)) := item in
  on_Xaxis hist (SetLabelSize 0) ;;
  SetLineColor hist color ;;
  SetMarkerColor hist color ;;
  SetMarkerStyle hist marker ;;
  SetMarkerSize hist 1 ;;
  Figure_add_hist fig hist drawopt None ;;
  ret Next.

Definition plot_hist (hists : list Ref) (xlabel ylabel : string)
           (colors markers : list Z) (drawopt : string)
           (canvas_kwargs : CanvasKwargs) : Py Ref :=
  fig <- (if kwargs_truthy canvas_kwargs then create_canvas_kw canvas_kwargs
          else create_canvas "canvas" "" 700 500) ;;
  set_figure fig ;;
  for_each (zip3 hists colors markers) (plot_hist_body fig drawopt) ;;
  Figure_set_xlabel fig xlabel None ;;
  Figure_set_ylabel fig ylabel None ;;
  format_canvas_axes
    (mkAxesConfig 22 0.87 43 18 0.002 43 None
                  22 1.5 43 18 0.006 43 (Some [10; 5; 0])
                  22 0.85 43 22 0.002 43) None RNone ;;
  ret fig.

(** The body of the loop of [plot_hist_ratios]; the local variable
    [hist_ref] is unbound ([None]) until the iteration of index 0. *)
Definition plot_hist_ratios_body (fig : Ref) (ref_place drawopt : string)
           (hist_ref : option Ref) (item : nat * (Ref * (Z * Z)))
  : Py (option Ref) :=
  let '(idx, (hist, (color, marker))) := item in
  on_Xaxis hist (SetLabelSize 0) ;;
  SetLineColor hist color ;;
  SetMarkerColor hist color ;;
  SetMarkerStyle hist marker ;;
  SetMarkerSize hist 1 ;;
  Figure_add_hist fig hist drawopt (Some "pad_top") ;;
  if Nat.eqb idx 0 then ret (Some hist)
  else
    href <- (match hist_ref with
             | Some r => ret r
             | None => raise UnboundLocalError
             end) ;;
    hist_ratio <- (if String.eqb ref_place "den" then hist_divide hist href
                   else hist_divide href hist) ;;
    SetLineColor hist_ratio color ;;
    SetMarkerColor hist_ratio color ;;
    SetMarkerStyle hist_ratio marker ;;
    SetMarkerSize hist_ratio 1 ;;
    Figure_add_hist fig hist_ratio "P" (Some "pad_bot") ;;
    ret hist_ref.

(** [plot_hist_ratios] up to the end of its loop: the ratio canvas and the
    series drawn. *)
Definition plot_hist_ratios_draw (hists : list Ref) (colors markers : list Z)
           (ref_place drawopt : string) (canvas_kwargs : CanvasKwargs) : Py Ref :=
  fig <- (if kwargs_truthy canvas_kwargs then create_ratio_canvas_kw canvas_kwargs
          else create_ratio_canvas "canvas" "" 700 500 0.35 "pE1") ;;
  set_figure fig ;;
  for_each_var (enumerate (zip3 hists colors markers)) None
               (plot_hist_ratios_body fig ref_place drawopt) ;;
  ret fig.

(* ===================================================================== *)
(** ** rootplotlib/hist2d.py                                              *)
(* ===================================================================== *)

(** The sequences [fill] receives: a Python list, a numpy array, an
    [array('d')] or a tuple, of floats. *)
Inductive PySeq :=
| PyList (l : list float)
| NdArray (l : list float)
| ArrayD (l : list float)
| PyTuple (l : list float).

Definition items (s : PySeq) : list float :=
  match s with PyList l | NdArray l | ArrayD l | PyTuple l => l end.

(** [len(s)] *)
Definition len (s : PySeq) : Z := Z.of_nat (length (items s)).

Definition type_is_list (s : PySeq) : bool :=
  match s with PyList _ => true | _ => false end.

(** [type(s) is np.array or type(s) is np.ndarray]: [np.array] is a
    function, no object has it as its type. *)
Definition type_is_ndarray (s : PySeq) : bool :=
  match s with NdArray _ => true | _ => false end.

(** [s.tolist()]: numpy arrays and [array('d')] have it, tuples and lists
    do not. *)
Definition tolist (s : PySeq) : Py (list float) :=
  match s with
  | NdArray l | ArrayD l => ret l
  | _ => raise AttributeError
  end.

(** [np.ones_like(s)] *)
Definition ones_like (s : PySeq) : list float := map (fun _ => 1%float) (items s).

Definition fill_message : string :=
  "It is not possible to fill the histogram. x/y values must be the same size".

Definition divide (hist_num hist_den : Ref) : Py Ref :=
  h <- Clone hist_num ;;
  name <- GetName hist_num ;;
  SetName h (name ++ "_ratio")%string ;;
  Divide h hist_den ;;
  ret h.

Definition shift (hist : Ref) (shift_units : Z) : Py Ref :=
  h <- Clone hist ;;
  name <- GetName hist ;;
  SetName h (name ++ "_shift")%string ;;
  Reset h "M" ;;
  n <- GetNbinsX hist ;;
  for_each (py_range 1 n) (fun b =>
    content <- GetBinContent hist b ;;
    SetBinContent h (b + shift_units) content ;;
    ret Next) ;;
  ret h.

Section Library.

(** What the sources leave to the plotting library and to modules that are
    not among them: the integral of a histogram, the two ways of filling a
    2D histogram (the vectorized one can raise, and the code catches its
    TypeError), and [rootplotlib.axis.set_axis_labels]. *)
Variable TH1_Integral : TH1 -> float.
Variable TH2_FillN : TH1 -> Z -> PySeq -> PySeq -> list float -> Result TH1.
Variable TH2_Fill : TH1 -> float -> float -> TH1.
Variable set_axis_labels : string -> string -> string -> Py unit.

Definition Integral (h : Ref) : Py float := x <- get_TH1 h ;; ret (TH1_Integral x).

Definition FillN (hist : Ref) (n : Z) (x y : PySeq) (w : list float) : Py unit :=
  h <- get_TH1 hist ;;
  match TH2_FillN h n x y w with
  | Ok h' => update_TH1 hist (fun _ => h')
  | Raise e => raise e
  end.

Definition Fill (hist : Ref) (x y : float) : Py unit :=
  update_TH1 hist (fun h => TH2_Fill h x y).

Definition fill (hist : Ref) (xvalues yvalues : PySeq) : Py unit :=
  let w := ones_like xvalues in
  (* treat x values *)
  xvalues <- (if type_is_list xvalues then ret (ArrayD (items xvalues))
              else if type_is_ndarray xvalues then
                l <- tolist xvalues ;; ret (ArrayD l)
              else ret xvalues) ;;
  (* treat y values *)
  yvalues <- (if type_is_list yvalues then ret (ArrayD (items yvalues))
              else if type_is_ndarray xvalues then
                l <- tolist yvalues ;; ret (ArrayD l)
              else ret yvalues) ;;
  if negb (len xvalues =? len yvalues) then
    print fill_message
  else
    try_except (FillN hist (len xvalues) xvalues yvalues w) TypeError
      (for_each (zip (items xvalues) (items yvalues)) (fun '(xval, yval) =>
         Fill hist xval yval ;; ret Next)).

Definition density (hist : Ref) : Py Ref :=
  h <- Clone hist ;;
  name <- GetName hist ;;
  SetName h (name ++ "_density")%string ;;
  i <- Integral h ;;
  c <- py_div 1 i ;;
  Scale h c ;;
  ret h.

Definition plot_hist_ratios (hists : list Ref) (xlabel ylabel ratio_label : string)
           (colors markers : list Z) (ref_place drawopt : string)
           (canvas_kwargs : CanvasKwargs) : Py Ref :=
  fig <- plot_hist_ratios_draw hists colors markers ref_place drawopt
                               canvas_kwargs ;;
  Figure_set_xlabel fig xlabel (Some "pad_bot") ;;
  Figure_set_ylabel fig ratio_label (Some "pad_bot") ;;
  Figure_set_ylabel fig ylabel (Some "pad_top") ;;
  set_axis_labels xlabel ylabel ratio_label ;;
  format_ratio_canvas_axes
    (mkAxesConfig 22 0 43 22 0.002 43 None
                  22 1.75 43 22 0.006 43 (Some [10; 5; 0])
                  22 0.85 43 22 0.002 43) fig ;;
  ret fig.

Definition plot_profiles (hists : list Ref) (xlabel ylabel : string)
           (colors markers : list Z) (drawopt : string) (doRatioCanvas : bool)
           (ratio_label ref_place : string) (canvas_kwargs : CanvasKwargs)
  : Py Ref :=
  let doRatio := doRatioCanvas && (1 <? Z.of_nat (length hists)) in
  if doRatio then
    plot_hist_ratios hists xlabel ylabel ratio_label colors markers ref_place
                     drawopt canvas_kwargs
  else
    plot_hist hists xlabel ylabel colors markers drawopt canvas_kwargs.

End Library.


(* ===================================================================== *)
(** * Specification-level definitions                                     *)
(* ===================================================================== *)

(** What the properties below say about the program: the effect of the
    formatter on one axis and on one drawable, the part of a world a helper
    leaves alone, the style and the ratio a plot gives a histogram, and a
    few concrete worlds to run the program on. *)

#[local] Close Scope string_scope.

(** [frame w w']: every object of [w] is in [w'] as it was; [w'] may hold
    new histograms and graphs, after the old ones. *)
Definition frame (w w' : World) : Prop :=
  (exists e, hists w' = hists w ++ e) /\
  (exists e, graphs w' = graphs w ++ e) /\
  figures w' = figures w /\ pads w' = pads w /\
  current_figure w' = current_figure w /\ gPad w' = gPad w /\
  stdout w' = stdout w.

(** A helper that returns, returns the histogram it has just created. *)
Definition returns_fresh_clone (w : World) (res : Result Ref) (w' : World) : Prop :=
  match res with
  | Ok r => r = RHist (length (hists w)) /\
            length (hists w') = S (length (hists w))
  | Raise _ => True
  end.

(** One iteration of the loop of [shift], on the clone. *)
Definition shift_step (h : TH1) (s : Z) (acc : TH1) (b : Z) : TH1 :=
  TH1_SetBinContent (b + s) (TH1_GetBinContent h b) acc.

(** The histogram [shift] builds from [h]: the renamed, reset clone, then
    the writes of the loop over [range(1, h.GetNbinsX())]. *)
Definition shift_TH1 (h : TH1) (s : Z) : TH1 :=
  fold_left (shift_step h s) (py_range 1 (fNbinsX h))
            (TH1_Reset (set_fName (fName h ++ "_shift")%string h)).

(** Membership in a list of integers, as a boolean. *)
Definition mem_Z (x : Z) (l : list Z) : bool := existsb (Z.eqb x) l.

(** The three entries [v[0], v[1], v[2]] of a division spec, when it has
    them. *)
Definition first_three (v : option (list Z)) : option (Z * Z * Z) :=
  match v with
  | Some (n1 :: n2 :: n3 :: _) => Some (n1, n2, n3)
  | _ => None
  end.

(** [SetNdivisions] with the entries of [v], nothing when [v] has none. *)
Definition apply_ndiv (v : option (list Z)) (a : TAxis) : TAxis :=
  match first_three v with
  | Some (n1, n2, n3) => SetNdivisions n1 n2 n3 a
  | None => a
  end.

(** The horizontal axis after the formatter, in a region of height
    [hndc]: the three lengths are divided by the height. *)
Definition format_Xaxis (c : AxesConfig) (hndc : float) (a : TAxis) : TAxis :=
  apply_ndiv (XNDiv c)
    (SetTickLength (0.02 / hndc)
       (SetLabelFont (XLabelFont c)
          (SetLabelOffset (XLabelOffset c / hndc)
             (SetLabelSize (XLabelSize c)
                (SetTitleFont (XTitleFont c)
                   (SetTitleOffset (XTitleOffset c / hndc)
                      (SetTitleSize (XTitleSize c) a))))))).

(** The vertical axis after the formatter. *)
Definition format_Yaxis (c : AxesConfig) (a : TAxis) : TAxis :=
  apply_ndiv (YNDiv c)
    (SetLabelFont (YLabelFont c)
       (SetLabelOffset (YLabelOffset c)
          (SetLabelSize (YLabelSize c)
             (SetTitleFont (YTitleFont c)
                (SetTitleOffset (YTitleOffset c)
                   (SetTitleSize (YTitleSize c) a)))))).

(** The depth axis after the formatter. *)
Definition format_Zaxis (c : AxesConfig) (a : TAxis) : TAxis :=
  SetLabelFont (ZLabelFont c)
    (SetLabelOffset (ZLabelOffset c)
       (SetLabelSize (ZLabelSize c)
          (SetTitleFont (ZTitleFont c)
             (SetTitleOffset (ZTitleOffset c)
                (SetTitleSize (ZTitleSize c) a))))).

(** A histogram after the formatter: its three axes. *)
Definition format_TH1 (c : AxesConfig) (hndc : float) (h : TH1) : TH1 :=
  mkTH1 (fName h) (fNbinsX h) (fArray h) (fAtt h)
        (format_Xaxis c hndc (fXaxis h)) (format_Yaxis c (fYaxis h))
        (format_Zaxis c (fZaxis h)).

(** A graph after the formatter: its two axes. *)
Definition format_TGraph (c : AxesConfig) (hndc : float) (g : TGraph) : TGraph :=
  mkTGraph (gName g) (gAtt g) (format_Xaxis c hndc (gXaxis g))
           (format_Yaxis c (gYaxis g)).

(** The division specs the loop body can read without an exception: XNDiv
    false ([None] or empty) or of three entries at least, YNDiv of three
    entries at least. *)
Definition config_ok (c : AxesConfig) : bool :=
  (negb (truthy (XNDiv c)) || bool_decide (is_Some (first_three (XNDiv c))))
  && bool_decide (is_Some (first_three (YNDiv c))).

(** Equality of references is decidable. *)
#[global] Instance Ref_eq_dec : EqDecision Ref.
Proof. solve_decision. Defined.

(** The drawables the loop of [format_canvas_axes] reaches and formats:
    those with a horizontal axis, in the order of the list, up to and
    including the first one that also has a depth axis (where the loop
    breaks). *)
Fixpoint formatted (w : World) (prims : list Ref) : list Ref :=
  match prims with
  | [] => []
  | r :: rest =>
      if has_GetXaxis w r then
        r :: (if has_GetZaxis w r then [] else formatted w rest)
      else formatted w rest
  end.

(** [w'] differs from [w] in the contents of histograms and graphs only. *)
Definition same_but_drawables (w w' : World) : Prop :=
  figures w' = figures w /\ pads w' = pads w /\
  current_figure w' = current_figure w /\ gPad w' = gPad w /\
  stdout w' = stdout w /\
  length (hists w') = length (hists w) /\
  length (graphs w') = length (graphs w).

(** The figure [format_canvas_axes] works on: the current one for
    [fig=None]. *)
Definition target_figure (w : World) (fig : Ref) : Ref :=
  match fig with RNone => current_figure w | _ => fig end.

(** The primitives of a region, as [GetListOfPrimitives] lists them. *)
Definition region_primitives (pd : TPad) : list Ref := map fst (fPrimitives pd).

(** The title offset, the label offset and the tick length of a
    horizontal axis are the configured title and label offsets and the fixed
    0.02, each divided by the height of the region. *)
Definition X_offsets_scaled (c : AxesConfig) (hndc : float) (a : TAxis) : Prop :=
  fTitleOffset a = (XTitleOffset c / hndc)%float /\
  fLabelOffset a = (XLabelOffset c / hndc)%float /\
  fTickLength a = (0.02 / hndc)%float.

(** The title and label offsets of a vertical axis are the configured
    ones, as they are. *)
Definition Y_offsets_plain (c : AxesConfig) (a : TAxis) : Prop :=
  fTitleOffset a = YTitleOffset c /\ fLabelOffset a = YLabelOffset c.

(** The title and label offsets of a depth axis are the configured ones,
    as they are. *)
Definition Z_offsets_plain (c : AxesConfig) (a : TAxis) : Prop :=
  fTitleOffset a = ZTitleOffset c /\ fLabelOffset a = ZLabelOffset c.

(** XNDiv is false or has three entries at least. *)
Definition xndiv_ok (c : AxesConfig) : bool :=
  negb (truthy (XNDiv c)) || bool_decide (is_Some (first_three (XNDiv c))).

(** A histogram after the five style calls of a plot loop. *)
Definition style_TH1 (color marker : Z) (h : TH1) : TH1 :=
  set_fAtt (mkTAtt color color marker 1)
           (set_fXaxis (SetLabelSize 0 (fXaxis h)) h).

(** A ratio histogram after its four style calls. *)
Definition mark_TH1 (color marker : Z) (h : TH1) : TH1 :=
  set_fAtt (mkTAtt color color marker 1) h.

(** A region after one more drawable was drawn into it. *)
Definition draw_into (hist : Ref) (opt : string) (pd : TPad) : TPad :=
  set_fPrimitives (fPrimitives pd ++ [(hist, opt)]) pd.

(** The histogram [hist_divide] builds: the renamed clone of the
    numerator, divided by the denominator. *)
Definition ratio_TH1 (num den : TH1) : TH1 :=
  TH1_Divide (set_fName (fName num ++ "_over_" ++ fName den)%string num) den.

(** [r] is a histogram of the world. *)
Definition is_hist (w : World) (r : Ref) : bool :=
  match r with
  | RHist j => bool_decide (j < length (hists w))%nat
  | _ => false
  end.

(** The histogram number [j] after the loop of a plot over [items]: each
    item that is this histogram restyles it, in order. *)
Fixpoint style_all (items : list (Ref * (Z * Z))) (j : nat) (h : TH1) : TH1 :=
  match items with
  | [] => h
  | (r, (c, m)) :: rest =>
      style_all rest j (if bool_decide (r = RHist j) then style_TH1 c m h else h)
  end.

(** Keywords [create_canvas] accepts: none, or a name and nothing the
    builder does not have. *)
Definition canvas_kwargs_ok (k : CanvasKwargs) : bool :=
  negb (kwargs_truthy k)
  || match kw_name k, kw_ratio_size_as_fraction k, kw_drawopt k, kw_others k with
     | Some _, None, None, [] => true
     | _, _, _, _ => false
     end.

(** The normalized vertical extent of a region. *)
Definition pad_extent (p : TPad) : float * float := (fYlowNDC p, fYupNDC p).

(** The figure [create_ratio_canvas] leaves, its canvas being the pad
    number [np]: the top pad, then the bottom pad. *)
Definition ratio_figure (np : nat) : Figure :=
  mkFigure (RPad np)
           [("pad_top"%string, RPad (S np)); ("pad_bot"%string, RPad (S (S np)))]
           [] [].

(** The cells [TH1_Divide] leaves, from the cells of both histograms. *)
Definition cells_divide (num den : list float) : list float :=
  if Nat.eqb (length num) (length den) then div_cells num den else num.





(** The ratio histogram one iteration of [plot_hist_ratios] creates. *)
Definition ratio_new (ref_place : string) (c m : Z) (hnum hden : TH1) : TH1 :=
  mark_TH1 c m (if String.eqb ref_place "den" then ratio_TH1 hnum hden
                else ratio_TH1 hden hnum).

(** The ratio fraction [plot_hist_ratios] builds its canvas with. *)
Definition kwargs_ratio (k : CanvasKwargs) : float :=
  if kwargs_truthy k then default 0.35%float (kw_ratio_size_as_fraction k)
  else 0.35%float.

(** Keywords [create_ratio_canvas] accepts and builds two pads of
    non-zero height from: none, or a name, no unknown keyword and a
    fraction that is neither 0 nor 1. *)
Definition ratio_kwargs_ok (k : CanvasKwargs) : bool :=
  (negb (kwargs_truthy k)
   || match kw_name k, kw_others k with
      | Some _, [] => true
      | _, _ => false
      end)
  && negb (PrimFloat.eqb (1.0 - kwargs_ratio k) 0)
  && negb (PrimFloat.eqb (kwargs_ratio k - 0.0) 0).


(* ===================================================================== *)
(** ** Further specification-level definitions                            *)
(* ===================================================================== *)

(** The clones and the arguments the 2D helpers hand to the library, the
    keywords the formatter is called with by the ratio formatter and by
    [plot_hist], the ratio fractions [create_ratio_canvas] fails on, and
    the relations between the world before and the world after a call
    that say what the call has left alone. *)

(** The clone [density] works on: the copy of [h] under its new name. *)
Definition density_clone (h : TH1) : TH1 :=
  set_fName (fName h ++ "_density")%string h.

(** The x values as [fill] hands them to the library: a list and a numpy
    array have become an [array('d')]. *)
Definition fill_xvalues (x : PySeq) : PySeq :=
  match x with
  | PyList l | NdArray l => ArrayD l
  | _ => x
  end.

(** The y values as [fill] hands them to the library: a list has become an
    [array('d')]; a numpy array has not, since the test of that branch looks
    at the x values, which are no numpy array any more. *)
Definition fill_yvalues (y : PySeq) : PySeq :=
  match y with
  | PyList l => ArrayD l
  | _ => y
  end.

(** The histogram after [hist.Fill(xval, yval)] for each pair, in order. *)
Definition fill_each (TH2_Fill : TH1 -> float -> float -> TH1)
           (h : TH1) (pairs : list (float * float)) : TH1 :=
  fold_left (fun acc p => TH2_Fill acc p.1 p.2) pairs h.

(** The keywords [format_ratio_canvas_axes] formats the top pad with: its
    own, but for the X label offset, which is 0.1, and no X divisions. *)
Definition top_axes (c : AxesConfig) : AxesConfig :=
  mkAxesConfig (XTitleSize c) (XTitleOffset c) (XTitleFont c)
               (XLabelSize c) 0.1 (XLabelFont c) None
               (YTitleSize c) (YTitleOffset c) (YTitleFont c)
               (YLabelSize c) (YLabelOffset c) (YLabelFont c) (YNDiv c)
               (ZTitleSize c) (ZTitleOffset c) (ZTitleFont c)
               (ZLabelSize c) (ZLabelOffset c) (ZLabelFont c).

(** The keywords [format_ratio_canvas_axes] formats the bottom pad with:
    its own, but for the Y label offset, which is 0.009, the Y divisions,
    which are [5,5,0], and no X divisions. *)
Definition bot_axes (c : AxesConfig) : AxesConfig :=
  mkAxesConfig (XTitleSize c) (XTitleOffset c) (XTitleFont c)
               (XLabelSize c) (XLabelOffset c) (XLabelFont c) None
               (YTitleSize c) (YTitleOffset c) (YTitleFont c)
               (YLabelSize c) 0.009 (YLabelFont c) (Some [5; 5; 0])
               (ZTitleSize c) (ZTitleOffset c) (ZTitleFont c)
               (ZLabelSize c) (ZLabelOffset c) (ZLabelFont c).

(** [f] applied when [b] holds. *)
Definition when {A} (b : bool) (f : A -> A) (x : A) : A := if b then f x else x.

(** The keywords [plot_hist] calls the formatter with. *)
Definition plot_hist_axes : AxesConfig :=
  mkAxesConfig 22 0.87 43 18 0.002 43 None
               22 1.5 43 18 0.006 43 (Some [10; 5; 0])
               22 0.85 43 22 0.002 43.


(** An action preserves a relation on worlds when the world it leaves,
    whether it returns or raises, is related to the world it started
    from. *)
Definition preserves (R : relation World) {A} (m : Py A) : Prop :=
  forall w, R w (snd (m w)).

(** A histogram and a graph without their axes. *)
Definition TH1_but_axes (h : TH1) : string * Z * list float * TAtt :=
  (fName h, fNbinsX h, fArray h, fAtt h).

Definition TGraph_but_axes (g : TGraph) : string * TAtt := (gName g, gAtt g).

(** [w'] differs from [w] in the axes of histograms and graphs only. *)
Definition axes_only (w w' : World) : Prop :=
  figures w' = figures w /\ pads w' = pads w /\
  current_figure w' = current_figure w /\ gPad w' = gPad w /\
  stdout w' = stdout w /\
  TH1_but_axes <$> hists w' = TH1_but_axes <$> hists w /\
  TGraph_but_axes <$> graphs w' = TGraph_but_axes <$> graphs w.

(** [w'] has the histograms and the graphs of [w], as they were, and the
    same output. *)
Definition same_drawables (w w' : World) : Prop :=
  hists w' = hists w /\ graphs w' = graphs w /\ stdout w' = stdout w.

(** The contents of a histogram: its name, its number of bins and its
    cells. *)
Definition TH1_contents (h : TH1) : string * Z * list float :=
  (fName h, fNbinsX h, fArray h).

(** Every histogram of [w] is in [w'] with its contents, every graph with
    its name, and nothing was printed; [w'] may hold new histograms and
    graphs, after the old ones. *)
Definition contents_kept (w w' : World) : Prop :=
  (exists e, TH1_contents <$> hists w' = (TH1_contents <$> hists w) ++ e) /\
  (exists e, gName <$> graphs w' = (gName <$> graphs w) ++ e) /\
  stdout w' = stdout w.

(** [w'] differs from [w] in the histogram [r], if it is one, and in what
    was printed, only. *)
Definition touches_only (r : Ref) (w w' : World) : Prop :=
  figures w' = figures w /\ pads w' = pads w /\ graphs w' = graphs w /\
  current_figure w' = current_figure w /\ gPad w' = gPad w /\
  length (hists w') = length (hists w) /\
  (forall j, RHist j <> r -> hists w' !! j = hists w !! j) /\
  (exists out, stdout w' = stdout w ++ out).

#[global] Instance axes_only_preorder : PreOrder axes_only.
Proof.
  split.
  - intros w. repeat split; reflexivity.
  - intros w1 w2 w3 (?&?&?&?&?&?&?) (?&?&?&?&?&?&?). repeat split; congruence.
Qed.

#[global] Instance same_drawables_preorder : PreOrder same_drawables.
Proof.
  split.
  - intros w. repeat split; reflexivity.
  - intros w1 w2 w3 (?&?&?) (?&?&?). repeat split; congruence.
Qed.

#[global] Instance contents_kept_preorder : PreOrder contents_kept.
Proof.
  split.
  - intros w. split; [|split]; [exists [] | exists [] | reflexivity];
      rewrite app_nil_r; reflexivity.
  - intros w1 w2 w3 ([e1 H1] & [g1 G1] & O1) ([e2 H2] & [g2 G2] & O2).
    split; [|split].
    + exists (e1 ++ e2). rewrite H2, H1, app_assoc. reflexivity.
    + exists (g1 ++ g2). rewrite G2, G1, app_assoc. reflexivity.
    + congruence.
Qed.

#[global] Instance touches_only_preorder r : PreOrder (touches_only r).
Proof.
  split.
  - intros w. repeat split; try reflexivity. exists []. rewrite app_nil_r. reflexivity.
  - intros w1 w2 w3 (F1 & P1 & G1 & C1 & D1 & L1 & K1 & [o1 O1])
                     (F2 & P2 & G2 & C2 & D2 & L2 & K2 & [o2 O2]).
    repeat split; try congruence.
    + intros j Hj. rewrite K2, K1 by exact Hj. reflexivity.
    + exists (o1 ++ o2). rewrite O2, O1, app_assoc. reflexivity.
Qed.


(* ===================================================================== *)
(** ** Concrete worlds                                                    *)
(* ===================================================================== *)

(** An axis, attributes and drawables as the library creates them. *)
Definition ex_axis : TAxis := mkTAxis 0.035 1 42 0.035 0.005 42 0.03 510.

Definition ex_att : TAtt := mkTAtt 1 1 1 1.

Definition ex_hist (name : string) (cells : list float) : TH1 :=
  mkTH1 name (Z.of_nat (length cells) - 2) cells ex_att ex_axis ex_axis ex_axis.

Definition ex_graph (name : string) : TGraph := mkTGraph name ex_att ex_axis ex_axis.

(** The state after the import of the package: the empty current
    figure. *)
Definition w_init : World :=
  mkWorld [mkFigure RNone [] [] []] [] [] [] (RFigure 0) RNone [].

(** Three 1D histograms of three bins, nothing drawn. *)
Definition w_hists : World :=
  mkWorld [mkFigure RNone [] [] []] []
          [ex_hist "h0" [0; 1; 2; 4; 0]%float;
           ex_hist "h1" [0; 2; 2; 2; 0]%float;
           ex_hist "h2" [0; 3; 0; 8; 0]%float]
          [] (RFigure 0) RNone [].

(** A canvas, current, with two graphs drawn into it. *)
Definition w_graphs : World :=
  mkWorld [mkFigure (RPad 0) [] [] []]
          [set_fPrimitives [(RGraph 0, "AP"%string); (RGraph 1, "P"%string)]
             (fresh_pad "c" "" (Some (700, 500)) 0 0 1 1)]
          [] [ex_graph "g0"; ex_graph "g1"] (RFigure 0) (RPad 0) [].

(** A ratio figure whose bottom pad, of height 0.35, holds a text, a
    graph and two histograms, in that order. *)
Definition w_mixed : World :=
  mkWorld [mkFigure (RPad 0)
             [("pad_top"%string, RPad 1); ("pad_bot"%string, RPad 2)] [] []]
          [fresh_pad "c" "" (Some (700, 500)) 0 0 1 1;
           fresh_pad "pad_top" "" None 0 0.35 1 1;
           set_fPrimitives [(ROpaque 0, ""%string); (RGraph 0, "P"%string);
                            (RHist 0, "pE1"%string); (RHist 1, "pE1"%string)]
             (fresh_pad "pad_bot" "" None 0 0 1 0.35)]
          [ex_hist "h0" [0; 1; 2; 4; 0]%float; ex_hist "h1" [0; 2; 2; 2; 0]%float]
          [ex_graph "g0"] (RFigure 0) (RPad 0) [].

(** The default configuration with [XNDiv=[510]] and [YNDiv=None]. *)
Definition short_XNDiv : AxesConfig :=
  mkAxesConfig 22 0.98 43 22 0.002 43 (Some [510])
               22 1.75 43 22 0.006 43 None
               22 0.85 43 22 0.002 43.

(** The default configuration with [YNDiv=None]. *)
Definition no_YNDiv : AxesConfig :=
  mkAxesConfig 22 0.98 43 22 0.002 43 None
               22 1.75 43 22 0.006 43 None
               22 0.85 43 22 0.002 43.


(** An integral for the examples: the sum of all the cells. *)
Definition ex_Integral (h : TH1) : float :=
  fold_right PrimFloat.add 0%float (fArray h).

(** A filler for the examples: every pair of values adds one to bin 1. *)
Definition ex_Fill (h : TH1) (x y : float) : TH1 :=
  TH1_SetBinContent 1 (TH1_GetBinContent h 1 + 1)%float h.

(** A histogram without entries, nothing drawn. *)
Definition w_empty_hist : World :=
  mkWorld [mkFigure RNone [] [] []] []
          [ex_hist "e" [0; 0; 0; 0; 0]%float] [] (RFigure 0) RNone [].

(** The world [create_ratio_canvas("c", "", 700, 500, 0.35, "pE1")] leaves
    after the import of the package. *)
Definition w_ratio : World :=
  Eval vm_compute in snd (create_ratio_canvas "c" "" 700 500 0.35 "pE1" w_init).


(** The world the loop of [plot_hist_ratios] leaves on the three
    histograms of [w_hists]. *)
Definition w_ratio_plot : World :=
  Eval vm_compute in
    snd (plot_hist_ratios_draw [RHist 0; RHist 1; RHist 2] [1; 2; 4] [20; 21; 22]
                               "den" "pE1" no_kwargs w_hists).

(** The keywords [name="c", ratio_size_as_fraction=r]. *)
Definition ratio_kwargs (r : float) : CanvasKwargs :=
  mkCanvasKwargs (Some "c"%string) None None None (Some r) None [].

(** The keywords [canw=800]. *)
Definition width_kwargs : CanvasKwargs :=
  mkCanvasKwargs None None (Some 800) None None None [].


(* ===================================================================== *)
(** * Properties                                                          *)
(* ===================================================================== *)

(** ** Lists as stores: a new object goes to the end *)

Lemma length_snoc {A} (l : list A) x : length (l ++ [x]) = S (length l).
Proof. rewrite length_app. simpl. lia. Qed.

Lemma lookup_snoc {A} (l : list A) x i : i = length l -> (l ++ [x]) !! i = Some x.
Proof. intros ->. rewrite lookup_app_r by lia. rewrite Nat.sub_diag. reflexivity. Qed.

Lemma insert_snoc {A} (l : list A) x y i : i = length l -> <[i := y]> (l ++ [x]) = l ++ [y].
Proof. intros ->. rewrite insert_app_r_alt by lia. rewrite Nat.sub_diag. reflexivity. Qed.

Lemma lookup_snoc_l {A} (l : list A) x i : (i < length l)%nat -> (l ++ [x]) !! i = l !! i.
Proof. intros. apply lookup_app_l. lia. Qed.

Lemma insert_snoc_l {A} (l : list A) x y i : (i < length l)%nat -> <[i := y]> (l ++ [x]) = <[i := y]> l ++ [x].
Proof. intros. apply insert_app_l. lia. Qed.

Ltac len := repeat rewrite ?length_app, ?length_insert; simpl; lia.

Ltac heap :=
  repeat first
    [ rewrite length_snoc
    | rewrite lookup_snoc by len
    | rewrite insert_snoc by len
    | rewrite lookup_snoc_l by len
    | rewrite insert_snoc_l by len
    | match goal with
      | |- context [Nat.eqb ?a ?b] => rewrite (proj2 (Nat.eqb_neq a b)) by len
      end ].


(* ===================================================================== *)
(** ** The current figure                                                 *)
(* ===================================================================== *)

(** C4. After [set_figure(X)], [get_figure()] returns the current figure,
    which is [X] itself when [X] is a Figure (the same reference: no figure
    was created) and a newly created Figure wrapping [X] otherwise; the new
    current figure does not depend on the one that was current before ([c]):
    the slot is replaced unconditionally. *)
Theorem set_figure_then_get_figure (w : World) (x c : Ref) :
  let w1 := snd (set_figure x w) in
  fst (set_figure x w) = Ok tt /\
  get_figure w1 = (Ok (current_figure w1), w1) /\
  (if type_is_Figure x
   then current_figure w1 = x /\ figures w1 = figures w
   else current_figure w1 = RFigure (length (figures w)) /\
        figures w1 = figures w ++ [mkFigure x [] [] []]) /\
  current_figure (snd (set_figure x (with_current_figure c w))) = current_figure w1.
Proof.
  destruct x; cbn; auto.
Qed.


(* ===================================================================== *)
(** ** The 2D histogram helpers                                           *)
(* ===================================================================== *)

(** C7. For every histogram and every pair of sequences of unequal
    length, [fill] prints its message, does not raise and returns; the world
    is the one before but for the printed line, so no bin of any histogram
    has changed. *)
Theorem fill_length_mismatch
        (TH2_FillN : TH1 -> Z -> PySeq -> PySeq -> list float -> Result TH1)
        (TH2_Fill : TH1 -> float -> float -> TH1)
        (hist : Ref) (xvalues yvalues : PySeq) (w : World) :
  length (items xvalues) <> length (items yvalues) ->
  fill TH2_FillN TH2_Fill hist xvalues yvalues w
  = (Ok tt, with_stdout (stdout w ++ [fill_message]) w) /\
  hists (snd (fill TH2_FillN TH2_Fill hist xvalues yvalues w)) = hists w.
Proof.
  intros Hne.
  assert (Hz : (Z.of_nat (length (items xvalues)) =? Z.of_nat (length (items yvalues))) = false)
    by (apply Z.eqb_neq; lia).
  unfold fill.
  destruct xvalues, yvalues; cbn in *; unfold bind, len; cbn; rewrite Hz; cbn; auto.
Qed.

Lemma frame_refl w : frame w w.
Proof.
  repeat split; try reflexivity; exists []; rewrite app_nil_r; reflexivity.
Qed.

Lemma frame_hists w x : frame w (with_hists (hists w ++ x) w).
Proof.
  repeat split; try reflexivity; [exists x | exists []; rewrite app_nil_r]; reflexivity.
Qed.

Lemma with_hists_twice x y w : with_hists x (with_hists y w) = with_hists x w.
Proof. reflexivity. Qed.

(** The loop of [shift] reads the input and writes the clone, the last
    histogram of the store. *)
Lemma shift_loop (w : World) (i : nat) (h : TH1) (s : Z) (l : list Z) (c : TH1) :
  hists w !! i = Some h ->
  for_each l (fun b =>
      content <- GetBinContent (RHist i) b ;;
      SetBinContent (RHist (length (hists w))) (b + s) content ;;
      ret Next) (with_hists (hists w ++ [c]) w)
  = (Ok tt, with_hists (hists w ++ [fold_left (shift_step h s) l c]) w).
Proof.
  intros Hi. assert (Hlt := lookup_lt_Some _ _ _ Hi).
  revert c. induction l as [|b l IH]; intros c; [reflexivity|].
  cbn [for_each fold_left].
  unfold bind at 1. unfold bind at 1. unfold GetBinContent, get_TH1, bind at 1.
  cbn. rewrite lookup_snoc_l by lia. rewrite Hi. cbn.
  unfold bind at 1. unfold SetBinContent, update_TH1. cbn.
  rewrite lookup_snoc by lia. cbn. rewrite insert_snoc by lia.
  rewrite with_hists_twice. apply IH.
Qed.

(** [shift] on a histogram returns a new histogram, [shift_TH1]. *)
Lemma shift_spec (w : World) (i : nat) (h : TH1) (s : Z) :
  hists w !! i = Some h ->
  shift (RHist i) s w
  = (Ok (RHist (length (hists w))), with_hists (hists w ++ [shift_TH1 h s]) w).
Proof.
  intros Hi. assert (Hlt := lookup_lt_Some _ _ _ Hi).
  unfold shift. unfold bind at 1. unfold Clone. rewrite Hi. unfold new_TH1.
  unfold bind at 1. unfold GetName. cbn [hists with_hists].
  rewrite lookup_snoc_l by lia. rewrite Hi.
  unfold bind at 1. unfold SetName, update_TH1. cbn [hists with_hists].
  rewrite lookup_snoc by lia. rewrite insert_snoc by lia. rewrite with_hists_twice.
  unfold bind at 1. unfold Reset, update_TH1. cbn [hists with_hists].
  rewrite lookup_snoc by lia. rewrite insert_snoc by lia. rewrite with_hists_twice.
  unfold bind at 1. unfold GetNbinsX, get_TH1, bind at 1. cbn [hists with_hists].
  rewrite lookup_snoc_l by lia. rewrite Hi. cbn [ret].
  unfold bind at 1. rewrite (shift_loop w i h s _ _ Hi). reflexivity.
Qed.

(** Symbolic execution: unfold the actions, then reduce and resolve the
    accesses to the store. *)
Ltac ops := cbv beta delta [bind ret raise try_except print py_div
  get_Figure update_Figure get_TPad update_TPad get_TH1 update_TH1 new_TH1 update_TGraph
  TCanvas TPad_new cd GetHNDC GetName GetListOfPrimitives Draw Modified Update
  Clone SetName Divide Scale Reset GetNbinsX GetBinContent SetBinContent
  Figure_new Figure_append Figure_get_pad Figure_add_hist Figure_set_xlabel Figure_set_ylabel
  set_figure get_figure create_canvas create_ratio_canvas].

Ltac solve_frame :=
  unfold frame, returns_fresh_clone; cbn;
  repeat split; try reflexivity; try len;
  first [ eexists; reflexivity | exists []; rewrite app_nil_r; reflexivity ].

Ltac crunch :=
  repeat (cbn; heap;
          try match goal with
              | |- context [match ?x with _ => _ end] =>
                  lazymatch x with
                  | context [match _ with _ => _ end] => fail
                  | _ => destruct x eqn:?
                  end
              end).

Lemma hist_divide_frame (num den : Ref) (w : World) :
  frame w (snd (hist_divide num den w)) /\
  returns_fresh_clone w (fst (hist_divide num den w)) (snd (hist_divide num den w)).
Proof.
  unfold hist_divide. ops. destruct w as [F P H G cur gp out].
  crunch. all: try solve_frame.
Qed.

Lemma divide_frame (hist_num hist_den : Ref) (w : World) :
  frame w (snd (divide hist_num hist_den w)) /\
  returns_fresh_clone w (fst (divide hist_num hist_den w))
                      (snd (divide hist_num hist_den w)).
Proof.
  unfold divide. ops. destruct w as [F P H G cur gp out].
  crunch. all: try solve_frame.
Qed.

Lemma density_frame (TH1_Integral : TH1 -> float) (hist : Ref) (w : World) :
  frame w (snd (density TH1_Integral hist w)) /\
  returns_fresh_clone w (fst (density TH1_Integral hist w))
                      (snd (density TH1_Integral hist w)).
Proof.
  unfold density, Integral. ops. destruct w as [F P H G cur gp out].
  crunch. all: try solve_frame.
Qed.

Lemma shift_frame (hist : Ref) (shift_units : Z) (w : World) :
  frame w (snd (shift hist shift_units w)) /\
  returns_fresh_clone w (fst (shift hist shift_units w))
                      (snd (shift hist shift_units w)).
Proof.
  destruct hist as [|i|i|i|i|i].
  4: { destruct (hists w !! i) as [h|] eqn:Hi.
       - rewrite (shift_spec w i h _ Hi). solve_frame.
       - unfold shift, bind, Clone. rewrite Hi. cbn. split; [apply frame_refl | exact I]. }
  4: { unfold shift. ops. destruct w as [F P H G cur gp out].
       crunch. all: try solve_frame. }
  all: cbn; split; [apply frame_refl | exact I].
Qed.

(** C8. None of [density], [divide], [shift] (hist2d) and [hist_divide]
    (plots) mutates an input histogram: whatever the arguments and whether
    the call returns or raises, every object of the world before the call is
    unchanged after it, the only difference being objects created by the
    call (the clone); when the call returns, it returns that new
    histogram. *)
Theorem helpers_leave_inputs_unchanged (TH1_Integral : TH1 -> float)
        (a b : Ref) (s : Z) (w : World) :
  (frame w (snd (density TH1_Integral a w)) /\
   returns_fresh_clone w (fst (density TH1_Integral a w)) (snd (density TH1_Integral a w))) /\
  (frame w (snd (divide a b w)) /\
   returns_fresh_clone w (fst (divide a b w)) (snd (divide a b w))) /\
  (frame w (snd (shift a s w)) /\
   returns_fresh_clone w (fst (shift a s w)) (snd (shift a s w))) /\
  (frame w (snd (hist_divide a b w)) /\
   returns_fresh_clone w (fst (hist_divide a b w)) (snd (hist_divide a b w))).
Proof.
  split; [apply density_frame|].
  split; [apply divide_frame|].
  split; [apply shift_frame | apply hist_divide_frame].
Qed.

Lemma TH1_SetBinContent_length b v h :
  length (fArray (TH1_SetBinContent b v h)) = length (fArray h).
Proof.
  unfold TH1_SetBinContent. destruct (_ || _); [reflexivity|].
  cbn. apply length_insert.
Qed.

Lemma TH1_GetBinContent_in_range h c :
  0 <= c < Z.of_nat (length (fArray h)) ->
  TH1_GetBinContent h c = nth (Z.to_nat c) (fArray h) 0%float.
Proof.
  intros Hc. unfold TH1_GetBinContent.
  destruct (Z.ltb_spec c 0); [lia|].
  destruct (Z.leb_spec (Z.of_nat (length (fArray h))) c); [lia|]. reflexivity.
Qed.

Lemma nth_insert {A} (l : list A) i j x d :
  nth j (<[i := x]> l) d = if bool_decide (i = j /\ (i < length l)%nat) then x else nth j l d.
Proof.
  revert i j. induction l as [|a l IH]; intros i j.
  - cbn. destruct j; case_bool_decide; try reflexivity; cbn in *; lia.
  - destruct i, j; cbn.
    + case_bool_decide; [reflexivity|]. exfalso. apply H. split; [reflexivity | lia].
    + case_bool_decide; [lia | reflexivity].
    + case_bool_decide; [lia | reflexivity].
    + rewrite IH. repeat case_bool_decide; try reflexivity; lia.
Qed.

Lemma TH1_SetBinContent_cell b v h c :
  0 <= c < Z.of_nat (length (fArray h)) ->
  TH1_GetBinContent (TH1_SetBinContent b v h) c
  = if c =? b then v else TH1_GetBinContent h c.
Proof.
  intros Hc.
  rewrite TH1_GetBinContent_in_range by (rewrite TH1_SetBinContent_length; lia).
  rewrite (TH1_GetBinContent_in_range h) by lia.
  unfold TH1_SetBinContent.
  destruct (Z.ltb_spec b 0); cbn.
  { destruct (Z.eqb_spec c b); [lia | reflexivity]. }
  destruct (Z.leb_spec (Z.of_nat (length (fArray h))) b); cbn.
  { destruct (Z.eqb_spec c b); [lia | reflexivity]. }
  rewrite nth_insert.
  destruct (Z.eqb_spec c b) as [->|Hne].
  - rewrite bool_decide_eq_true_2; [reflexivity | split; [reflexivity | lia]].
  - rewrite bool_decide_eq_false_2; [reflexivity | intros [E _]; apply Hne; lia].
Qed.

Lemma shift_fold_cell h s l acc c :
  0 <= c < Z.of_nat (length (fArray acc)) ->
  TH1_GetBinContent (fold_left (shift_step h s) l acc) c
  = if mem_Z (c - s) l then TH1_GetBinContent h (c - s)
    else TH1_GetBinContent acc c.
Proof.
  revert acc. induction l as [|b l IH]; intros acc Hc; [reflexivity|].
  cbn [fold_left mem_Z existsb]. rewrite IH
    by (unfold shift_step; rewrite TH1_SetBinContent_length; exact Hc).
  fold (mem_Z (c - s) l). destruct (mem_Z (c - s) l).
  - rewrite orb_true_r. reflexivity.
  - rewrite orb_false_r. unfold shift_step.
    rewrite TH1_SetBinContent_cell by exact Hc.
    destruct (Z.eqb_spec c (b + s)) as [->|Hne].
    + replace (b + s - s) with b by lia. rewrite Z.eqb_refl. reflexivity.
    + destruct (Z.eqb_spec (c - s) b); [lia | reflexivity].
Qed.

Lemma mem_py_range x a b :
  mem_Z x (py_range a b) = (a <=? x) && (x <? b).
Proof.
  unfold mem_Z, py_range. apply eq_true_iff_eq.
  rewrite existsb_exists, andb_true_iff, Z.leb_le, Z.ltb_lt. split.
  - intros (y & Hin & Hy). apply Z.eqb_eq in Hy. subst y.
    apply in_map_iff in Hin. destruct Hin as (k & <- & Hk).
    apply in_seq in Hk. lia.
  - intros [H1 H2]. exists x. split; [|apply Z.eqb_refl].
    apply in_map_iff. exists (Z.to_nat (x - a)). split; [lia|].
    apply in_seq. lia.
Qed.

Lemma TH1_Reset_cell h c : TH1_GetBinContent (TH1_Reset h) c = 0%float.
Proof.
  unfold TH1_GetBinContent, TH1_Reset. cbn.
  set (k := Z.to_nat _). clearbody k. revert k.
  induction (fArray h) as [|a l IH]; intros [|k]; cbn; auto.
Qed.

Lemma shift_TH1_cell h s c :
  0 <= c < Z.of_nat (length (fArray h)) ->
  TH1_GetBinContent (shift_TH1 h s) c
  = if (1 <=? c - s) && (c - s <? fNbinsX h) then TH1_GetBinContent h (c - s)
    else 0%float.
Proof.
  intros Hc. unfold shift_TH1.
  rewrite shift_fold_cell by (cbn; rewrite length_map; exact Hc).
  rewrite mem_py_range. destruct (_ && _); [reflexivity|].
  apply TH1_Reset_cell.
Qed.

(** C9. For every 1D histogram [h] of N bins (N+2 cells, with the
    underflow and overflow cells) and every shift [s], [shift(h, s)] returns
    a new histogram whose cell [c] holds the content of bin [c - s] of [h]
    when [1 <= c - s <= N-1], and 0 otherwise. So bins 1 to N-1 of [h] are
    copied into bins 1+s to N-1+s (where the result has such a cell: the
    library drops a write outside the cells), and the content of bin N is
    never copied: the cell N+s of the result is 0. *)
Theorem shift_copies_all_but_last_bin (w : World) (i : nat) (h : TH1) (s : Z) :
  hists w !! i = Some h ->
  Z.of_nat (length (fArray h)) = fNbinsX h + 2 ->
  exists h',
    shift (RHist i) s w
    = (Ok (RHist (length (hists w))), with_hists (hists w ++ [h']) w) /\
    (forall c, 0 <= c <= fNbinsX h + 1 ->
       TH1_GetBinContent h' c
       = if (1 <=? c - s) && (c - s <=? fNbinsX h - 1)
         then TH1_GetBinContent h (c - s) else 0%float) /\
    (forall b, 1 <= b <= fNbinsX h - 1 -> 0 <= b + s <= fNbinsX h + 1 ->
       TH1_GetBinContent h' (b + s) = TH1_GetBinContent h b) /\
    (0 <= fNbinsX h + s <= fNbinsX h + 1 ->
       TH1_GetBinContent h' (fNbinsX h + s) = 0%float).
Proof.
  intros Hi Hn. exists (shift_TH1 h s).
  split; [apply shift_spec; exact Hi|].
  assert (Hcell : forall c, 0 <= c <= fNbinsX h + 1 ->
       TH1_GetBinContent (shift_TH1 h s) c
       = if (1 <=? c - s) && (c - s <=? fNbinsX h - 1)
         then TH1_GetBinContent h (c - s) else 0%float).
  { intros c Hc. rewrite shift_TH1_cell by lia.
    replace (c - s <? fNbinsX h) with (c - s <=? fNbinsX h - 1); [reflexivity|].
    destruct (Z.leb_spec (c - s) (fNbinsX h - 1)), (Z.ltb_spec (c - s) (fNbinsX h)); auto; lia. }
  split; [exact Hcell|]. split.
  - intros b Hb Hr. rewrite Hcell by exact Hr.
    replace (b + s - s) with b by lia.
    destruct (Z.leb_spec 1 b); [|lia].
    destruct (Z.leb_spec b (fNbinsX h - 1)); [|lia]. reflexivity.
  - intros Hr. rewrite Hcell by exact Hr.
    replace (fNbinsX h + s - s) with (fNbinsX h) by lia.
    destruct (Z.leb_spec (fNbinsX h) (fNbinsX h - 1)); [lia|].
    rewrite andb_false_r. reflexivity.
Qed.


(* ===================================================================== *)
(** ** The axis formatter                                                 *)
(* ===================================================================== *)

Ltac upd :=
  repeat first
    [ rewrite list_insert_insert_eq
    | rewrite list_lookup_insert_eq by (rewrite ?length_insert; assumption) ].

(** The loop body on a histogram: the three axes are set and the loop is
    left. *)
Lemma format_primitive_TH1 c p pd i x w :
  pads w !! p = Some pd ->
  PrimFloat.eqb (HNDC pd) 0 = false ->
  config_ok c = true ->
  hists w !! i = Some x ->
  format_primitive c (RPad p) (RHist i) w
  = (Ok Break, with_hists (<[i := format_TH1 c (HNDC pd) x]> (hists w)) w).
Proof.
  intros Hp Hh Hc Hi. assert (Hlt := lookup_lt_Some _ _ _ Hi).
  unfold config_ok in Hc. apply andb_true_iff in Hc. destruct Hc as [Hcx Hcy].
  unfold format_primitive, hasattr_GetXaxis, hasattr_GetZaxis, on_Xaxis, on_Yaxis,
    on_Zaxis, subscript.
  unfold format_TH1, format_Xaxis, format_Yaxis, apply_ndiv.
  destruct (YNDiv c) as [[|n1 [|n2 [|n3 ry]]]|]; try discriminate Hcy.
  destruct w as [F P H G cur gp out]. cbn [pads hists] in Hp, Hi, Hlt.
  destruct (XNDiv c) as [[|m1 [|m2 [|m3 rx]]]|]; try discriminate Hcx;
  unfold HNDC in Hh;
  ops; repeat (progress (cbn; rewrite ?Hi, ?Hp, ?Hh; upd));
  reflexivity.
Qed.

(** The loop body on a graph: the two axes are set and the loop goes
    on. *)
Lemma format_primitive_TGraph c p pd i g w :
  pads w !! p = Some pd ->
  PrimFloat.eqb (HNDC pd) 0 = false ->
  config_ok c = true ->
  graphs w !! i = Some g ->
  format_primitive c (RPad p) (RGraph i) w
  = (Ok Next, with_graphs (<[i := format_TGraph c (HNDC pd) g]> (graphs w)) w).
Proof.
  intros Hp Hh Hc Hi. assert (Hlt := lookup_lt_Some _ _ _ Hi).
  unfold config_ok in Hc. apply andb_true_iff in Hc. destruct Hc as [Hcx Hcy].
  unfold format_primitive, hasattr_GetXaxis, hasattr_GetZaxis, on_Xaxis, on_Yaxis,
    on_Zaxis, subscript.
  unfold format_TGraph, format_Xaxis, format_Yaxis, apply_ndiv.
  destruct (YNDiv c) as [[|n1 [|n2 [|n3 ry]]]|]; try discriminate Hcy.
  destruct w as [F P H G cur gp out]. cbn [pads graphs] in Hp, Hi, Hlt.
  destruct (XNDiv c) as [[|m1 [|m2 [|m3 rx]]]|]; try discriminate Hcx;
  unfold HNDC in Hh;
  ops; repeat (progress (cbn; rewrite ?Hi, ?Hp, ?Hh; upd));
  reflexivity.
Qed.

(** The loop body on anything without a horizontal axis. *)
Lemma format_primitive_skip c canvas r w :
  has_GetXaxis w r = false ->
  format_primitive c canvas r w = (Ok Next, w).
Proof.
  intros Hx. unfold format_primitive, hasattr_GetXaxis, bind. rewrite Hx. reflexivity.
Qed.

Lemma formatted_ext w w' prims :
  length (hists w') = length (hists w) ->
  length (graphs w') = length (graphs w) ->
  formatted w' prims = formatted w prims.
Proof.
  intros Hh Hg.
  assert (HX : forall r, has_GetXaxis w' r = has_GetXaxis w r).
  { intros [| | |i|i|]; cbn; try reflexivity; apply bool_decide_ext;
      rewrite !lookup_lt_is_Some; lia. }
  assert (HZ : forall r, has_GetZaxis w' r = has_GetZaxis w r).
  { intros [| | |i|i|]; cbn; try reflexivity; apply bool_decide_ext;
      rewrite !lookup_lt_is_Some; lia. }
  induction prims as [|r rest IH]; cbn; [reflexivity|].
  rewrite HX, HZ, IH. reflexivity.
Qed.

Lemma apply_ndiv_idem v a : apply_ndiv v (apply_ndiv v a) = apply_ndiv v a.
Proof. unfold apply_ndiv. destruct (first_three v) as [[[? ?] ?]|]; reflexivity. Qed.

Lemma format_TGraph_idem c h g :
  format_TGraph c h (format_TGraph c h g) = format_TGraph c h g.
Proof.
  unfold format_TGraph, format_Xaxis, format_Yaxis, apply_ndiv.
  destruct (first_three (XNDiv c)) as [[[? ?] ?]|],
           (first_three (YNDiv c)) as [[[? ?] ?]|]; reflexivity.
Qed.

(** The loop of [format_canvas_axes]: the drawables of [formatted] are
    formatted, every other object is as it was. *)
Lemma format_loop c p pd prims w :
  pads w !! p = Some pd ->
  PrimFloat.eqb (HNDC pd) 0 = false ->
  config_ok c = true ->
  exists w',
    for_each prims (format_primitive c (RPad p)) w = (Ok tt, w') /\
    same_but_drawables w w' /\
    (forall i, hists w' !! i
       = if bool_decide (RHist i ∈ formatted w prims)
         then format_TH1 c (HNDC pd) <$> hists w !! i else hists w !! i) /\
    (forall i, graphs w' !! i
       = if bool_decide (RGraph i ∈ formatted w prims)
         then format_TGraph c (HNDC pd) <$> graphs w !! i else graphs w !! i).
Proof.
  intros Hp Hh Hc. revert w Hp.
  induction prims as [|r rest IH]; intros w Hp.
  - exists w. cbn. repeat split; reflexivity.
  - cbn [for_each formatted]. destruct (has_GetXaxis w r) eqn:Hx.
    2: { unfold bind. rewrite format_primitive_skip by exact Hx. apply IH, Hp. }
    destruct r as [| | |i|i|]; try discriminate Hx; cbn in Hx;
      apply bool_decide_eq_true in Hx; destruct Hx as [x Hi];
      assert (Hlt := lookup_lt_Some _ _ _ Hi).
    + (* a histogram: formatted, and the loop is left *)
      unfold bind. rewrite (format_primitive_TH1 c p pd i x w) by assumption.
      cbn [has_GetZaxis]. rewrite bool_decide_eq_true_2 by (rewrite Hi; eauto).
      eexists. split; [reflexivity|]. split.
      { repeat split; cbn; try reflexivity. apply length_insert. }
      split; intros j; cbn.
      * destruct (decide (j = i)) as [->|Hne].
        -- rewrite bool_decide_eq_true_2 by (apply list_elem_of_singleton; reflexivity).
           rewrite list_lookup_insert_eq by exact Hlt. rewrite Hi. reflexivity.
        -- rewrite bool_decide_eq_false_2
             by (rewrite list_elem_of_singleton; congruence).
           apply list_lookup_insert_ne. congruence.
      * rewrite bool_decide_eq_false_2
          by (rewrite list_elem_of_singleton; congruence). reflexivity.
    + (* a graph: formatted, and the loop goes on *)
      unfold bind. rewrite (format_primitive_TGraph c p pd i x w) by assumption.
      cbn [has_GetZaxis].
      set (w1 := with_graphs (<[i:=format_TGraph c (HNDC pd) x]> (graphs w)) w).
      destruct (IH w1 Hp) as (w' & Hrun & Hsame & Hhists & Hgraphs).
      assert (Hf : formatted w1 rest = formatted w rest).
      { apply formatted_ext; cbn; [reflexivity | apply length_insert]. }
      rewrite Hf in Hhists, Hgraphs.
      exists w'. split; [exact Hrun|]. split.
      { destruct Hsame as (? & ? & ? & ? & ? & ? & Hg). repeat split; try assumption.
        rewrite Hg. cbn. apply length_insert. }
      split; intros j.
      * rewrite Hhists. cbn [hists w1 with_graphs].
        apply (f_equal (fun b : bool => if b then _ else _)).
        apply bool_decide_ext. rewrite elem_of_cons. split; [auto|].
        intros [E|E]; [discriminate E | exact E].
      * rewrite Hgraphs. cbn [graphs w1 with_graphs].
        destruct (decide (j = i)) as [->|Hne].
        -- rewrite (bool_decide_eq_true_2 (RGraph i ∈ RGraph i :: _))
             by (apply list_elem_of_here).
           rewrite list_lookup_insert_eq by exact Hlt. rewrite Hi. cbn.
           rewrite format_TGraph_idem. destruct (bool_decide _); reflexivity.
        -- rewrite list_lookup_insert_ne by congruence.
           apply (f_equal (fun b : bool => if b then _ else _)).
           apply bool_decide_ext. rewrite elem_of_cons. split; [auto|].
           intros [E|E]; [congruence | exact E].
Qed.

(** [format_canvas_axes] on a region that resolves, of non-zero height,
    with division specs the body can read. *)
Lemma format_canvas_axes_spec c pad fig w p pd :
  Figure_get_pad (target_figure w fig) pad w = (Ok (RPad p), w) ->
  pads w !! p = Some pd ->
  PrimFloat.eqb (HNDC pd) 0 = false ->
  config_ok c = true ->
  exists w',
    format_canvas_axes c pad fig w = (Ok tt, w') /\
    same_but_drawables w w' /\
    (forall i, hists w' !! i
       = if bool_decide (RHist i ∈ formatted w (region_primitives pd))
         then format_TH1 c (HNDC pd) <$> hists w !! i else hists w !! i) /\
    (forall i, graphs w' !! i
       = if bool_decide (RGraph i ∈ formatted w (region_primitives pd))
         then format_TGraph c (HNDC pd) <$> graphs w !! i else graphs w !! i).
Proof.
  intros Hr Hp Hh Hc.
  destruct (format_loop c p pd (region_primitives pd) w Hp Hh Hc)
    as (w' & Hrun & Hsame & Hhists & Hgraphs).
  exists w'. split; [|auto].
  unfold format_canvas_axes.
  assert (Hfig : (match fig with RNone => get_figure | _ => ret fig end) w
                 = (Ok (target_figure w fig), w)) by (destruct fig; reflexivity).
  unfold bind at 1. rewrite Hfig.
  unfold bind at 1. rewrite Hr.
  unfold bind at 1. unfold GetListOfPrimitives, bind at 1, get_TPad. rewrite Hp.
  cbn [ret]. unfold bind at 1. fold (region_primitives pd). rewrite Hrun.
  destruct Hsame as (_ & Hpads & _).
  unfold Modified, Update, bind, get_TPad. rewrite Hpads, Hp. cbn. rewrite Hpads, Hp. reflexivity.
Qed.

(** C3, amended. On a region that resolves, of non-zero height, and with
    division specs the loop can read, [format_canvas_axes] returns and has
    applied the X and Y configuration to every drawable with a horizontal
    axis, in list order, up to and including the first one that also has a
    depth (Z) axis, to which it has applied the Z configuration as well
    ([formatted]); every other drawable, and everything else, is left as it
    was. When the first primitive of the region has a depth axis (a
    histogram), that drawable alone is formatted. *)
Theorem format_canvas_axes_formats_up_to_first_Zaxis c pad fig w p pd :
  Figure_get_pad (target_figure w fig) pad w = (Ok (RPad p), w) ->
  pads w !! p = Some pd ->
  PrimFloat.eqb (HNDC pd) 0 = false ->
  config_ok c = true ->
  exists w',
    format_canvas_axes c pad fig w = (Ok tt, w') /\
    same_but_drawables w w' /\
    (forall i, hists w' !! i
       = if bool_decide (RHist i ∈ formatted w (region_primitives pd))
         then format_TH1 c (HNDC pd) <$> hists w !! i else hists w !! i) /\
    (forall i, graphs w' !! i
       = if bool_decide (RGraph i ∈ formatted w (region_primitives pd))
         then format_TGraph c (HNDC pd) <$> graphs w !! i else graphs w !! i) /\
    (forall r rest, region_primitives pd = r :: rest ->
       has_GetZaxis w r = true -> formatted w (region_primitives pd) = [r]).
Proof.
  intros Hr Hp Hh Hc.
  destruct (format_canvas_axes_spec c pad fig w p pd Hr Hp Hh Hc)
    as (w' & Hrun & Hsame & Hhists & Hgraphs).
  exists w'. repeat (split; [assumption|]).
  intros r rest -> Hz. cbn.
  assert (Hx : has_GetXaxis w r = true) by (destruct r; try discriminate Hz; exact Hz).
  rewrite Hx, Hz. reflexivity.
Qed.

Lemma format_Xaxis_offsets c h a : X_offsets_scaled c h (format_Xaxis c h a).
Proof.
  unfold X_offsets_scaled, format_Xaxis, apply_ndiv.
  destruct (first_three (XNDiv c)) as [[[? ?] ?]|]; cbn; auto.
Qed.

Lemma format_Yaxis_offsets c a : Y_offsets_plain c (format_Yaxis c a).
Proof.
  unfold Y_offsets_plain, format_Yaxis, apply_ndiv.
  destruct (first_three (YNDiv c)) as [[[? ?] ?]|]; cbn; auto.
Qed.

Lemma format_Zaxis_offsets c a : Z_offsets_plain c (format_Zaxis c a).
Proof. unfold Z_offsets_plain, format_Zaxis. cbn. auto. Qed.

(** C6. On every drawable [format_canvas_axes] formats, the title offset,
    the label offset and the tick length of the horizontal axis are the
    configured title offset, the configured label offset and the fixed 0.02,
    each divided by the normalized height of the region, while the title and
    label offsets of the vertical axis and of the depth axis (when the
    drawable has one) are the configured values, unscaled. *)
Theorem format_canvas_axes_offsets c pad fig w p pd :
  Figure_get_pad (target_figure w fig) pad w = (Ok (RPad p), w) ->
  pads w !! p = Some pd ->
  PrimFloat.eqb (HNDC pd) 0 = false ->
  config_ok c = true ->
  exists w',
    format_canvas_axes c pad fig w = (Ok tt, w') /\
    (forall i h, RHist i ∈ formatted w (region_primitives pd) ->
       hists w' !! i = Some h ->
       X_offsets_scaled c (HNDC pd) (fXaxis h) /\
       Y_offsets_plain c (fYaxis h) /\ Z_offsets_plain c (fZaxis h)) /\
    (forall i g, RGraph i ∈ formatted w (region_primitives pd) ->
       graphs w' !! i = Some g ->
       X_offsets_scaled c (HNDC pd) (gXaxis g) /\ Y_offsets_plain c (gYaxis g)).
Proof.
  intros Hr Hp Hh Hc.
  destruct (format_canvas_axes_spec c pad fig w p pd Hr Hp Hh Hc)
    as (w' & Hrun & Hsame & Hhists & Hgraphs).
  exists w'. split; [exact Hrun|]. split.
  - intros i h Hin Hi. rewrite Hhists, bool_decide_eq_true_2 in Hi by exact Hin.
    destruct (hists w !! i) as [x|]; [|discriminate Hi].
    injection Hi as <-. cbn [format_TH1 fXaxis fYaxis fZaxis].
    auto using format_Xaxis_offsets, format_Yaxis_offsets, format_Zaxis_offsets.
  - intros i g Hin Hi. rewrite Hgraphs, bool_decide_eq_true_2 in Hi by exact Hin.
    destruct (graphs w !! i) as [x|]; [|discriminate Hi].
    injection Hi as <-. cbn [format_TGraph gXaxis gYaxis].
    auto using format_Xaxis_offsets, format_Yaxis_offsets.
Qed.

(** With [YNDiv=None] the loop body raises TypeError on a drawable with a
    horizontal axis. *)
Lemma format_primitive_YNDiv_None c p pd r w :
  pads w !! p = Some pd ->
  PrimFloat.eqb (HNDC pd) 0 = false ->
  xndiv_ok c = true ->
  YNDiv c = None ->
  has_GetXaxis w r = true ->
  fst (format_primitive c (RPad p) r w) = Raise TypeError.
Proof.
  intros Hp Hh Hcx Hy Hx. unfold xndiv_ok in Hcx.
  unfold format_primitive, hasattr_GetXaxis, hasattr_GetZaxis, on_Xaxis, on_Yaxis,
    on_Zaxis, subscript. rewrite Hy. unfold HNDC in Hh.
  destruct w as [F P H G cur gp out]. cbn [pads] in Hp.
  destruct r as [| | |i|i|]; try discriminate Hx; cbn in Hx;
    apply bool_decide_eq_true in Hx; destruct Hx as [x Hi];
    assert (Hlt := lookup_lt_Some _ _ _ Hi);
    (destruct (XNDiv c) as [[|m1 [|m2 [|m3 rx]]]|]; try discriminate Hcx;
     ops; repeat (progress (cbn; rewrite ?Hi, ?Hp, ?Hh; upd));
     reflexivity).
Qed.

Lemma format_loop_YNDiv_None c p pd prims w :
  pads w !! p = Some pd ->
  PrimFloat.eqb (HNDC pd) 0 = false ->
  xndiv_ok c = true ->
  YNDiv c = None ->
  (exists r, r ∈ prims /\ has_GetXaxis w r = true) ->
  fst (for_each prims (format_primitive c (RPad p)) w) = Raise TypeError.
Proof.
  intros Hp Hh Hcx Hy. induction prims as [|r rest IH]; intros (r0 & Hin & Hx0).
  - apply elem_of_nil in Hin. destruct Hin.
  - cbn [for_each]. destruct (has_GetXaxis w r) eqn:Hx.
    + pose proof (format_primitive_YNDiv_None c p pd r w Hp Hh Hcx Hy Hx) as E.
      unfold bind. destruct (format_primitive c (RPad p) r w) as [[fl|e] w1];
        cbn in E; [discriminate E|]. cbn. congruence.
    + unfold bind. rewrite format_primitive_skip by exact Hx.
      apply IH. exists r0. split; [|exact Hx0].
      apply elem_of_cons in Hin. destruct Hin as [->|Hin]; [congruence | exact Hin].
Qed.

(** C10, amended. On a region of non-zero height whose primitive list
    contains a drawable with a horizontal axis, [format_canvas_axes] treats
    the two division specs asymmetrically. A false XNDiv ([None] or empty)
    is skipped: with a YNDiv of three entries the call returns. But YNDiv is
    indexed unconditionally: with [YNDiv=None], and an XNDiv that is false
    or has three entries at least, the call raises TypeError instead of
    skipping the Y divisions. *)
Theorem format_canvas_axes_YNDiv_None_raises c pad fig w p pd :
  Figure_get_pad (target_figure w fig) pad w = (Ok (RPad p), w) ->
  pads w !! p = Some pd ->
  PrimFloat.eqb (HNDC pd) 0 = false ->
  (exists r, r ∈ region_primitives pd /\ has_GetXaxis w r = true) ->
  (truthy (XNDiv c) = false -> is_Some (first_three (YNDiv c)) ->
   fst (format_canvas_axes c pad fig w) = Ok tt) /\
  (xndiv_ok c = true -> YNDiv c = None ->
   fst (format_canvas_axes c pad fig w) = Raise TypeError).
Proof.
  intros Hr Hp Hh Hex. split.
  - intros Hx Hy.
    destruct (format_canvas_axes_spec c pad fig w p pd Hr Hp Hh) as (w' & Hrun & _).
    + unfold config_ok. rewrite Hx. cbn. apply bool_decide_eq_true_2, Hy.
    + rewrite Hrun. reflexivity.
  - intros Hcx Hy.
    pose proof (format_loop_YNDiv_None c p pd _ w Hp Hh Hcx Hy Hex) as E.
    unfold format_canvas_axes.
    assert (Hfig : (match fig with RNone => get_figure | _ => ret fig end) w
                   = (Ok (target_figure w fig), w)) by (destruct fig; reflexivity).
    unfold bind at 1. rewrite Hfig.
    unfold bind at 1. rewrite Hr.
    unfold bind at 1. unfold GetListOfPrimitives, bind at 1, get_TPad. rewrite Hp.
    cbn [ret]. unfold bind at 1. fold (region_primitives pd).
    destruct (for_each (region_primitives pd) (format_primitive c (RPad p)) w)
      as [[u|e] w1]; cbn in E; [discriminate E|]. cbn. congruence.
Qed.


(* ===================================================================== *)
(** ** The plot loops                                                     *)
(* ===================================================================== *)

(** The five style calls on a histogram, before the rest [K] of a loop
    body. *)
Lemma style_chain {A} (K : Py A) j h c m w :
  hists w !! j = Some h ->
  (on_Xaxis (RHist j) (SetLabelSize 0) ;;
   SetLineColor (RHist j) c ;;
   SetMarkerColor (RHist j) c ;;
   SetMarkerStyle (RHist j) m ;;
   SetMarkerSize (RHist j) 1 ;; K) w
  = K (with_hists (<[j := style_TH1 c m h]> (hists w)) w).
Proof.
  intros Hi. assert (Hlt := lookup_lt_Some _ _ _ Hi).
  destruct w as [F P H G cur gp out]. cbn [hists] in Hi, Hlt.
  unfold bind, on_Xaxis, SetLineColor, SetMarkerColor, SetMarkerStyle, SetMarkerSize,
    on_Att, update_TH1.
  repeat (progress (cbn; rewrite ?Hi; upd)). reflexivity.
Qed.

(** The four style calls on a ratio histogram. *)
Lemma mark_chain {A} (K : Py A) j h c m w :
  hists w !! j = Some h ->
  (SetLineColor (RHist j) c ;;
   SetMarkerColor (RHist j) c ;;
   SetMarkerStyle (RHist j) m ;;
   SetMarkerSize (RHist j) 1 ;; K) w
  = K (with_hists (<[j := mark_TH1 c m h]> (hists w)) w).
Proof.
  intros Hi. assert (Hlt := lookup_lt_Some _ _ _ Hi).
  destruct w as [F P H G cur gp out]. cbn [hists] in Hi, Hlt.
  unfold bind, SetLineColor, SetMarkerColor, SetMarkerStyle, SetMarkerSize,
    on_Att, update_TH1.
  repeat (progress (cbn; rewrite ?Hi; upd)). reflexivity.
Qed.

(** [fig.add_hist] on a histogram and a region that resolves. *)
Lemma Figure_add_hist_step nf F pad q pd j opt w :
  figures w !! nf = Some F ->
  match pad with
  | None => fig_canvas F
  | Some n => default RNone (assoc n (fig_pads F))
  end = RPad q ->
  pads w !! q = Some pd ->
  (j < length (hists w))%nat ->
  Figure_add_hist (RFigure nf) (RHist j) opt pad w
  = (Ok tt, with_pads (<[q := draw_into (RHist j) opt pd]> (pads w))
                      (with_gPad (RPad q) w)).
Proof.
  intros HF Hq Hp Hj. apply lookup_lt_is_Some in Hj. destruct Hj as [h Hj].
  destruct w as [Fs P H G cur gp out]. cbn [figures pads hists] in *.
  unfold Figure_add_hist, Figure_get_pad, get_Figure, cd, get_TPad, Draw, update_TPad,
    bind, ret, raise. cbn. rewrite HF.
  destruct pad as [n|].
  - destruct (assoc n (fig_pads F)) as [r|]; cbn in Hq; [|discriminate Hq]. subst r.
    cbn. rewrite Hp. cbn. rewrite Hj. cbn. rewrite Hp. reflexivity.
  - rewrite Hq. cbn. rewrite Hp. cbn. rewrite Hj. cbn. rewrite Hp. reflexivity.
Qed.

(** [hist_divide] on two histograms. *)
Lemma hist_divide_step a b ha hb w :
  hists w !! a = Some ha ->
  hists w !! b = Some hb ->
  hist_divide (RHist a) (RHist b) w
  = (Ok (RHist (length (hists w))), with_hists (hists w ++ [ratio_TH1 ha hb]) w).
Proof.
  intros Ha Hb.
  assert (Hla := lookup_lt_Some _ _ _ Ha). assert (Hlb := lookup_lt_Some _ _ _ Hb).
  destruct w as [Fs P H G cur gp out]. cbn [hists] in *.
  unfold hist_divide. ops.
  repeat (progress (cbn; rewrite ?Ha, ?Hb; heap)). reflexivity.
Qed.

Lemma is_hist_ext w w' r :
  length (hists w') = length (hists w) -> is_hist w' r = is_hist w r.
Proof. intros E. destruct r; cbn; try reflexivity. rewrite E. reflexivity. Qed.

(** The loop of [plot_hist]: every item is drawn into the canvas, and
    restyles its histogram. *)
Lemma plot_hist_loop nf F np drawopt items :
  forall w pd,
  figures w !! nf = Some F ->
  fig_canvas F = RPad np ->
  pads w !! np = Some pd ->
  Forall (fun it => is_hist w it.1 = true) items ->
  exists w',
    for_each items (plot_hist_body (RFigure nf) drawopt) w = (Ok tt, w') /\
    figures w' = figures w /\ graphs w' = graphs w /\
    current_figure w' = current_figure w /\ stdout w' = stdout w /\
    length (hists w') = length (hists w) /\
    pads w' !! np
    = Some (set_fPrimitives
              (fPrimitives pd ++ map (fun it => (it.1, drawopt)) items) pd) /\
    (forall j, hists w' !! j = style_all items j <$> hists w !! j).
Proof.
  induction items as [|[r [c m]] rest IH]; intros w pd HF Hc Hp Hval.
  - exists w. cbn. rewrite app_nil_r. repeat split; try reflexivity.
    + rewrite Hp. destruct pd; reflexivity.
    + intros j. destruct (hists w !! j); reflexivity.
  - apply Forall_cons in Hval. destruct Hval as [Hr Hval].
    destruct r as [| | |j| |]; try discriminate Hr. cbn in Hr.
    apply bool_decide_eq_true in Hr.
    destruct (lookup_lt_is_Some_2 _ _ Hr) as [h Hj].
    cbn [for_each plot_hist_body]. unfold bind at 1.
    rewrite (style_chain _ j h c m w Hj).
    unfold bind at 1.
    rewrite (Figure_add_hist_step nf F None np pd j drawopt)
      by (cbn; rewrite ?length_insert; assumption).
    cbn [ret].
    set (w1 := with_pads _ _).
    destruct (IH w1 (draw_into (RHist j) drawopt pd)) as
      (w' & Hrun & Hfig & Hg & Hcur & Hout & Hlen & Hpad & Hh).
    + exact HF.
    + exact Hc.
    + cbn. apply list_lookup_insert_eq. apply (lookup_lt_Some _ _ _ Hp).
    + eapply Forall_impl; [exact Hval|]. intros it Hit.
      rewrite <- Hit. apply is_hist_ext. cbn. apply length_insert.
    + exists w'. split; [exact Hrun|].
      repeat (split; [assumption|]).
      split; [rewrite Hlen; cbn; apply length_insert|].
      split.
      * rewrite Hpad. cbn. rewrite <- app_assoc. reflexivity.
      * intros j'. rewrite Hh. cbn.
        destruct (decide (j = j')) as [<-|Hne].
        -- rewrite list_lookup_insert_eq by exact Hr. rewrite Hj. cbn.
           rewrite bool_decide_eq_true_2 by reflexivity. reflexivity.
        -- rewrite list_lookup_insert_ne by exact Hne.
           rewrite bool_decide_eq_false_2 by congruence. reflexivity.
Qed.

Lemma style_all_notin items j h :
  RHist j ∉ items.*1 -> style_all items j h = h.
Proof.
  revert h. induction items as [|[r [c m]] rest IH]; intros h Hn; [reflexivity|].
  cbn in *. apply not_elem_of_cons in Hn. destruct Hn as [Hne Hn].
  rewrite bool_decide_eq_false_2 by congruence. apply IH, Hn.
Qed.

Lemma style_all_last items i j c m h :
  items !! i = Some (RHist j, (c, m)) ->
  (forall i' it, (i < i')%nat -> items !! i' = Some it -> it.1 <> RHist j) ->
  fAtt (style_all items j h) = mkTAtt c c m 1.
Proof.
  revert i h. induction items as [|[r [c' m']] rest IH]; intros i h Hi Hlast.
  - discriminate Hi.
  - destruct i as [|i].
    + cbn in Hi. injection Hi as -> -> ->. cbn.
      rewrite bool_decide_eq_true_2 by reflexivity.
      rewrite style_all_notin; [reflexivity|].
      intros Hin. apply list_elem_of_fmap in Hin. destruct Hin as (it & Hit & Hin).
      apply list_elem_of_lookup in Hin. destruct Hin as [k Hk].
      apply (Hlast (S k) it); [lia | exact Hk | symmetry; exact Hit].
    + cbn. eapply IH; [exact Hi|].
      intros i' it Hlt Hit. apply (Hlast (S i') it); [lia | exact Hit].
Qed.

Lemma zip3_lookup {A B C} (a : list A) (b : list B) (c : list C) i x y z :
  a !! i = Some x -> b !! i = Some y -> c !! i = Some z ->
  zip3 a b c !! i = Some (x, (y, z)).
Proof.
  intros Ha Hb Hc. unfold zip3. rewrite !lookup_zip_with, Ha, Hb, Hc. reflexivity.
Qed.

Lemma zip3_fst {A B C} (a : list A) (b : list B) (c : list C) :
  (zip3 a b c).*1 = take (length (zip3 a b c)) a.
Proof.
  unfold zip3. revert b c. induction a as [|x a IH]; intros b c; [reflexivity|].
  destruct b as [|y b]; [reflexivity|]. destruct c as [|z c]; [reflexivity|].
  cbn. f_equal. apply IH.
Qed.

Lemma zip3_length {A B C} (a : list A) (b : list B) (c : list C) :
  length (zip3 a b c) = (length a `min` (length b `min` length c))%nat.
Proof. unfold zip3. rewrite !length_zip_with. reflexivity. Qed.

Lemma create_canvas_choice k :
  canvas_kwargs_ok k = true ->
  exists name title canw canh,
    (if kwargs_truthy k then create_canvas_kw k
     else create_canvas "canvas" "" 700 500)
    = create_canvas name title canw canh.
Proof.
  unfold canvas_kwargs_ok. intros Hk. destruct (kwargs_truthy k); [|eauto 10].
  cbn in Hk. unfold create_canvas_kw.
  destruct (kw_name k), (kw_ratio_size_as_fraction k), (kw_drawopt k), (kw_others k);
    try discriminate Hk. eauto 10.
Qed.

Lemma create_canvas_spec name title canw canh w :
  create_canvas name title canw canh w
  = (Ok (RFigure (length (figures w))),
     mkWorld (figures w ++ [mkFigure (RPad (length (pads w))) [] [] []])
             (pads w ++ [fresh_pad name title (Some (canw, canh)) 0 0 1 1])
             (hists w) (graphs w) (RFigure (length (figures w)))
             (RPad (length (pads w))) (stdout w)).
Proof. destruct w. reflexivity. Qed.

(** C5. [plot_hist] iterates [zip(hists, colors, markers)], of length
    [n = min(len(hists), len(colors), len(markers))] (so [n = len(hists)]
    when the colors and markers are at least as many): it returns a figure
    whose default region, the canvas, holds exactly the first [n] histograms,
    in order, each with the draw option; histogram [i] has color [i] as line
    and marker color, marker style [i] and marker size 1 (when the same
    object is not passed again at a later index, which restyles it); the
    histograms beyond [n] are neither drawn nor changed. *)
Theorem plot_hist_draws_each_series
        (hs : list Ref) (xlabel ylabel : string) (colors markers : list Z)
        (drawopt : string) (kw : CanvasKwargs) (w : World) :
  let n := length (zip3 hs colors markers) in
  canvas_kwargs_ok kw = true ->
  Forall (fun r => is_hist w r = true) (take n hs) ->
  exists w' F pd,
    plot_hist hs xlabel ylabel colors markers drawopt kw w
    = (Ok (RFigure (length (figures w))), w') /\
    n = (length hs `min` (length colors `min` length markers))%nat /\
    figures w' !! length (figures w) = Some F /\
    fig_canvas F = RPad (length (pads w)) /\ fig_pads F = [] /\
    pads w' !! length (pads w) = Some pd /\
    fPrimitives pd = map (fun r => (r, drawopt)) (take n hs) /\
    (forall i j c m,
       (i < n)%nat -> hs !! i = Some (RHist j) ->
       colors !! i = Some c -> markers !! i = Some m ->
       (forall i', (i < i' < n)%nat -> hs !! i' <> Some (RHist j)) ->
       exists h, hists w' !! j = Some h /\ fAtt h = mkTAtt c c m 1) /\
    (forall j, RHist j ∉ take n hs -> hists w' !! j = hists w !! j).
Proof.
  intros n Hkw Hval.
  set (items := zip3 hs colors markers) in *.
  assert (Hfst : items.*1 = take n hs) by apply zip3_fst.
  set (nf := length (figures w)). set (np := length (pads w)).
  destruct (create_canvas_choice kw Hkw) as (name & title & canw & canh & Hcc).
  unfold plot_hist. rewrite Hcc. unfold bind at 1. rewrite create_canvas_spec.
  fold nf np. unfold bind at 1. cbn [set_figure type_is_Figure].
  set (F0 := mkFigure (RPad np) [] [] []).
  set (pd0 := fresh_pad name title (Some (canw, canh)) 0 0 1 1).
  set (w1 := with_current_figure _ _).
  destruct (plot_hist_loop nf F0 np drawopt items w1 pd0) as
    (w2 & Hrun & Hfig & Hg & Hcur & Hout & Hlen & Hpad & Hh).
  { cbn. apply lookup_snoc. reflexivity. }
  { reflexivity. }
  { cbn. apply lookup_snoc. reflexivity. }
  { apply Forall_forall. intros it Hit.
    assert (Hin : it.1 ∈ take n hs).
    { rewrite <- Hfst. apply list_elem_of_fmap. exists it. split; [reflexivity|exact Hit]. }
    rewrite Forall_forall in Hval. specialize (Hval _ Hin).
    rewrite <- Hval. apply is_hist_ext. reflexivity. }
  fold items. unfold bind at 1. rewrite Hrun.
  (* the labels *)
  assert (HF2 : figures w2 !! nf = Some F0)
    by (rewrite Hfig; cbn; apply lookup_snoc; reflexivity).
  unfold bind at 1. unfold Figure_set_xlabel, Figure_get_pad, get_Figure, update_Figure.
  unfold bind at 1. unfold bind at 1. rewrite HF2. cbn [ret]. rewrite HF2.
  set (w3 := with_figures _ w2).
  unfold bind at 1. unfold Figure_set_ylabel, Figure_get_pad, get_Figure, update_Figure.
  unfold bind at 1. unfold bind at 1.
  assert (HF3 : figures w3 !! nf
                = Some (mkFigure (RPad np) [] [(None, xlabel)] []))
    by (cbn; apply list_lookup_insert_eq; apply (lookup_lt_Some _ _ _ HF2)).
  rewrite HF3. cbn [ret fig_canvas]. rewrite HF3.
  set (w4 := with_figures _ w3).
  set (F4 := mkFigure (RPad np) [] [(None, xlabel)] [(None, ylabel)]).
  assert (HF4 : figures w4 !! nf = Some F4).
  { cbn. apply list_lookup_insert_eq. rewrite length_insert.
    apply (lookup_lt_Some _ _ _ HF2). }
  (* the axes *)
  set (cfg := mkAxesConfig _ _ _ _ _ _ _ _ _ _ _ _ _ _ _ _ _ _ _ _).
  set (pd2 := set_fPrimitives _ pd0) in Hpad.
  destruct (format_canvas_axes_spec cfg None RNone w4 np pd2) as
    (w5 & Hfmt & Hsame & Hh5 & Hg5).
  { cbn [target_figure]. replace (current_figure w4) with (RFigure nf)
      by (cbn; rewrite Hcur; reflexivity).
    unfold Figure_get_pad, get_Figure, bind. rewrite HF4. reflexivity. }
  { exact Hpad. }
  { reflexivity. }
  { reflexivity. }
  unfold bind at 1. rewrite Hfmt. cbn [ret].
  destruct Hsame as (Hfig5 & Hpads5 & _).
  exists w5, F4, pd2. split; [reflexivity|].
  split; [apply zip3_length|].
  split; [rewrite Hfig5; exact HF4|].
  split; [reflexivity|]. split; [reflexivity|].
  split; [rewrite Hpads5; exact Hpad|].
  split.
  { subst pd2. cbn. rewrite <- Hfst, <- list_fmap_compose. reflexivity. }
  assert (Hlook : forall j, fAtt <$> hists w5 !! j
                            = fAtt <$> (style_all items j <$> hists w !! j)).
  { intros j. rewrite Hh5. cbn [hists w4 w3 with_figures]. rewrite Hh.
    cbn [hists w1 with_current_figure].
    destruct (bool_decide _); [|reflexivity].
    destruct (hists w !! j); reflexivity. }
  split.
  - intros i j c m Hi Hhs Hc Hm Hlast.
    assert (Hj : is_hist w (RHist j) = true).
    { rewrite Forall_forall in Hval. apply Hval.
      apply list_elem_of_lookup. exists i. rewrite lookup_take_lt by exact Hi. exact Hhs. }
    cbn in Hj. apply bool_decide_eq_true in Hj.
    destruct (lookup_lt_is_Some_2 _ _ Hj) as [h Hjh].
    specialize (Hlook j). rewrite Hjh in Hlook. cbn in Hlook.
    destruct (hists w5 !! j) as [h5|]; [|discriminate Hlook].
    exists h5. split; [reflexivity|]. injection Hlook as ->.
    apply (style_all_last items i j c m).
    + apply zip3_lookup; assumption.
    + intros i' it Hlt Hit Heq.
      assert (Hi' : (i' < n)%nat) by (apply lookup_lt_Some in Hit; exact Hit).
      apply (Hlast i'); [lia|].
      assert (E : items.*1 !! i' = Some (RHist j))
        by (rewrite list_lookup_fmap, Hit; cbn; congruence).
      rewrite Hfst, lookup_take_lt in E by exact Hi'. exact E.
  - intros j Hn. rewrite Hh5.
    rewrite bool_decide_eq_false_2.
    + cbn [hists w4 w3 with_figures]. rewrite Hh. cbn [hists w1 with_current_figure].
      destruct (hists w !! j); [|reflexivity]. cbn.
      rewrite style_all_notin by (rewrite Hfst; exact Hn). reflexivity.
    + intros Hin. apply Hn.
      assert (Hsub : forall w0 l r, r ∈ formatted w0 l -> r ∈ l).
      { intros w0 l r. induction l as [|a l IH]; cbn; [auto|].
        destruct (has_GetXaxis w0 a).
        - intros Hr. apply elem_of_cons in Hr. destruct Hr as [->|Hr]; [left|].
          destruct (has_GetZaxis w0 a); [apply elem_of_nil in Hr; destruct Hr|].
          right. apply IH, Hr.
        - intros Hr. right. apply IH, Hr. }
      apply Hsub in Hin. subst pd2. unfold region_primitives in Hin. cbn in Hin.
      rewrite <- list_fmap_compose in Hin. cbn in Hin.
      rewrite <- Hfst. exact Hin.
Qed.


(* ===================================================================== *)
(** ** The ratio canvas and the ratio plot                                *)
(* ===================================================================== *)

(** [create_ratio_canvas] when both pads have a height: the world it
    leaves. *)
Lemma create_ratio_canvas_spec name title canw canh r drawopt w :
  PrimFloat.eqb (1.0 - r) 0 = false ->
  PrimFloat.eqb (r - 0.0) 0 = false ->
  exists w' pc ptop pbot,
    create_ratio_canvas name title canw canh r drawopt w
    = (Ok (RFigure (length (figures w))), w') /\
    figures w' = figures w ++ [ratio_figure (length (pads w))] /\
    pads w' = pads w ++ [pc; ptop; pbot] /\
    hists w' = hists w /\ graphs w' = graphs w /\
    current_figure w' = RFigure (length (figures w)) /\
    stdout w' = stdout w /\
    pName ptop = "pad_top"%string /\ pad_extent ptop = (r, 1.0%float) /\
    fPrimitives ptop = [] /\
    pName pbot = "pad_bot"%string /\ pad_extent pbot = (0.0%float, r) /\
    fPrimitives pbot = [].
Proof.
  intros H1 H2. destruct w as [F P H G cur gp out]. ops.
  repeat (progress (cbn; heap; unfold HNDC; cbn; rewrite ?H1, ?H2)).
  do 4 eexists. split; [reflexivity|]. cbn.
  split; [reflexivity|].
  split; [rewrite <- !app_assoc; reflexivity|].
  cbn. auto 20.
Qed.



Lemma TH1_Divide_cells a b : fArray (TH1_Divide a b) = cells_divide (fArray a) (fArray b).
Proof.
  unfold TH1_Divide, cells_divide. destruct (Nat.eqb _ _); reflexivity.
Qed.

Lemma TH1_Divide_name a b : fName (TH1_Divide a b) = fName a.
Proof. unfold TH1_Divide. destruct (Nat.eqb _ _); reflexivity. Qed.



(** One iteration of the loop of [plot_hist_ratios] after the first. *)
Lemma ratio_body_step nf F pt pb pdt pdb drawopt ref_place k j j0 c m h hden w :
  figures w !! nf = Some F ->
  assoc "pad_top" (fig_pads F) = Some (RPad pt) ->
  assoc "pad_bot" (fig_pads F) = Some (RPad pb) ->
  pt <> pb ->
  pads w !! pt = Some pdt ->
  pads w !! pb = Some pdb ->
  hists w !! j = Some h ->
  <[j := style_TH1 c m h]> (hists w) !! j0 = Some hden ->
  plot_hist_ratios_body (RFigure nf) ref_place drawopt (Some (RHist j0))
                        (S k, (RHist j, (c, m))) w
  = (Ok (Some (RHist j0)),
     mkWorld (figures w)
             (<[pb := draw_into (RHist (length (hists w))) "P" pdb]>
                (<[pt := draw_into (RHist j) drawopt pdt]> (pads w)))
             (<[j := style_TH1 c m h]> (hists w)
                ++ [ratio_new ref_place c m (style_TH1 c m h) hden])
             (graphs w) (current_figure w) (RPad pb) (stdout w)).
Proof.
  intros HF Ht Hb Hne Hpt Hpb Hj Hden.
  assert (Hlt := lookup_lt_Some _ _ _ Hj).
  unfold plot_hist_ratios_body.
  rewrite (style_chain _ j h c m w Hj).
  set (w1 := with_hists _ w).
  unfold bind at 1.
  rewrite (Figure_add_hist_step nf F (Some "pad_top"%string) pt pdt j drawopt w1);
    [| exact HF | cbn; rewrite Ht; reflexivity | exact Hpt
     | cbn; rewrite length_insert; exact Hlt ].
  set (w2 := with_pads _ _).
  cbn [Nat.eqb]. unfold bind at 1. cbn [ret]. unfold bind at 1.
  assert (Hj2 : hists w2 !! j = Some (style_TH1 c m h))
    by (cbn; apply list_lookup_insert_eq; exact Hlt).
  assert (Hd2 : hists w2 !! j0 = Some hden) by exact Hden.
  assert (Hlen2 : length (hists w2) = length (hists w))
    by (cbn; apply length_insert).
  assert (Hdiv : (if String.eqb ref_place "den" then hist_divide (RHist j) (RHist j0)
                  else hist_divide (RHist j0) (RHist j)) w2
                 = (Ok (RHist (length (hists w))),
                    with_hists (hists w2 ++
                      [if String.eqb ref_place "den"
                       then ratio_TH1 (style_TH1 c m h) hden
                       else ratio_TH1 hden (style_TH1 c m h)]) w2)).
  { destruct (String.eqb ref_place "den").
    - rewrite (hist_divide_step j j0 _ _ w2 Hj2 Hd2), Hlen2. reflexivity.
    - rewrite (hist_divide_step j0 j _ _ w2 Hd2 Hj2), Hlen2. reflexivity. }
  rewrite Hdiv. set (ratio := if String.eqb ref_place "den" then _ else _).
  set (w3 := with_hists _ w2).
  rewrite (mark_chain _ (length (hists w)) ratio c m w3)
    by (cbn; apply lookup_snoc; rewrite length_insert; reflexivity).
  set (w4 := with_hists _ w3).
  unfold bind at 1.
  rewrite (Figure_add_hist_step nf F (Some "pad_bot"%string) pb pdb
             (length (hists w)) "P" w4);
    [| exact HF | cbn; rewrite Hb; reflexivity
     | cbn; rewrite list_lookup_insert_ne by exact Hne; exact Hpb
     | cbn; rewrite length_insert, length_app, length_insert; cbn; lia ].
  cbn [ret]. f_equal. subst w4 w3 w2 w1. unfold with_pads, with_gPad, with_hists. cbn.
  f_equal. rewrite insert_snoc by (rewrite length_insert; reflexivity).
  reflexivity.
Qed.

(** The first iteration of the loop of [plot_hist_ratios]. *)
Lemma first_body_step nf F pt pdt drawopt ref_place href j c m h w :
  figures w !! nf = Some F ->
  assoc "pad_top" (fig_pads F) = Some (RPad pt) ->
  pads w !! pt = Some pdt ->
  hists w !! j = Some h ->
  plot_hist_ratios_body (RFigure nf) ref_place drawopt href
                        (0%nat, (RHist j, (c, m))) w
  = (Ok (Some (RHist j)),
     mkWorld (figures w)
             (<[pt := draw_into (RHist j) drawopt pdt]> (pads w))
             (<[j := style_TH1 c m h]> (hists w))
             (graphs w) (current_figure w) (RPad pt) (stdout w)).
Proof.
  intros HF Ht Hpt Hj.
  assert (Hlt := lookup_lt_Some _ _ _ Hj).
  unfold plot_hist_ratios_body.
  rewrite (style_chain _ j h c m w Hj).
  set (w1 := with_hists _ w).
  unfold bind at 1.
  rewrite (Figure_add_hist_step nf F (Some "pad_top"%string) pt pdt j drawopt w1);
    [| exact HF | cbn; rewrite Ht; reflexivity | exact Hpt
     | cbn; rewrite length_insert; exact Hlt ].
  reflexivity.
Qed.



Lemma create_ratio_canvas_choice k :
  ratio_kwargs_ok k = true ->
  exists name title canw canh drawopt,
    (if kwargs_truthy k then create_ratio_canvas_kw k
     else create_ratio_canvas "canvas" "" 700 500 0.35 "pE1")
    = create_ratio_canvas name title canw canh (kwargs_ratio k) drawopt /\
    PrimFloat.eqb (1.0 - kwargs_ratio k) 0 = false /\
    PrimFloat.eqb (kwargs_ratio k - 0.0) 0 = false.
Proof.
  unfold ratio_kwargs_ok, kwargs_ratio. intros Hk.
  apply andb_true_iff in Hk. destruct Hk as [Hk H2].
  apply andb_true_iff in Hk. destruct Hk as [Hk H1].
  apply negb_true_iff in H1, H2.
  destruct (kwargs_truthy k); [|eauto 10].
  cbn in Hk. unfold create_ratio_canvas_kw.
  destruct (kw_name k), (kw_others k); try discriminate Hk. eauto 10.
Qed.



(* ===================================================================== *)
(** ** More on the canvas builders                                        *)
(* ===================================================================== *)







(** X3. [create_canvas] makes its figure the current one, and [add_hist]
    draws into the current figure: whatever figure was current before,
    [add_hist(hist, drawopt)] after [create_canvas(name, ...)] appends the
    histogram, with its draw option, to the draw list of the new canvas,
    which held nothing, and [get_figure()] then returns the new figure. *)
Theorem add_hist_draws_into_new_canvas
        (name title : string) (canw canh : Z)
        (j : nat) (drawopt : string) (w : World) :
  (j < length (hists w))%nat ->
  exists w' pd,
    (create_canvas name title canw canh ;; add_hist (RHist j) drawopt None) w
    = (Ok tt, w') /\
    get_figure w' = (Ok (RFigure (length (figures w))), w') /\
    Figure_get_pad (RFigure (length (figures w))) None w'
    = (Ok (RPad (length (pads w))), w') /\
    pads w' !! length (pads w) = Some pd /\
    pName pd = name /\ pCanvasSize pd = Some (canw, canh) /\
    fPrimitives pd = [(RHist j, drawopt)] /\
    hists w' = hists w.
Proof.
  intros Hj. unfold bind at 1. rewrite create_canvas_spec.
  unfold add_hist, bind at 1, get_figure. cbn [current_figure].
  rewrite (Figure_add_hist_step (length (figures w))
             (mkFigure (RPad (length (pads w))) [] [] []) None (length (pads w))
             (fresh_pad name title (Some (canw, canh)) 0 0 1 1) j drawopt);
    [| cbn; apply lookup_snoc; reflexivity | reflexivity
     | cbn; apply lookup_snoc; reflexivity | exact Hj ].
  do 2 eexists. split; [reflexivity|]. cbn.
  split; [reflexivity|].
  split.
  { unfold Figure_get_pad, get_Figure, bind. cbn.
    rewrite lookup_snoc by reflexivity. reflexivity. }
  split.
  { rewrite insert_snoc by reflexivity. apply lookup_snoc. reflexivity. }
  cbn. repeat split; reflexivity.
Qed.


(* ===================================================================== *)
(** ** More on the axis formatter                                         *)
(* ===================================================================== *)

Lemma format_loop_skip c canvas prims w :
  Forall (fun r => has_GetXaxis w r = false) prims ->
  for_each prims (format_primitive c canvas) w = (Ok tt, w).
Proof.
  induction 1 as [|r rest Hr _ IH]; [reflexivity|].
  cbn [for_each]. unfold bind. rewrite format_primitive_skip by exact Hr. exact IH.
Qed.

(** The prologue of [format_canvas_axes]: the figure, the region and its
    primitives. *)
Lemma format_canvas_axes_unfold c pad fig w p pd :
  Figure_get_pad (target_figure w fig) pad w = (Ok (RPad p), w) ->
  pads w !! p = Some pd ->
  format_canvas_axes c pad fig w
  = (for_each (region_primitives pd) (format_primitive c (RPad p)) ;;
     Modified (RPad p) ;; Update (RPad p)) w.
Proof.
  intros Hr Hp. unfold format_canvas_axes.
  assert (Hfig : (match fig with RNone => get_figure | _ => ret fig end) w
                 = (Ok (target_figure w fig), w)) by (destruct fig; reflexivity).
  unfold bind at 1. rewrite Hfig.
  unfold bind at 1. rewrite Hr.
  unfold bind at 1. unfold GetListOfPrimitives, bind at 1, get_TPad. rewrite Hp.
  reflexivity.
Qed.

(** X4. On a region that holds no drawable with a horizontal axis (an
    empty region, or one that holds pads and texts only, as the surface of a
    ratio figure), [format_canvas_axes] returns and changes nothing,
    whatever the keywords and the height of the region: neither
    [YNDiv=None] nor a height of zero raises, since no iteration of the loop
    gets past its first test. *)
Theorem format_canvas_axes_without_axes c pad fig w p pd :
  Figure_get_pad (target_figure w fig) pad w = (Ok (RPad p), w) ->
  pads w !! p = Some pd ->
  Forall (fun r => has_GetXaxis w r = false) (region_primitives pd) ->
  format_canvas_axes c pad fig w = (Ok tt, w).
Proof.
  intros Hr Hp Hno. rewrite (format_canvas_axes_unfold c pad fig w p pd Hr Hp).
  unfold bind at 1. rewrite format_loop_skip by exact Hno.
  unfold Modified, Update, bind, get_TPad. rewrite Hp. cbn. rewrite Hp. reflexivity.
Qed.




Lemma Figure_get_pad_ext F pad w w' r :
  figures w' = figures w ->
  Figure_get_pad F pad w = (Ok r, w) ->
  Figure_get_pad F pad w' = (Ok r, w').
Proof.
  intros E. unfold Figure_get_pad, get_Figure, bind, ret, raise.
  destruct F; try discriminate. rewrite E.
  destruct (figures w !! i) as [f|]; [|discriminate].
  destruct pad as [n|].
  - destruct (assoc n (fig_pads f)); [|discriminate]. congruence.
  - congruence.
Qed.

Lemma target_figure_ext w w' fig :
  current_figure w' = current_figure w -> target_figure w' fig = target_figure w fig.
Proof. intros E. destruct fig; cbn; congruence. Qed.

Lemma format_Xaxis_idem c h a : format_Xaxis c h (format_Xaxis c h a) = format_Xaxis c h a.
Proof.
  unfold format_Xaxis, apply_ndiv.
  destruct (first_three (XNDiv c)) as [[[? ?] ?]|]; reflexivity.
Qed.

Lemma format_Yaxis_idem c a : format_Yaxis c (format_Yaxis c a) = format_Yaxis c a.
Proof.
  unfold format_Yaxis, apply_ndiv.
  destruct (first_three (YNDiv c)) as [[[? ?] ?]|]; reflexivity.
Qed.

Lemma format_TH1_idem c h x : format_TH1 c h (format_TH1 c h x) = format_TH1 c h x.
Proof.
  unfold format_TH1. cbn. rewrite format_Xaxis_idem, format_Yaxis_idem. reflexivity.
Qed.

Lemma World_ext w w' :
  figures w' = figures w -> pads w' = pads w -> hists w' = hists w ->
  graphs w' = graphs w -> current_figure w' = current_figure w ->
  gPad w' = gPad w -> stdout w' = stdout w -> w' = w.
Proof. destruct w, w'; cbn. intros; subst; reflexivity. Qed.

(** X6. [format_canvas_axes] is idempotent: when a call returns, a second
    call with the same arguments returns too and leaves the world the first
    call left. *)
Theorem format_canvas_axes_idempotent c pad fig w p pd :
  Figure_get_pad (target_figure w fig) pad w = (Ok (RPad p), w) ->
  pads w !! p = Some pd ->
  PrimFloat.eqb (HNDC pd) 0 = false ->
  config_ok c = true ->
  exists w',
    format_canvas_axes c pad fig w = (Ok tt, w') /\
    format_canvas_axes c pad fig w' = (Ok tt, w').
Proof.
  intros Hr Hp Hh Hc.
  destruct (format_canvas_axes_spec c pad fig w p pd Hr Hp Hh Hc)
    as (w1 & Hrun & Hsame & Hhists & Hgraphs).
  exists w1. split; [exact Hrun|].
  destruct Hsame as (Hfig & Hpads & Hcur & Hgp & Hout & Hlh & Hlg).
  destruct (format_canvas_axes_spec c pad fig w1 p pd)
    as (w2 & Hrun2 & Hsame2 & Hhists2 & Hgraphs2); try assumption.
  { rewrite (target_figure_ext w w1) by exact Hcur.
    apply (Figure_get_pad_ext _ _ w); assumption. }
  { rewrite Hpads. exact Hp. }
  rewrite Hrun2. f_equal.
  destruct Hsame2 as (Hfig2 & Hpads2 & Hcur2 & Hgp2 & Hout2 & _ & _).
  rewrite (formatted_ext w w1) in Hhists2, Hgraphs2 by assumption.
  apply World_ext; try assumption.
  - apply list_eq. intros i. rewrite Hhists2, Hhists.
    destruct (bool_decide _); [|reflexivity].
    destruct (hists w !! i); [|reflexivity]. cbn. rewrite format_TH1_idem. reflexivity.
  - apply list_eq. intros i. rewrite Hgraphs2, Hgraphs.
    destruct (bool_decide _); [|reflexivity].
    destruct (graphs w !! i); [|reflexivity]. cbn. rewrite format_TGraph_idem. reflexivity.
Qed.

Lemma format_ratio_canvas_axes_calls c fig :
  format_ratio_canvas_axes c fig
  = (format_canvas_axes (top_axes c) (Some "pad_top"%string) fig ;;
     format_canvas_axes (bot_axes c) (Some "pad_bot"%string) fig).
Proof. reflexivity. Qed.

(** [format_ratio_canvas_axes] on a figure whose two pads resolve and have
    a height: the drawables reached in the top pad are formatted with
    [top_axes], then those reached in the bottom pad with [bot_axes]. *)
Lemma format_ratio_canvas_axes_spec c fig w pt pb pdt pdb :
  Figure_get_pad (target_figure w fig) (Some "pad_top"%string) w = (Ok (RPad pt), w) ->
  Figure_get_pad (target_figure w fig) (Some "pad_bot"%string) w = (Ok (RPad pb), w) ->
  pads w !! pt = Some pdt ->
  pads w !! pb = Some pdb ->
  PrimFloat.eqb (HNDC pdt) 0 = false ->
  PrimFloat.eqb (HNDC pdb) 0 = false ->
  is_Some (first_three (YNDiv c)) ->
  exists w',
    format_ratio_canvas_axes c fig w = (Ok tt, w') /\
    same_but_drawables w w' /\
    (forall i, hists w' !! i
       = (fun h => when (bool_decide (RHist i ∈ formatted w (region_primitives pdb)))
                        (format_TH1 (bot_axes c) (HNDC pdb))
                     (when (bool_decide (RHist i ∈ formatted w (region_primitives pdt)))
                           (format_TH1 (top_axes c) (HNDC pdt)) h))
         <$> hists w !! i) /\
    (forall i, graphs w' !! i
       = (fun g => when (bool_decide (RGraph i ∈ formatted w (region_primitives pdb)))
                        (format_TGraph (bot_axes c) (HNDC pdb))
                     (when (bool_decide (RGraph i ∈ formatted w (region_primitives pdt)))
                           (format_TGraph (top_axes c) (HNDC pdt)) g))
         <$> graphs w !! i).
Proof.
  intros Hrt Hrb Hpt Hpb Hht Hhb Hy.
  assert (Hct : config_ok (top_axes c) = true).
  { unfold config_ok. cbn. apply bool_decide_eq_true_2, Hy. }
  assert (Hcb : config_ok (bot_axes c) = true) by reflexivity.
  destruct (format_canvas_axes_spec (top_axes c) _ fig w pt pdt Hrt Hpt Hht Hct)
    as (w1 & Hrun1 & Hsame1 & Hhists1 & Hgraphs1).
  destruct Hsame1 as (Hfig & Hpads & Hcur & Hgp & Hout & Hlh & Hlg).
  destruct (format_canvas_axes_spec (bot_axes c) (Some "pad_bot"%string) fig w1 pb pdb)
    as (w2 & Hrun2 & Hsame2 & Hhists2 & Hgraphs2); try assumption.
  { rewrite (target_figure_ext w w1) by exact Hcur.
    apply (Figure_get_pad_ext _ _ w); assumption. }
  { rewrite Hpads. exact Hpb. }
  destruct Hsame2 as (Hfig2 & Hpads2 & Hcur2 & Hgp2 & Hout2 & Hlh2 & Hlg2).
  rewrite (formatted_ext w w1) in Hhists2, Hgraphs2 by assumption.
  exists w2. split.
  { rewrite format_ratio_canvas_axes_calls. unfold bind. rewrite Hrun1. exact Hrun2. }
  split.
  { repeat split; congruence. }
  split; intros i.
  - rewrite Hhists2, Hhists1. unfold when.
    destruct (bool_decide _), (bool_decide _), (hists w !! i); reflexivity.
  - rewrite Hgraphs2, Hgraphs1. unfold when.
    destruct (bool_decide _), (bool_decide _), (graphs w !! i); reflexivity.
Qed.

(** X7. [format_ratio_canvas_axes] formats the top pad, then the bottom
    pad, each as [format_canvas_axes] does, with overrides of its own. A
    histogram formatted in the bottom pad has the caller's X label offset
    (divided by the height of the bottom pad), but the Y label offset 0.009
    and the Y divisions [5,5,0] (505), whatever the caller's YLabelOffset
    and YNDiv. A histogram formatted in the top pad only has the X label
    offset 0.1 (divided by the height of the top pad), whatever the caller's
    XLabelOffset, and the caller's Y label offset and Y divisions. The
    histograms formatted in neither pad are as they were. *)
Theorem format_ratio_canvas_axes_overrides c fig w pt pb pdt pdb :
  Figure_get_pad (target_figure w fig) (Some "pad_top"%string) w = (Ok (RPad pt), w) ->
  Figure_get_pad (target_figure w fig) (Some "pad_bot"%string) w = (Ok (RPad pb), w) ->
  pads w !! pt = Some pdt ->
  pads w !! pb = Some pdb ->
  PrimFloat.eqb (HNDC pdt) 0 = false ->
  PrimFloat.eqb (HNDC pdb) 0 = false ->
  is_Some (first_three (YNDiv c)) ->
  exists w',
    format_ratio_canvas_axes c fig w = (Ok tt, w') /\
    same_but_drawables w w' /\
    (forall i h,
       RHist i ∈ formatted w (region_primitives pdb) ->
       hists w' !! i = Some h ->
       fLabelOffset (fXaxis h) = (XLabelOffset c / HNDC pdb)%float /\
       fLabelOffset (fYaxis h) = 0.009%float /\
       fNdivisions (fYaxis h) = 505) /\
    (forall i h,
       RHist i ∈ formatted w (region_primitives pdt) ->
       RHist i ∉ formatted w (region_primitives pdb) ->
       hists w' !! i = Some h ->
       fLabelOffset (fXaxis h) = (0.1 / HNDC pdt)%float /\
       fLabelOffset (fYaxis h) = YLabelOffset c /\
       exists n1 n2 n3, first_three (YNDiv c) = Some (n1, n2, n3) /\
                        fNdivisions (fYaxis h) = n1 + 100 * n2 + 10000 * n3) /\
    (forall i,
       RHist i ∉ formatted w (region_primitives pdt) ->
       RHist i ∉ formatted w (region_primitives pdb) ->
       hists w' !! i = hists w !! i).
Proof.
  intros Hrt Hrb Hpt Hpb Hht Hhb Hy.
  destruct (format_ratio_canvas_axes_spec c fig w pt pb pdt pdb Hrt Hrb Hpt Hpb Hht Hhb Hy)
    as (w' & Hrun & Hsame & Hhists & _).
  exists w'. split; [exact Hrun|]. split; [exact Hsame|].
  split; [|split].
  - intros i h Hb Hi. rewrite Hhists in Hi.
    rewrite bool_decide_eq_true_2 in Hi by exact Hb.
    destruct (hists w !! i) as [x|]; [|discriminate Hi].
    injection Hi as <-. cbn. auto.
  - intros i h Ht Hb Hi. rewrite Hhists in Hi.
    rewrite (bool_decide_eq_true_2 _ Ht), (bool_decide_eq_false_2 _ Hb) in Hi.
    destruct (hists w !! i) as [x|]; [|discriminate Hi].
    injection Hi as <-. destruct Hy as [[[n1 n2] n3] Hy].
    unfold when, format_TH1, format_Xaxis, format_Yaxis, apply_ndiv. cbn. rewrite Hy. cbn.
    split; [reflexivity|]. split; [reflexivity|]. eauto.
  - intros i Ht Hb. rewrite Hhists.
    rewrite (bool_decide_eq_false_2 _ Ht), (bool_decide_eq_false_2 _ Hb).
    destruct (hists w !! i); reflexivity.
Qed.


(* ===================================================================== *)
(** ** More on the plots                                                  *)
(* ===================================================================== *)

(** [plot_hist] on histograms of the world: the histograms after the
    call. *)
Lemma plot_hist_spec hs xlabel ylabel colors markers drawopt kw w :
  canvas_kwargs_ok kw = true ->
  Forall (fun r => is_hist w r = true) (take (length (zip3 hs colors markers)) hs) ->
  exists w',
    plot_hist hs xlabel ylabel colors markers drawopt kw w
    = (Ok (RFigure (length (figures w))), w') /\
    (forall j, hists w' !! j
       = (fun h => when (bool_decide
                           (RHist j ∈ formatted w
                              (take (length (zip3 hs colors markers)) hs)))
                        (format_TH1 plot_hist_axes 1)
                        (style_all (zip3 hs colors markers) j h))
         <$> hists w !! j).
Proof.
  intros Hkw Hval.
  set (items := zip3 hs colors markers) in *. set (n := length items) in *.
  assert (Hfst : items.*1 = take n hs) by apply zip3_fst.
  set (nf := length (figures w)). set (np := length (pads w)).
  destruct (create_canvas_choice kw Hkw) as (name & title & canw & canh & Hcc).
  unfold plot_hist. rewrite Hcc. unfold bind at 1. rewrite create_canvas_spec.
  fold nf np. unfold bind at 1. cbn [set_figure type_is_Figure].
  set (F0 := mkFigure (RPad np) [] [] []).
  set (pd0 := fresh_pad name title (Some (canw, canh)) 0 0 1 1).
  set (w1 := with_current_figure _ _).
  destruct (plot_hist_loop nf F0 np drawopt items w1 pd0) as
    (w2 & Hrun & Hfig & Hg & Hcur & Hout & Hlen & Hpad & Hh).
  { cbn. apply lookup_snoc. reflexivity. }
  { reflexivity. }
  { cbn. apply lookup_snoc. reflexivity. }
  { apply Forall_forall. intros it Hit.
    assert (Hin : it.1 ∈ take n hs).
    { rewrite <- Hfst. apply list_elem_of_fmap. exists it. split; [reflexivity|exact Hit]. }
    rewrite Forall_forall in Hval. specialize (Hval _ Hin).
    rewrite <- Hval. apply is_hist_ext. reflexivity. }
  fold items. unfold bind at 1. rewrite Hrun.
  assert (HF2 : figures w2 !! nf = Some F0)
    by (rewrite Hfig; cbn; apply lookup_snoc; reflexivity).
  unfold bind at 1. unfold Figure_set_xlabel, Figure_get_pad, get_Figure, update_Figure.
  unfold bind at 1. unfold bind at 1. rewrite HF2. cbn [ret]. rewrite HF2.
  set (w3 := with_figures _ w2).
  unfold bind at 1. unfold Figure_set_ylabel, Figure_get_pad, get_Figure, update_Figure.
  unfold bind at 1. unfold bind at 1.
  assert (HF3 : figures w3 !! nf
                = Some (mkFigure (RPad np) [] [(None, xlabel)] []))
    by (cbn; apply list_lookup_insert_eq; apply (lookup_lt_Some _ _ _ HF2)).
  rewrite HF3. cbn [ret fig_canvas]. rewrite HF3.
  set (w4 := with_figures _ w3).
  set (F4 := mkFigure (RPad np) [] [(None, xlabel)] [(None, ylabel)]).
  assert (HF4 : figures w4 !! nf = Some F4).
  { cbn. apply list_lookup_insert_eq. rewrite length_insert.
    apply (lookup_lt_Some _ _ _ HF2). }
  fold plot_hist_axes.
  set (pd2 := set_fPrimitives _ pd0) in Hpad.
  destruct (format_canvas_axes_spec plot_hist_axes None RNone w4 np pd2) as
    (w5 & Hfmt & Hsame & Hh5 & Hg5).
  { cbn [target_figure]. replace (current_figure w4) with (RFigure nf)
      by (cbn; rewrite Hcur; reflexivity).
    unfold Figure_get_pad, get_Figure, bind. rewrite HF4. reflexivity. }
  { exact Hpad. }
  { reflexivity. }
  { reflexivity. }
  unfold bind at 1. rewrite Hfmt. cbn [ret].
  exists w5. split; [reflexivity|].
  intros j. rewrite Hh5.
  assert (Hprims : region_primitives pd2 = take n hs).
  { subst pd2. unfold region_primitives. cbn.
    rewrite <- Hfst, <- list_fmap_compose. reflexivity. }
  rewrite Hprims.
  rewrite (formatted_ext w w4);
    [| cbn; rewrite Hlen; reflexivity | cbn; rewrite Hg; reflexivity].
  cbn [hists w4 w3 with_figures]. rewrite Hh. cbn [hists w1 with_current_figure].
  change (HNDC pd2) with 1%float. unfold when.
  destruct (bool_decide _), (hists w !! j); reflexivity.
Qed.

Lemma style_all_axes items j h :
  fXaxis (style_all items j h)
  = when (bool_decide (RHist j ∈ items.*1)) (SetLabelSize 0) (fXaxis h) /\
  fYaxis (style_all items j h) = fYaxis h /\
  fZaxis (style_all items j h) = fZaxis h.
Proof.
  revert h. induction items as [|[r [c m]] rest IH]; intros h.
  - cbn. rewrite bool_decide_eq_false_2 by apply not_elem_of_nil. auto.
  - cbn [style_all]. destruct (IH (if bool_decide (r = RHist j) then style_TH1 c m h else h))
      as (Ex & Ey & Ez). rewrite Ex, Ey, Ez. clear Ex Ey Ez IH.
    cbn [fmap list_fmap fst]. unfold when.
    destruct (decide (r = RHist j)) as [->|Hne].
    + rewrite (bool_decide_eq_true_2 (RHist j = RHist j)) by reflexivity.
      rewrite (bool_decide_eq_true_2 (RHist j ∈ RHist j :: _)) by apply list_elem_of_here.
      cbn. destruct (bool_decide _); auto.
    + rewrite (bool_decide_eq_false_2 (r = RHist j)) by exact Hne.
      split; [|auto].
      apply (f_equal (fun b : bool => if b then _ else _)).
      apply bool_decide_ext. rewrite elem_of_cons. split; [auto|].
      intros [E|E]; [congruence | exact E].
Qed.

(** X8. [plot_hist] formats the axes of the first series only (the
    formatter leaves its loop at the first histogram): when the call
    returns, the first histogram has the X and Y label size 18, the X title
    offset 0.87 (the canvas has height 1), the Y title offset 1.5 and the Y
    divisions 510, while every other series drawn has the X label size 0 of
    the plot loop and, for the rest, the axes it had. *)
Theorem plot_hist_formats_first_series_only
        (hs : list Ref) (xlabel ylabel : string) (colors markers : list Z)
        (drawopt : string) (kw : CanvasKwargs) (w : World) (j0 : nat) :
  let n := length (zip3 hs colors markers) in
  canvas_kwargs_ok kw = true ->
  Forall (fun r => is_hist w r = true) (take n hs) ->
  (0 < n)%nat ->
  hs !! 0%nat = Some (RHist j0) ->
  exists w' h0,
    plot_hist hs xlabel ylabel colors markers drawopt kw w
    = (Ok (RFigure (length (figures w))), w') /\
    hists w' !! j0 = Some h0 /\
    fLabelSize (fXaxis h0) = 18%float /\ fTitleOffset (fXaxis h0) = 0.87%float /\
    fLabelSize (fYaxis h0) = 18%float /\ fTitleOffset (fYaxis h0) = 1.5%float /\
    fNdivisions (fYaxis h0) = 510 /\
    (forall i j h,
       (i < n)%nat -> hs !! i = Some (RHist j) -> j <> j0 ->
       hists w !! j = Some h ->
       exists h', hists w' !! j = Some h' /\
                  fXaxis h' = SetLabelSize 0 (fXaxis h) /\
                  fYaxis h' = fYaxis h /\ fZaxis h' = fZaxis h).
Proof.
  intros n Hkw Hval Hn H0.
  destruct (plot_hist_spec hs xlabel ylabel colors markers drawopt kw w Hkw Hval)
    as (w' & Hrun & Hh).
  fold n in Hh.
  set (items := zip3 hs colors markers) in *.
  assert (Hfst : items.*1 = take n hs) by apply zip3_fst.
  assert (Hj0 : is_hist w (RHist j0) = true).
  { rewrite Forall_forall in Hval. apply Hval. apply list_elem_of_lookup.
    exists 0%nat. rewrite lookup_take_lt by exact Hn. exact H0. }
  cbn in Hj0. apply bool_decide_eq_true in Hj0.
  destruct (lookup_lt_is_Some_2 _ _ Hj0) as [x0 Hx0].
  assert (Hfmt : formatted w (take n hs) = [RHist j0]).
  { destruct hs as [|r rest]; [discriminate H0|]. cbn in H0. injection H0 as ->.
    destruct n as [|n']; [lia|]. cbn.
    rewrite !bool_decide_eq_true_2 by (rewrite Hx0; eauto). reflexivity. }
  rewrite Hfmt in Hh.
  exists w'. eexists. split; [exact Hrun|].
  split.
  { rewrite Hh, Hx0. cbn.
    rewrite bool_decide_eq_true_2 by (apply list_elem_of_singleton; reflexivity).
    reflexivity. }
  cbn.
  split; [reflexivity|]. split; [reflexivity|]. split; [reflexivity|].
  split; [reflexivity|]. split; [reflexivity|].
  intros i j h Hi Hhs Hne Hj.
  exists (style_all items j h). split.
  { rewrite Hh, Hj. cbn.
    rewrite bool_decide_eq_false_2
      by (rewrite list_elem_of_singleton; congruence). reflexivity. }
  destruct (style_all_axes items j h) as (Ex & Ey & Ez).
  rewrite Ex, Ey, Ez. split; [|auto].
  unfold when. rewrite bool_decide_eq_true_2; [reflexivity|].
  rewrite Hfst. apply list_elem_of_lookup. exists i.
  rewrite lookup_take_lt by exact Hi. exact Hhs.
Qed.

(** The loop of [plot_hist_ratios] after its first iteration, as to what
    is drawn and how: every item goes to the top pad with the draw option,
    its ratio to the bottom pad with the option ["P"], and the ratio has the
    color and the marker of the item. *)
Lemma ratio_loop_draws nf F pt pb drawopt ref_place j0 (L0 : nat) :
  assoc "pad_top" (fig_pads F) = Some (RPad pt) ->
  assoc "pad_bot" (fig_pads F) = Some (RPad pb) ->
  pt <> pb ->
  (j0 < L0)%nat ->
  forall its k w pdt pdb,
    figures w !! nf = Some F ->
    pads w !! pt = Some pdt ->
    pads w !! pb = Some pdb ->
    (L0 <= length (hists w))%nat ->
    Forall (fun it => exists j, it.1 = RHist j /\ (j < L0)%nat) its ->
    exists w' pdt' pdb',
      for_each_var (enumerate_from (S k) its) (Some (RHist j0))
                   (plot_hist_ratios_body (RFigure nf) ref_place drawopt) w
      = (Ok (Some (RHist j0)), w') /\
      figures w' = figures w /\
      length (hists w') = (length (hists w) + length its)%nat /\
      pads w' !! pt = Some pdt' /\
      fPrimitives pdt' = fPrimitives pdt ++ map (fun it => (it.1, drawopt)) its /\
      pads w' !! pb = Some pdb' /\
      fPrimitives pdb'
      = fPrimitives pdb
        ++ map (fun q => (RHist (length (hists w) + q), "P"%string))
               (seq 0 (length its)) /\
      (forall j, (L0 <= j < length (hists w))%nat -> hists w' !! j = hists w !! j) /\
      (forall q r c m,
         its !! q = Some (r, (c, m)) ->
         exists ratio, hists w' !! (length (hists w) + q)%nat = Some ratio /\
                       fAtt ratio = mkTAtt c c m 1).
Proof.
  intros Ht Hb Hne Hj0.
  induction its as [|[r [c m]] rest IH]; intros k w pdt pdb HF Hpt Hpb HL Hval.
  - exists w, pdt, pdb. cbn. rewrite !app_nil_r, Nat.add_0_r.
    repeat split; try reflexivity; try assumption.
    intros q r c m Hq. discriminate Hq.
  - apply Forall_cons in Hval. destruct Hval as [(j & Hr & Hjlt) Hval].
    cbn in Hr. subst r.
    destruct (lookup_lt_is_Some_2 (hists w) j) as [h Hj]; [lia|].
    destruct (lookup_lt_is_Some_2 (<[j := style_TH1 c m h]> (hists w)) j0) as [hden Hden];
      [rewrite length_insert; lia|].
    cbn [enumerate_from for_each_var]. unfold bind at 1.
    rewrite (ratio_body_step nf F pt pb pdt pdb drawopt ref_place k j j0 c m h hden w)
      by assumption.
    set (new := ratio_new ref_place c m (style_TH1 c m h) hden).
    set (w1 := mkWorld _ _ _ _ _ _ _).
    assert (Hlen1 : length (hists w1) = S (length (hists w)))
      by (cbn; rewrite length_app, length_insert; cbn; lia).
    destruct (IH (S k) w1 (draw_into (RHist j) drawopt pdt)
                 (draw_into (RHist (length (hists w))) "P" pdb))
      as (w' & pdt' & pdb' & Hrun & Hfig & Hlen & Hpt' & Hprt & Hpb' & Hprb & Hframe & Hatt).
    + exact HF.
    + cbn. rewrite list_lookup_insert_ne by congruence.
      apply list_lookup_insert_eq. apply (lookup_lt_Some _ _ _ Hpt).
    + cbn. apply list_lookup_insert_eq. rewrite length_insert.
      apply (lookup_lt_Some _ _ _ Hpb).
    + lia.
    + exact Hval.
    + exists w', pdt', pdb'. split; [exact Hrun|].
      split; [exact Hfig|].
      split; [rewrite Hlen, Hlen1; cbn; lia|].
      split; [exact Hpt'|].
      split; [rewrite Hprt; cbn; rewrite <- app_assoc; reflexivity|].
      split; [exact Hpb'|].
      split.
      { rewrite Hprb. cbn [draw_into fPrimitives set_fPrimitives length seq map].
        rewrite <- app_assoc. cbn. rewrite Nat.add_0_r. do 2 f_equal.
        rewrite <- seq_shift, map_map. apply map_ext. intros q.
        rewrite length_app, length_insert. cbn. do 2 f_equal. lia. }
      assert (Hnew : hists w' !! length (hists w) = Some new).
      { rewrite Hframe by lia. cbn. apply lookup_snoc. rewrite length_insert. reflexivity. }
      split.
      * intros j' Hj'. rewrite Hframe by lia. cbn.
        rewrite lookup_app_l by (rewrite length_insert; lia).
        apply list_lookup_insert_ne. lia.
      * intros q r' c' m' Hq. destruct q as [|q].
        -- cbn in Hq. injection Hq as ? ? ?; subst.
           exists new. rewrite Nat.add_0_r. split; [exact Hnew | reflexivity].
        -- cbn in Hq. destruct (Hatt q r' c' m' Hq) as (ratio & Hrt & Ha).
           exists ratio. split; [|exact Ha].
           rewrite <- Hrt. f_equal. rewrite Hlen1. lia.
Qed.

(** X9. In [plot_hist_ratios], up to the end of its loop: the top pad
    holds the [n] series drawn, in order, each with the draw option; the
    bottom pad holds the [n - 1] ratio histograms, in order, each drawn with
    the option ["P"], whatever the draw option; and the ratio of series [i]
    has the color [i] as line and marker color, the marker style [i] and the
    marker size 1. *)
Theorem plot_hist_ratios_draws_both_pads
        (hs : list Ref) (colors markers : list Z) (ref_place drawopt : string)
        (kw : CanvasKwargs) (w : World) :
  let n := length (zip3 hs colors markers) in
  let L := length (hists w) in
  ratio_kwargs_ok kw = true ->
  Forall (fun r => is_hist w r = true) (take n hs) ->
  exists w' pdt pdb,
    plot_hist_ratios_draw hs colors markers ref_place drawopt kw w
    = (Ok (RFigure (length (figures w))), w') /\
    pads w' !! S (length (pads w)) = Some pdt /\
    pads w' !! S (S (length (pads w))) = Some pdb /\
    figures w' !! length (figures w) = Some (ratio_figure (length (pads w))) /\
    fPrimitives pdt = map (fun r => (r, drawopt)) (take n hs) /\
    fPrimitives pdb = map (fun q => (RHist (L + q), "P"%string)) (seq 0 (n - 1)) /\
    length (hists w') = (L + (n - 1))%nat /\
    (forall i c m,
       (1 <= i < n)%nat -> colors !! i = Some c -> markers !! i = Some m ->
       exists ratio, hists w' !! (L + (i - 1))%nat = Some ratio /\
                     fAtt ratio = mkTAtt c c m 1).
Proof.
  intros n L Hkw Hval.
  set (items := zip3 hs colors markers) in *.
  assert (Hfst : items.*1 = take n hs) by apply zip3_fst.
  set (nf := length (figures w)). set (np := length (pads w)).
  destruct (create_ratio_canvas_choice kw Hkw)
    as (name & title & canw & canh & dopt & Hcc & Hr1 & Hr2).
  destruct (create_ratio_canvas_spec name title canw canh (kwargs_ratio kw) dopt w Hr1 Hr2)
    as (w1 & pc & ptop & pbot & Hcreate & Hfig1 & Hpads1 & Hh1 & Hg1 & Hcur1 & Hout1
        & _ & _ & Htop & _ & _ & Hbot).
  fold nf np in Hcreate, Hfig1, Hcur1.
  unfold plot_hist_ratios_draw. rewrite Hcc. unfold bind at 1. rewrite Hcreate.
  unfold bind at 1. cbn [set_figure type_is_Figure].
  set (w1' := with_current_figure (RFigure nf) w1).
  assert (HF : figures w1' !! nf = Some (ratio_figure np))
    by (cbn; rewrite Hfig1; apply lookup_snoc; reflexivity).
  assert (Hpt : pads w1' !! S np = Some ptop).
  { cbn. rewrite Hpads1. rewrite lookup_app_r by (fold np; lia).
    replace (S np - length (pads w))%nat with 1%nat by (fold np; lia). reflexivity. }
  assert (Hpb : pads w1' !! S (S np) = Some pbot).
  { cbn. rewrite Hpads1. rewrite lookup_app_r by (fold np; lia).
    replace (S (S np) - length (pads w))%nat with 2%nat by (fold np; lia). reflexivity. }
  assert (Hhists1 : hists w1' = hists w) by exact Hh1.
  unfold enumerate. fold items.
  assert (Hitems : forall i r c m, items !! i = Some (r, (c, m)) ->
            hs !! i = Some r /\ colors !! i = Some c /\ markers !! i = Some m).
  { intros i r c m Hi. unfold items, zip3 in Hi.
    rewrite !lookup_zip_with in Hi.
    destruct (hs !! i), (colors !! i), (markers !! i); cbn in Hi; try discriminate Hi.
    injection Hi as -> -> ->. auto. }
  destruct items as [|[r0 [c0 m0]] rest] eqn:Hitems_eq.
  { cbn. exists w1', ptop, pbot. split; [reflexivity|].
    split; [exact Hpt|]. split; [exact Hpb|].
    split; [exact HF|].
    split; [rewrite Htop; reflexivity|]. split; [rewrite Hbot; reflexivity|].
    split; [rewrite Hhists1; fold L; cbn; lia|].
    intros i c m Hi. cbn in Hi. lia. }
  assert (Hn : n = S (length rest)) by reflexivity.
  assert (Hval' : forall i r, (i < n)%nat -> hs !! i = Some r ->
                  exists j, r = RHist j /\ (j < L)%nat).
  { intros i r Hi Hr. rewrite Forall_forall in Hval.
    assert (Hin : r ∈ take n hs)
      by (apply list_elem_of_lookup; exists i; rewrite lookup_take_lt by exact Hi; exact Hr).
    specialize (Hval _ Hin). destruct r; try discriminate Hval.
    cbn in Hval. apply bool_decide_eq_true in Hval. eauto. }
  assert (Hhs : forall i, (i < n)%nat -> hs !! i = ((r0, (c0, m0)) :: rest).*1 !! i).
  { intros i Hi. rewrite Hfst. symmetry. apply lookup_take_lt. exact Hi. }
  destruct (Hval' 0%nat r0) as (j0 & -> & Hj0lt); [lia | rewrite Hhs by lia; reflexivity |].
  destruct (lookup_lt_is_Some_2 (hists w) j0 Hj0lt) as [h00 Hh00].
  cbn [enumerate_from for_each_var]. unfold bind at 1. unfold bind at 1.
  rewrite (first_body_step nf (ratio_figure np) (S np) ptop drawopt ref_place None
             j0 c0 m0 h00 w1');
    [| exact HF | reflexivity | exact Hpt | rewrite Hhists1; exact Hh00 ].
  set (w2 := mkWorld _ _ _ _ _ _ _).
  assert (Hlen2 : length (hists w2) = L)
    by (cbn; rewrite length_insert, Hh1; reflexivity).
  destruct (ratio_loop_draws nf (ratio_figure np) (S np) (S (S np)) drawopt ref_place
              j0 L eq_refl eq_refl ltac:(lia) Hj0lt rest 0%nat w2
              (draw_into (RHist j0) drawopt ptop) pbot)
    as (w' & pdt' & pdb' & Hrun & Hfig & Hlen & Hpt' & Hprt & Hpb' & Hprb & Hframe & Hatt).
  { exact HF. }
  { cbn. apply list_lookup_insert_eq. apply (lookup_lt_Some _ _ _ Hpt). }
  { cbn. rewrite list_lookup_insert_ne by lia. exact Hpb. }
  { lia. }
  { apply Forall_forall. intros it Hit. apply list_elem_of_lookup in Hit.
    destruct Hit as [q Hq]. apply (Hval' (S q)).
    - apply lookup_lt_Some in Hq. lia.
    - rewrite Hhs by (apply lookup_lt_Some in Hq; lia).
      rewrite list_lookup_fmap, lookup_cons, Hq. reflexivity. }
  rewrite Hrun. cbn [ret].
  exists w', pdt', pdb'. split; [reflexivity|].
  split; [exact Hpt'|]. split; [exact Hpb'|].
  split; [rewrite Hfig; exact HF|].
  split.
  { rewrite Hprt. cbn [draw_into fPrimitives set_fPrimitives]. rewrite Htop.
    rewrite <- Hfst. cbn. f_equal. rewrite <- list_fmap_compose. reflexivity. }
  split.
  { rewrite Hprb, Hbot, Hlen2, Hn. cbn [app].
    replace (S (length rest) - 1)%nat with (length rest) by lia. reflexivity. }
  split.
  { rewrite Hlen, Hlen2, Hn. lia. }
  intros i c m Hi Hc Hm. destruct i as [|i]; [lia|].
  assert (Hri : exists r, rest !! i = Some (r, (c, m))).
  { destruct (lookup_lt_is_Some_2 rest i) as [[r [c' m']] Hq]; [lia|].
    destruct (Hitems (S i) r c' m') as (_ & Hc' & Hm'); [exact Hq|].
    exists r. rewrite Hq. congruence. }
  destruct Hri as [r Hri].
  destruct (Hatt i r c m Hri) as (ratio & Hrt & Ha).
  exists ratio. split; [|exact Ha]. rewrite <- Hrt, Hlen2. f_equal. lia.
Qed.


(** X11. [plot_profiles] with canvas keywords that do not include [name]
    raises TypeError and changes nothing, in both of its branches: a
    non-empty keyword dictionary is handed as it is to the canvas builder,
    whose [name] has no default. *)
Theorem plot_profiles_needs_a_name
        (set_axis_labels : string -> string -> string -> Py unit)
        (hs : list Ref) (xlabel ylabel : string) (colors markers : list Z)
        (drawopt : string) (doRatioCanvas : bool) (ratio_label ref_place : string)
        (kw : CanvasKwargs) (w : World) :
  kwargs_truthy kw = true ->
  kw_name kw = None ->
  plot_profiles set_axis_labels hs xlabel ylabel colors markers drawopt doRatioCanvas
                ratio_label ref_place kw w
  = (Raise TypeError, w).
Proof.
  intros Ht Hn. unfold plot_profiles.
  destruct (doRatioCanvas && (1 <? Z.of_nat (length hs))).
  - unfold plot_hist_ratios, plot_hist_ratios_draw. rewrite Ht.
    unfold create_ratio_canvas_kw. rewrite Hn. reflexivity.
  - unfold plot_hist. rewrite Ht. unfold create_canvas_kw. rewrite Hn. reflexivity.
Qed.

(** X12. [plot_profiles] takes the plain canvas when [doRatioCanvas] is
    false or when it gets one histogram at most; the keyword
    [ratio_size_as_fraction], which only the ratio canvas has, then raises
    TypeError and nothing is changed. So a call with [doRatioCanvas=True],
    a ratio fraction and a single histogram fails. *)
Theorem plot_profiles_rejects_ratio_keyword
        (set_axis_labels : string -> string -> string -> Py unit)
        (hs : list Ref) (xlabel ylabel : string) (colors markers : list Z)
        (drawopt : string) (doRatioCanvas : bool) (ratio_label ref_place : string)
        (kw : CanvasKwargs) (w : World) :
  doRatioCanvas = false \/ (length hs <= 1)%nat ->
  is_Some (kw_ratio_size_as_fraction kw) ->
  plot_profiles set_axis_labels hs xlabel ylabel colors markers drawopt doRatioCanvas
                ratio_label ref_place kw w
  = (Raise TypeError, w).
Proof.
  intros Hd [r Hr]. unfold plot_profiles.
  assert (E : doRatioCanvas && (1 <? Z.of_nat (length hs)) = false).
  { destruct Hd as [->|Hl]; [reflexivity|].
    apply andb_false_iff. right. apply Z.ltb_ge. lia. }
  rewrite E. unfold plot_hist.
  assert (Ht : kwargs_truthy kw = true).
  { unfold kwargs_truthy. rewrite Hr.
    destruct (kw_name kw), (kw_title kw), (kw_canw kw), (kw_canh kw); reflexivity. }
  rewrite Ht. unfold create_canvas_kw. rewrite Hr.
  destruct (kw_name kw); reflexivity.
Qed.


(* ===================================================================== *)
(** ** More on the 2D histogram helpers                                   *)
(* ===================================================================== *)

Lemma density_spec (TH1_Integral : TH1 -> float) w i h :
  hists w !! i = Some h ->
  density TH1_Integral (RHist i) w
  = if PrimFloat.eqb (TH1_Integral (density_clone h)) 0
    then (Raise ZeroDivisionError, with_hists (hists w ++ [density_clone h]) w)
    else (Ok (RHist (length (hists w))),
          with_hists (hists w ++ [TH1_Scale (1 / TH1_Integral (density_clone h))
                                            (density_clone h)]) w).
Proof.
  intros Hi. assert (Hlt := lookup_lt_Some _ _ _ Hi).
  destruct w as [Fs P H G cur gp out]. cbn [hists] in *.
  unfold density, Integral, density_clone. ops.
  repeat (progress (cbn; rewrite ?Hi; heap)).
  destruct (PrimFloat.eqb _ 0); [reflexivity|].
  repeat (progress (cbn; rewrite ?Hi; heap)). reflexivity.
Qed.

Lemma TH1_Scale_cell k h c :
  0 <= c < Z.of_nat (length (fArray h)) ->
  TH1_GetBinContent (TH1_Scale k h) c = (k * TH1_GetBinContent h c)%float.
Proof.
  intros Hc.
  rewrite TH1_GetBinContent_in_range by (cbn; rewrite length_map; lia).
  rewrite TH1_GetBinContent_in_range by lia. cbn.
  rewrite (nth_indep _ _ (k * 0)%float) by (rewrite length_map; lia).
  apply (map_nth (fun x => (k * x)%float)).
Qed.

(** X13. On a histogram whose integral (the library's, taken on the
    renamed clone) is not zero, [density] returns a new histogram named
    [<name>_density], with as many cells, each cell the cell of the input
    times [1 / integral], and with the attributes and the axes of the
    input. *)
Theorem density_scales_by_inverse_integral
        (TH1_Integral : TH1 -> float) (w : World) (i : nat) (h : TH1) :
  hists w !! i = Some h ->
  PrimFloat.eqb (TH1_Integral (density_clone h)) 0 = false ->
  exists h',
    density TH1_Integral (RHist i) w
    = (Ok (RHist (length (hists w))), with_hists (hists w ++ [h']) w) /\
    fName h' = (fName h ++ "_density")%string /\
    length (fArray h') = length (fArray h) /\
    (forall c, 0 <= c < Z.of_nat (length (fArray h)) ->
       TH1_GetBinContent h' c
       = (1 / TH1_Integral (density_clone h) * TH1_GetBinContent h c)%float) /\
    fNbinsX h' = fNbinsX h /\ fAtt h' = fAtt h /\
    fXaxis h' = fXaxis h /\ fYaxis h' = fYaxis h /\ fZaxis h' = fZaxis h.
Proof.
  intros Hi HI. eexists. split.
  - rewrite (density_spec _ _ _ _ Hi), HI. reflexivity.
  - split; [reflexivity|]. split; [cbn; apply length_map|].
    split; [|cbn; auto 10].
    intros c Hc. rewrite TH1_Scale_cell by exact Hc. reflexivity.
Qed.

(** X14. On a histogram whose integral is zero (a histogram without
    entries), [density] raises ZeroDivisionError: [1/h.Integral()] is a
    Python division. Every histogram of the world is as it was. *)
Theorem density_zero_integral_raises
        (TH1_Integral : TH1 -> float) (w : World) (i : nat) (h : TH1) :
  hists w !! i = Some h ->
  PrimFloat.eqb (TH1_Integral (density_clone h)) 0 = true ->
  fst (density TH1_Integral (RHist i) w) = Raise ZeroDivisionError /\
  (forall j x, hists w !! j = Some x ->
     hists (snd (density TH1_Integral (RHist i) w)) !! j = Some x).
Proof.
  intros Hi HI. rewrite (density_spec _ _ _ _ Hi), HI. split; [reflexivity|].
  intros j x Hj. cbn. rewrite lookup_app_l by (apply (lookup_lt_Some _ _ _ Hj)).
  exact Hj.
Qed.

Lemma divide_spec w a b ha hb :
  hists w !! a = Some ha ->
  hists w !! b = Some hb ->
  divide (RHist a) (RHist b) w
  = (Ok (RHist (length (hists w))),
     with_hists (hists w ++ [TH1_Divide (set_fName (fName ha ++ "_ratio")%string ha) hb]) w).
Proof.
  intros Ha Hb.
  assert (Hla := lookup_lt_Some _ _ _ Ha). assert (Hlb := lookup_lt_Some _ _ _ Hb).
  destruct w as [Fs P H G cur gp out]. cbn [hists] in *.
  unfold divide. ops.
  repeat (progress (cbn; rewrite ?Ha, ?Hb; heap)). reflexivity.
Qed.

(** X15. On two histograms, [divide] (hist2d) and [hist_divide] (plots)
    build the same histogram but for its name, [<num>_ratio] for the first
    and [<num>_over_<den>] for the second: each returns a new histogram
    whose cells are those of the numerator divided by those of the
    denominator, and the two results are equal once given the same name. *)
Theorem divide_and_hist_divide_differ_in_name_only
        (w : World) (a b : nat) (ha hb : TH1) :
  hists w !! a = Some ha ->
  hists w !! b = Some hb ->
  exists r1 r2,
    divide (RHist a) (RHist b) w
    = (Ok (RHist (length (hists w))), with_hists (hists w ++ [r1]) w) /\
    hist_divide (RHist a) (RHist b) w
    = (Ok (RHist (length (hists w))), with_hists (hists w ++ [r2]) w) /\
    fName r1 = (fName ha ++ "_ratio")%string /\
    fName r2 = (fName ha ++ "_over_" ++ fName hb)%string /\
    fArray r1 = cells_divide (fArray ha) (fArray hb) /\
    set_fName ""%string r1 = set_fName ""%string r2.
Proof.
  intros Ha Hb. do 2 eexists.
  split; [apply (divide_spec _ _ _ _ _ Ha Hb)|].
  split; [apply (hist_divide_step _ _ _ _ _ Ha Hb)|].
  split; [apply TH1_Divide_name|].
  split; [apply TH1_Divide_name|].
  split; [rewrite TH1_Divide_cells; reflexivity|].
  unfold ratio_TH1, TH1_Divide. cbn. destruct (Nat.eqb _ _); reflexivity.
Qed.

Lemma shift_step_fields h s acc b :
  fName (shift_step h s acc b) = fName acc /\
  fNbinsX (shift_step h s acc b) = fNbinsX acc /\
  fAtt (shift_step h s acc b) = fAtt acc /\
  fXaxis (shift_step h s acc b) = fXaxis acc /\
  fYaxis (shift_step h s acc b) = fYaxis acc /\
  fZaxis (shift_step h s acc b) = fZaxis acc /\
  length (fArray (shift_step h s acc b)) = length (fArray acc).
Proof.
  unfold shift_step, TH1_SetBinContent. destruct (_ || _); cbn; auto 10.
  repeat split. apply length_insert.
Qed.

Lemma shift_TH1_fields h s :
  fName (shift_TH1 h s) = (fName h ++ "_shift")%string /\
  fNbinsX (shift_TH1 h s) = fNbinsX h /\
  fAtt (shift_TH1 h s) = fAtt h /\
  fXaxis (shift_TH1 h s) = fXaxis h /\
  fYaxis (shift_TH1 h s) = fYaxis h /\
  fZaxis (shift_TH1 h s) = fZaxis h /\
  length (fArray (shift_TH1 h s)) = length (fArray h).
Proof.
  unfold shift_TH1.
  set (acc := TH1_Reset _).
  assert (H0 : fName acc = (fName h ++ "_shift")%string /\
               fNbinsX acc = fNbinsX h /\ fAtt acc = fAtt h /\
               fXaxis acc = fXaxis h /\ fYaxis acc = fYaxis h /\
               fZaxis acc = fZaxis h /\ length (fArray acc) = length (fArray h)).
  { subst acc. cbn. rewrite length_map. auto 10. }
  clearbody acc. revert acc H0.
  induction (py_range 1 (fNbinsX h)) as [|b l IH]; intros acc H0; [exact H0|].
  cbn [fold_left]. apply IH.
  destruct (shift_step_fields h s acc b) as (E1 & E2 & E3 & E4 & E5 & E6 & E7).
  rewrite E1, E2, E3, E4, E5, E6, E7. exact H0.
Qed.

(** X16. A shift by zero is not a copy: [shift(h, 0)] returns a new
    histogram named [<name>_shift], with as many cells, that has the
    contents of [h] in the bins 1 to N-1 and 0 in the last bin N, in the
    underflow cell and in the overflow cell; its attributes and its axes are
    those of [h]. *)
Theorem shift_by_zero_drops_last_bin (w : World) (i : nat) (h : TH1) :
  hists w !! i = Some h ->
  Z.of_nat (length (fArray h)) = fNbinsX h + 2 ->
  exists h',
    shift (RHist i) 0 w
    = (Ok (RHist (length (hists w))), with_hists (hists w ++ [h']) w) /\
    fName h' = (fName h ++ "_shift")%string /\
    length (fArray h') = length (fArray h) /\
    (forall c, 1 <= c <= fNbinsX h - 1 ->
       TH1_GetBinContent h' c = TH1_GetBinContent h c) /\
    (forall c, 0 <= c <= fNbinsX h + 1 -> c = 0 \/ fNbinsX h <= c ->
       TH1_GetBinContent h' c = 0%float) /\
    fAtt h' = fAtt h /\ fXaxis h' = fXaxis h /\ fYaxis h' = fYaxis h /\
    fZaxis h' = fZaxis h.
Proof.
  intros Hi Hn. exists (shift_TH1 h 0).
  destruct (shift_TH1_fields h 0) as (E1 & E2 & E3 & E4 & E5 & E6 & E7).
  split; [apply shift_spec; exact Hi|].
  split; [exact E1|]. split; [exact E7|].
  split.
  { intros c Hc. rewrite shift_TH1_cell by lia. rewrite Z.sub_0_r.
    destruct (Z.leb_spec 1 c); [|lia]. destruct (Z.ltb_spec c (fNbinsX h)); [|lia].
    reflexivity. }
  split.
  { intros c Hc Hout. rewrite shift_TH1_cell by lia. rewrite Z.sub_0_r.
    destruct (Z.leb_spec 1 c), (Z.ltb_spec c (fNbinsX h)); cbn;
      try reflexivity; lia. }
  auto.
Qed.


(** X18. Shifting forth and back does not give the histogram back:
    [shift(shift(h, s), -s)] is a new histogram, named
    [<name>_shift_shift], that has the content of [h] in the bins [c] with
    both [c] and [c + s] between 1 and N-1, and 0 in every other cell; so it
    has lost the last bin and [|s|] more bins. *)
Theorem shift_there_and_back_is_lossy (w : World) (i : nat) (h : TH1) (s : Z) :
  hists w !! i = Some h ->
  Z.of_nat (length (fArray h)) = fNbinsX h + 2 ->
  exists h1 h2 w1,
    shift (RHist i) s w = (Ok (RHist (length (hists w))), w1) /\
    shift (RHist (length (hists w))) (- s) w1
    = (Ok (RHist (S (length (hists w)))), with_hists (hists w ++ [h1; h2]) w) /\
    fName h2 = ((fName h ++ "_shift") ++ "_shift")%string /\
    (forall c, 0 <= c <= fNbinsX h + 1 ->
       TH1_GetBinContent h2 c
       = if (1 <=? c) && (c <=? fNbinsX h - 1)
            && (1 <=? c + s) && (c + s <=? fNbinsX h - 1)
         then TH1_GetBinContent h c else 0%float).
Proof.
  intros Hi Hn.
  destruct (shift_TH1_fields h s) as (E1 & E2 & _ & _ & _ & _ & E7).
  destruct (shift_TH1_fields (shift_TH1 h s) (- s)) as (F1 & _).
  exists (shift_TH1 h s), (shift_TH1 (shift_TH1 h s) (- s)),
         (with_hists (hists w ++ [shift_TH1 h s]) w).
  split; [apply shift_spec; exact Hi|].
  split.
  { rewrite (shift_spec _ (length (hists w)) (shift_TH1 h s))
      by (cbn; apply lookup_snoc; reflexivity).
    cbn. rewrite length_snoc, <- app_assoc. reflexivity. }
  split; [rewrite F1, E1; reflexivity|].
  intros c Hc. rewrite shift_TH1_cell by (rewrite E7; lia). rewrite E2.
  replace (c - - s) with (c + s) by lia.
  destruct (Z.leb_spec 1 (c + s)), (Z.ltb_spec (c + s) (fNbinsX h)),
           (Z.leb_spec (c + s) (fNbinsX h - 1)); try lia; cbn;
    rewrite ?andb_false_r; try reflexivity.
  rewrite shift_TH1_cell by lia. replace (c + s - s) with c by lia.
  destruct (Z.leb_spec 1 c), (Z.ltb_spec c (fNbinsX h)),
           (Z.leb_spec c (fNbinsX h - 1)); try lia; reflexivity.
Qed.

Lemma fill_each_loop TH2_Fill i pairs :
  forall w h,
  hists w !! i = Some h ->
  for_each pairs (fun '(xval, yval) => Fill TH2_Fill (RHist i) xval yval ;; ret Next) w
  = (Ok tt, with_hists (<[i := fill_each TH2_Fill h pairs]> (hists w)) w).
Proof.
  induction pairs as [|[x y] rest IH]; intros w h Hi.
  - cbn. rewrite list_insert_id by exact Hi. destruct w; reflexivity.
  - assert (Hlt := lookup_lt_Some _ _ _ Hi).
    cbn [for_each]. unfold bind at 1. unfold bind at 1.
    unfold Fill, update_TH1. rewrite Hi. cbn [ret].
    rewrite (IH _ (TH2_Fill h x y)) by (cbn; apply list_lookup_insert_eq; exact Hlt).
    cbn. rewrite list_insert_insert_eq. reflexivity.
Qed.

Lemma fill_equal_length TH2_FillN TH2_Fill w i h x y :
  hists w !! i = Some h ->
  length (items x) = length (items y) ->
  fill TH2_FillN TH2_Fill (RHist i) x y w
  = match TH2_FillN h (len x) (fill_xvalues x) (fill_yvalues y) (ones_like x) with
    | Ok h' => (Ok tt, with_hists (<[i := h']> (hists w)) w)
    | Raise e =>
        if Exception_eqb TypeError e
        then (Ok tt, with_hists (<[i := fill_each TH2_Fill h (zip (items x) (items y))]>
                                   (hists w)) w)
        else (Raise e, w)
    end.
Proof.
  intros Hi Hlen.
  assert (Hz : (Z.of_nat (length (items x)) =? Z.of_nat (length (items y))) = true)
    by (apply Z.eqb_eq; lia).
  assert (Hrun : forall x' y', items x' = items x -> items y' = items y ->
    (if negb (len x' =? len y') then print fill_message
     else try_except (FillN TH2_FillN (RHist i) (len x') x' y' (ones_like x)) TypeError
            (for_each (zip (items x') (items y')) (fun '(xval, yval) =>
               Fill TH2_Fill (RHist i) xval yval ;; ret Next))) w
    = match TH2_FillN h (len x) x' y' (ones_like x) with
      | Ok h' => (Ok tt, with_hists (<[i := h']> (hists w)) w)
      | Raise e =>
          if Exception_eqb TypeError e
          then (Ok tt, with_hists (<[i := fill_each TH2_Fill h (zip (items x) (items y))]>
                                     (hists w)) w)
          else (Raise e, w)
      end).
  { intros x' y' Ex Ey. unfold len. rewrite Ex, Ey, Hz. cbn [negb].
    unfold try_except, FillN, bind at 1, get_TH1. rewrite Hi.
    destruct (TH2_FillN h _ x' y' _) as [h'|e].
    - unfold update_TH1. rewrite Hi. reflexivity.
    - unfold raise. destruct (Exception_eqb TypeError e); [|reflexivity].
      apply fill_each_loop. exact Hi. }
  unfold fill.
  destruct x as [xs|xs|xs|xs], y as [ys|ys|ys|ys]; cbn [type_is_list type_is_ndarray tolist];
    unfold bind at 1; cbn [ret items]; unfold bind at 1; cbn [ret items type_is_ndarray];
    try (unfold bind at 1; cbn [ret]);
    apply Hrun; reflexivity.
Qed.

(** X19. When the sequences have the same length and the vectorized
    [FillN] raises TypeError, [fill] catches it and calls [Fill] once per
    pair of values, in order: the call returns, and the histogram is the
    one these calls leave. [FillN] had received the x values as an
    [array('d')] when they were a list or a numpy array, and the y values
    as an [array('d')] only when they were a list. *)
Theorem fill_falls_back_to_Fill
        (TH2_FillN : TH1 -> Z -> PySeq -> PySeq -> list float -> Result TH1)
        (TH2_Fill : TH1 -> float -> float -> TH1)
        (w : World) (i : nat) (h : TH1) (x y : PySeq) :
  hists w !! i = Some h ->
  length (items x) = length (items y) ->
  TH2_FillN h (len x) (fill_xvalues x) (fill_yvalues y) (ones_like x) = Raise TypeError ->
  fill TH2_FillN TH2_Fill (RHist i) x y w
  = (Ok tt, with_hists (<[i := fill_each TH2_Fill h (zip (items x) (items y))]>
                          (hists w)) w).
Proof.
  intros Hi Hlen HN. rewrite (fill_equal_length _ _ _ _ _ _ _ Hi Hlen), HN. reflexivity.
Qed.

(** X20. When the sequences have the same length, [fill] calls the
    vectorized [FillN] first: if it returns, the histogram is the one
    [FillN] leaves and [Fill] is not called; if it raises anything but a
    TypeError, [fill] raises it too and the world is as it was. *)
Theorem fill_uses_FillN_first
        (TH2_FillN : TH1 -> Z -> PySeq -> PySeq -> list float -> Result TH1)
        (TH2_Fill : TH1 -> float -> float -> TH1)
        (w : World) (i : nat) (h : TH1) (x y : PySeq) :
  hists w !! i = Some h ->
  length (items x) = length (items y) ->
  (forall h', TH2_FillN h (len x) (fill_xvalues x) (fill_yvalues y) (ones_like x) = Ok h' ->
     fill TH2_FillN TH2_Fill (RHist i) x y w
     = (Ok tt, with_hists (<[i := h']> (hists w)) w)) /\
  (forall e, TH2_FillN h (len x) (fill_xvalues x) (fill_yvalues y) (ones_like x) = Raise e ->
     e <> TypeError ->
     fill TH2_FillN TH2_Fill (RHist i) x y w = (Raise e, w)).
Proof.
  intros Hi Hlen. split.
  - intros h' HN. rewrite (fill_equal_length _ _ _ _ _ _ _ Hi Hlen), HN. reflexivity.
  - intros e HN Hne. rewrite (fill_equal_length _ _ _ _ _ _ _ Hi Hlen), HN.
    destruct e; try reflexivity. congruence.
Qed.


(* ===================================================================== *)
(** ** What the formatters and the plots leave alone                      *)
(* ===================================================================== *)

Section Preserves.

Context (R : relation World) `{!PreOrder R}.

Lemma preserves_unchanged {A} (m : Py A) :
  (forall w, snd (m w) = w) -> preserves R m.
Proof. intros H w. rewrite H. reflexivity. Qed.

Lemma preserves_ret {A} (a : A) : preserves R (ret a).
Proof. intros w. reflexivity. Qed.

Lemma preserves_raise {A} (e : Exception) : preserves R (raise e : Py A).
Proof. intros w. reflexivity. Qed.

Lemma preserves_bind {A B} (m : Py A) (k : A -> Py B) :
  preserves R m -> (forall a, preserves R (k a)) -> preserves R (bind m k).
Proof.
  intros Hm Hk w. unfold bind. specialize (Hm w).
  destruct (m w) as [[a|e] w1]; cbn in *; [|exact Hm].
  etransitivity; [exact Hm | apply Hk].
Qed.

Lemma preserves_try_except {A} (m : Py A) (e : Exception) (handler : Py A) :
  preserves R m -> preserves R handler -> preserves R (try_except m e handler).
Proof.
  intros Hm Hh w. unfold try_except. specialize (Hm w).
  destruct (m w) as [[a|e'] w1]; cbn in *; [exact Hm|].
  destruct (Exception_eqb e e'); [|exact Hm].
  etransitivity; [exact Hm | apply Hh].
Qed.

Lemma preserves_for_each {A} (l : list A) (body : A -> Py Flow) :
  (forall x, preserves R (body x)) -> preserves R (for_each l body).
Proof.
  intros Hb. induction l as [|x l IH]; cbn [for_each]; [apply preserves_ret|].
  apply preserves_bind; [apply Hb|]. intros [|]; [exact IH | apply preserves_ret].
Qed.

Lemma preserves_for_each_var {A S} (l : list A) (s : S) (body : S -> A -> Py S) :
  (forall s x, preserves R (body s x)) -> preserves R (for_each_var l s body).
Proof.
  intros Hb. revert s. induction l as [|x l IH]; intros s; cbn [for_each_var];
    [apply preserves_ret|].
  apply preserves_bind; [apply Hb | intros s'; apply IH].
Qed.

End Preserves.

Lemma preserves_mono (R R' : relation World) {A} (m : Py A) :
  (forall w w', R w w' -> R' w w') -> preserves R m -> preserves R' m.
Proof. intros Hsub Hm w. apply Hsub, Hm. Qed.

Lemma fmap_insert_same {A B} (f : A -> B) (l : list A) i x y :
  l !! i = Some x -> f y = f x -> f <$> <[i := y]> l = f <$> l.
Proof.
  intros Hi E. rewrite list_fmap_insert, E. apply list_insert_id.
  rewrite list_lookup_fmap, Hi. reflexivity.
Qed.

Create HintDb preserves.

(** The actions that read the world and leave it as it is. *)
Ltac unchanged :=
  apply preserves_unchanged; try exact _; intros ?;
  cbv beta delta [bind ret raise get_Figure get_TPad get_TH1 GetHNDC GetName
                  GetListOfPrimitives Modified Update GetNbinsX GetBinContent
                  hasattr_GetXaxis hasattr_GetZaxis subscript py_div get_figure
                  Figure_get_pad];
  repeat case_match; simplify_eq; reflexivity.

Section Readers.

Context (R : relation World) `{!PreOrder R}.

Lemma preserves_get_figure : preserves R get_figure.
Proof. unchanged. Qed.

Lemma preserves_Figure_get_pad fig name : preserves R (Figure_get_pad fig name).
Proof. unchanged. Qed.

Lemma preserves_GetHNDC r : preserves R (GetHNDC r).
Proof. unchanged. Qed.

Lemma preserves_GetName r : preserves R (GetName r).
Proof. unchanged. Qed.

Lemma preserves_GetListOfPrimitives r : preserves R (GetListOfPrimitives r).
Proof. unchanged. Qed.

Lemma preserves_Modified r : preserves R (Modified r).
Proof. unchanged. Qed.

Lemma preserves_Update r : preserves R (Update r).
Proof. unchanged. Qed.

Lemma preserves_hasattr_GetXaxis r : preserves R (hasattr_GetXaxis r).
Proof. unchanged. Qed.

Lemma preserves_hasattr_GetZaxis r : preserves R (hasattr_GetZaxis r).
Proof. unchanged. Qed.

Lemma preserves_subscript v i : preserves R (subscript v i).
Proof. unchanged. Qed.

Lemma preserves_py_div a b : preserves R (py_div a b).
Proof. unchanged. Qed.

End Readers.

#[local] Hint Resolve axes_only_preorder same_drawables_preorder contents_kept_preorder
  touches_only_preorder : preserves.
#[local] Hint Resolve preserves_get_figure preserves_Figure_get_pad preserves_GetHNDC
  preserves_GetName preserves_GetListOfPrimitives preserves_Modified preserves_Update
  preserves_hasattr_GetXaxis preserves_hasattr_GetZaxis preserves_subscript
  preserves_py_div : preserves.

(** A composite action preserves what its parts preserve. *)
Ltac preserve :=
  repeat first
    [ match goal with
      | |- PreOrder _ => exact _
      | |- forall _, _ => intro
      end
    | apply preserves_ret
    | apply preserves_raise
    | solve [auto with preserves]
    | apply preserves_bind
    | apply preserves_try_except
    | apply preserves_for_each
    | apply preserves_for_each_var
    | match goal with
      | |- preserves _ (if ?b then _ else _) => destruct b
      | |- preserves _ (match ?x with _ => _ end) => destruct x
      end ].

(** *** The formatters change axes only *)

Lemma on_Xaxis_axes_only r f : preserves axes_only (on_Xaxis r f).
Proof.
  intros w. unfold on_Xaxis, update_TH1, update_TGraph, raise.
  destruct r as [| | |i|i|]; cbn; try reflexivity.
  - destruct (hists w !! i) as [h|] eqn:Hi; cbn; [|reflexivity].
    repeat split. apply (fmap_insert_same _ _ _ h); [exact Hi | reflexivity].
  - destruct (graphs w !! i) as [g|] eqn:Hi; cbn; [|reflexivity].
    repeat split. apply (fmap_insert_same _ _ _ g); [exact Hi | reflexivity].
Qed.

Lemma on_Yaxis_axes_only r f : preserves axes_only (on_Yaxis r f).
Proof.
  intros w. unfold on_Yaxis, update_TH1, update_TGraph, raise.
  destruct r as [| | |i|i|]; cbn; try reflexivity.
  - destruct (hists w !! i) as [h|] eqn:Hi; cbn; [|reflexivity].
    repeat split. apply (fmap_insert_same _ _ _ h); [exact Hi | reflexivity].
  - destruct (graphs w !! i) as [g|] eqn:Hi; cbn; [|reflexivity].
    repeat split. apply (fmap_insert_same _ _ _ g); [exact Hi | reflexivity].
Qed.

Lemma on_Zaxis_axes_only r f : preserves axes_only (on_Zaxis r f).
Proof.
  intros w. unfold on_Zaxis, update_TH1, raise.
  destruct r as [| | |i|i|]; cbn; try reflexivity.
  destruct (hists w !! i) as [h|] eqn:Hi; cbn; [|reflexivity].
  repeat split. apply (fmap_insert_same _ _ _ h); [exact Hi | reflexivity].
Qed.

#[local] Hint Resolve on_Xaxis_axes_only on_Yaxis_axes_only on_Zaxis_axes_only : preserves.

Lemma format_primitive_axes_only c canvas primitive :
  preserves axes_only (format_primitive c canvas primitive).
Proof. unfold format_primitive. preserve. Qed.

#[local] Hint Resolve format_primitive_axes_only : preserves.

Lemma format_canvas_axes_axes_only c pad fig :
  preserves axes_only (format_canvas_axes c pad fig).
Proof. unfold format_canvas_axes. preserve. Qed.

#[local] Hint Resolve format_canvas_axes_axes_only : preserves.

Lemma format_ratio_canvas_axes_axes_only c fig :
  preserves axes_only (format_ratio_canvas_axes c fig).
Proof. unfold format_ratio_canvas_axes. preserve. Qed.

(** X21. Whatever its arguments, and whether it returns or raises,
    [format_canvas_axes] changes nothing but axes: the figures, the regions
    and their draw lists, the current figure and the current pad are as they
    were, nothing is printed, and every histogram and every graph has the
    name, the cells and the line and marker attributes it had. The same
    holds of [format_ratio_canvas_axes]. *)
Theorem formatters_change_axes_only
        (c : AxesConfig) (pad : option string) (fig : Ref) (w : World) :
  axes_only w (snd (format_canvas_axes c pad fig w)) /\
  axes_only w (snd (format_ratio_canvas_axes c fig w)).
Proof.
  split; [apply format_canvas_axes_axes_only | apply format_ratio_canvas_axes_axes_only].
Qed.

(** *** The plots keep the contents of the histograms *)

Lemma axes_only_contents_kept w w' : axes_only w w' -> contents_kept w w'.
Proof.
  intros (_ & _ & _ & _ & Ho & Hh & Hg). split; [|split; [|exact Ho]].
  - exists []. rewrite app_nil_r.
    change TH1_contents with ((fun p : string * Z * list float * TAtt => p.1)
                              ∘ TH1_but_axes).
    rewrite !list_fmap_compose, Hh. reflexivity.
  - exists []. rewrite app_nil_r.
    change gName with ((fun p : string * TAtt => p.1) ∘ TGraph_but_axes).
    rewrite !list_fmap_compose, Hg. reflexivity.
Qed.

Lemma same_drawables_contents_kept w w' : same_drawables w w' -> contents_kept w w'.
Proof.
  intros (Hh & Hg & Ho).
  split; [|split; [|exact Ho]]; exists []; rewrite app_nil_r; congruence.
Qed.

Lemma frame_contents_kept w w' : frame w w' -> contents_kept w w'.
Proof.
  intros ([e He] & [g Hg] & _ & _ & _ & _ & Ho). split; [|split; [|exact Ho]].
  - exists (TH1_contents <$> e). rewrite He, fmap_app. reflexivity.
  - exists (gName <$> g). rewrite Hg, fmap_app. reflexivity.
Qed.

(** The actions on figures, pads and the two global slots. *)
Ltac on_regions :=
  intros ?;
  cbv beta delta [bind ret raise get_TPad update_TPad update_Figure TCanvas TPad_new
                  Figure_new cd Draw set_figure];
  repeat case_match; simplify_eq; cbn; repeat split; reflexivity.

Lemma update_TPad_same_drawables r f : preserves same_drawables (update_TPad r f).
Proof. on_regions. Qed.

Lemma update_Figure_same_drawables r f : preserves same_drawables (update_Figure r f).
Proof. on_regions. Qed.

Lemma TCanvas_same_drawables name title canw canh :
  preserves same_drawables (TCanvas name title canw canh).
Proof. on_regions. Qed.

Lemma TPad_new_same_drawables name title xlow ylow xup yup :
  preserves same_drawables (TPad_new name title xlow ylow xup yup).
Proof. on_regions. Qed.

Lemma Figure_new_same_drawables canvas : preserves same_drawables (Figure_new canvas).
Proof. on_regions. Qed.

Lemma cd_same_drawables r : preserves same_drawables (cd r).
Proof. on_regions. Qed.

Lemma Draw_same_drawables obj option : preserves same_drawables (Draw obj option).
Proof. on_regions. Qed.

Lemma set_figure_same_drawables canvas : preserves same_drawables (set_figure canvas).
Proof. on_regions. Qed.

#[local] Hint Resolve update_TPad_same_drawables update_Figure_same_drawables
  TCanvas_same_drawables TPad_new_same_drawables Figure_new_same_drawables
  cd_same_drawables Draw_same_drawables set_figure_same_drawables : preserves.

Lemma Figure_append_same_drawables fig pad :
  preserves same_drawables (Figure_append fig pad).
Proof. unfold Figure_append, get_Figure. preserve. unchanged. Qed.

Lemma Figure_add_hist_same_drawables fig hist drawopt pad :
  preserves same_drawables (Figure_add_hist fig hist drawopt pad).
Proof. unfold Figure_add_hist. preserve. Qed.

Lemma Figure_set_xlabel_same_drawables fig text pad :
  preserves same_drawables (Figure_set_xlabel fig text pad).
Proof. unfold Figure_set_xlabel. preserve. Qed.

Lemma Figure_set_ylabel_same_drawables fig text pad :
  preserves same_drawables (Figure_set_ylabel fig text pad).
Proof. unfold Figure_set_ylabel. preserve. Qed.

#[local] Hint Resolve Figure_append_same_drawables Figure_add_hist_same_drawables
  Figure_set_xlabel_same_drawables Figure_set_ylabel_same_drawables : preserves.

Lemma create_canvas_same_drawables name title canw canh :
  preserves same_drawables (create_canvas name title canw canh).
Proof. unfold create_canvas. preserve. Qed.

Lemma create_ratio_canvas_same_drawables name title canw canh r drawopt :
  preserves same_drawables (create_ratio_canvas name title canw canh r drawopt).
Proof. unfold create_ratio_canvas. preserve. Qed.

#[local] Hint Resolve create_canvas_same_drawables create_ratio_canvas_same_drawables
  : preserves.

Lemma create_canvas_kw_same_drawables k : preserves same_drawables (create_canvas_kw k).
Proof. unfold create_canvas_kw. preserve. Qed.

Lemma create_ratio_canvas_kw_same_drawables k :
  preserves same_drawables (create_ratio_canvas_kw k).
Proof. unfold create_ratio_canvas_kw. preserve. Qed.

#[local] Hint Resolve create_canvas_kw_same_drawables create_ratio_canvas_kw_same_drawables
  : preserves.

(** What [same_drawables] or [axes_only] preserves, [contents_kept] does. *)
Lemma same_drawables_preserves {A} (m : Py A) :
  preserves same_drawables m -> preserves contents_kept m.
Proof. apply preserves_mono, same_drawables_contents_kept. Qed.

Lemma axes_only_preserves {A} (m : Py A) :
  preserves axes_only m -> preserves contents_kept m.
Proof. apply preserves_mono, axes_only_contents_kept. Qed.

Lemma on_Att_contents_kept r f : preserves contents_kept (on_Att r f).
Proof.
  intros w. unfold on_Att, update_TH1, update_TGraph, raise.
  destruct r as [| | |i|i|]; cbn; try reflexivity.
  - destruct (hists w !! i) as [h|] eqn:Hi; cbn; [|reflexivity].
    split; [|split; [|reflexivity]]; exists []; rewrite app_nil_r; cbn; [|reflexivity].
    apply (fmap_insert_same _ _ _ h); [exact Hi | reflexivity].
  - destruct (graphs w !! i) as [g|] eqn:Hi; cbn; [|reflexivity].
    split; [|split; [|reflexivity]]; exists []; rewrite app_nil_r; cbn; [reflexivity|].
    apply (fmap_insert_same _ _ _ g); [exact Hi | reflexivity].
Qed.

Lemma hist_divide_contents_kept num den : preserves contents_kept (hist_divide num den).
Proof. intros w. apply frame_contents_kept, hist_divide_frame. Qed.

#[local] Hint Resolve on_Att_contents_kept hist_divide_contents_kept : preserves.
#[local] Hint Extern 2 (preserves contents_kept _) =>
  solve [apply axes_only_preserves; auto with preserves] : preserves.
#[local] Hint Extern 3 (preserves contents_kept _) =>
  solve [apply same_drawables_preserves; auto with preserves] : preserves.

Lemma plot_hist_contents_kept hs xlabel ylabel colors markers drawopt kw :
  preserves contents_kept (plot_hist hs xlabel ylabel colors markers drawopt kw).
Proof.
  unfold plot_hist, plot_hist_body, SetLineColor, SetMarkerColor, SetMarkerStyle,
    SetMarkerSize.
  preserve.
Qed.

Lemma plot_hist_ratios_draw_contents_kept hs colors markers ref_place drawopt kw :
  preserves contents_kept (plot_hist_ratios_draw hs colors markers ref_place drawopt kw).
Proof.
  unfold plot_hist_ratios_draw, plot_hist_ratios_body, SetLineColor, SetMarkerColor,
    SetMarkerStyle, SetMarkerSize.
  preserve.
Qed.

(** X22. Whatever their arguments, and whether they return or raise,
    [plot_hist] and [plot_hist_ratios] (up to the end of its loop) keep the
    contents of every histogram that existed (its name, its number of bins
    and its cells) and the name of every graph, and print nothing: what they
    change of the caller's histograms is their style and their axes. *)
Theorem plots_keep_the_contents
        (hs : list Ref) (xlabel ylabel : string) (colors markers : list Z)
        (ref_place drawopt : string) (kw : CanvasKwargs) (w : World) :
  contents_kept w (snd (plot_hist hs xlabel ylabel colors markers drawopt kw w)) /\
  contents_kept w (snd (plot_hist_ratios_draw hs colors markers ref_place drawopt kw w)).
Proof.
  split; [apply plot_hist_contents_kept | apply plot_hist_ratios_draw_contents_kept].
Qed.

(** X23. If [set_axis_labels] keeps the contents of the histograms, so
    does [plot_profiles], in both of its branches and whether it returns or
    raises: neither [plot_hist] nor [plot_hist_ratios] adds a change of its
    own to the name, the number of bins or the cells of a histogram that
    existed. *)
Theorem plot_profiles_keeps_the_contents
        (set_axis_labels : string -> string -> string -> Py unit)
        (hs : list Ref) (xlabel ylabel : string) (colors markers : list Z)
        (drawopt : string) (doRatioCanvas : bool) (ratio_label ref_place : string)
        (kw : CanvasKwargs) (w : World) :
  (forall x y r, preserves contents_kept (set_axis_labels x y r)) ->
  contents_kept w
    (snd (plot_profiles set_axis_labels hs xlabel ylabel colors markers drawopt
                        doRatioCanvas ratio_label ref_place kw w)).
Proof.
  intros Hsal. revert w.
  change (preserves contents_kept
            (plot_profiles set_axis_labels hs xlabel ylabel colors markers drawopt
                           doRatioCanvas ratio_label ref_place kw)).
  pose proof plot_hist_contents_kept. pose proof plot_hist_ratios_draw_contents_kept.
  pose proof format_ratio_canvas_axes_axes_only.
  unfold plot_profiles, plot_hist_ratios.
  preserve.
Qed.

(** *** [fill] changes its histogram only *)

Lemma get_TH1_touches_only r hist : preserves (touches_only r) (get_TH1 hist).
Proof. unchanged. Qed.

Lemma update_TH1_touches_only r f : preserves (touches_only r) (update_TH1 r f).
Proof.
  intros w. unfold update_TH1.
  destruct r as [| | |i|i|]; cbn; try reflexivity.
  destruct (hists w !! i) as [h|] eqn:Hi; cbn; [|reflexivity].
  repeat split.
  - apply length_insert.
  - intros j Hj. apply list_lookup_insert_ne. congruence.
  - exists []. rewrite app_nil_r. reflexivity.
Qed.

Lemma print_touches_only r line : preserves (touches_only r) (print line).
Proof. intros w. repeat split. cbn. eauto. Qed.

#[local] Hint Resolve get_TH1_touches_only update_TH1_touches_only print_touches_only
  : preserves.

(** X24. Whatever the sequences and the histogram it is given, whatever
    the library's [FillN] and [Fill] do to that histogram, and whether it
    returns or raises, [fill] changes nothing but that histogram: every
    other histogram, every graph, every figure and every region is as it
    was, no histogram is created, the current figure and the current pad
    are the same, and what had been printed is still there, before what
    [fill] printed. *)
Theorem fill_changes_its_histogram_only
        (TH2_FillN : TH1 -> Z -> PySeq -> PySeq -> list float -> Result TH1)
        (TH2_Fill : TH1 -> float -> float -> TH1)
        (hist : Ref) (xvalues yvalues : PySeq) (w : World) :
  touches_only hist w (snd (fill TH2_FillN TH2_Fill hist xvalues yvalues w)).
Proof.
  revert w.
  change (preserves (touches_only hist)
            (fill TH2_FillN TH2_Fill hist xvalues yvalues)).
  unfold fill, FillN, Fill, tolist. lazy zeta. preserve.
Qed.


(* ===================================================================== *)
(** ** The program on concrete worlds                                     *)
(* ===================================================================== *)


(** C3 fails on a region that holds two graphs: the call returns, and the
    second graph, which is not the first drawable with a horizontal axis, has
    been formatted too. *)
Lemma format_canvas_axes_formats_second_graph :
  region_primitives <$> pads w_graphs !! 0%nat = Some [RGraph 0; RGraph 1] /\
  fst (format_canvas_axes default_axes None RNone w_graphs) = Ok tt /\
  graphs (snd (format_canvas_axes default_axes None RNone w_graphs)) !! 1%nat
  = Some (format_TGraph default_axes 1 (ex_graph "g1")) /\
  format_TGraph default_axes 1 (ex_graph "g1") <> ex_graph "g1".
Proof.
  split; [reflexivity|]. split; [vm_compute; reflexivity|].
  split; [vm_compute; reflexivity|]. discriminate.
Qed.

(** C10 fails at [XNDiv=[510]]: with [YNDiv=None], on a region that holds
    drawables with a horizontal axis, the call raises IndexError (at
    [XNDiv[1]]), not TypeError. *)
Lemma format_canvas_axes_short_XNDiv_raises_IndexError :
  YNDiv short_XNDiv = None /\
  (exists r, r ∈ [ROpaque 0; RGraph 0; RHist 0; RHist 1] /\ has_GetXaxis w_mixed r = true) /\
  fst (format_canvas_axes short_XNDiv (Some "pad_bot"%string) RNone w_mixed)
  = Raise IndexError.
Proof.
  split; [reflexivity|]. split.
  - exists (RHist 0). split; [|reflexivity]. do 2 right. left.
  - vm_compute. reflexivity.
Qed.



(** C3, amended, on the bottom pad of [w_mixed]: the graph and the first
    histogram are formatted, the second histogram is not. *)
Lemma format_canvas_axes_formats_up_to_first_Zaxis_witness :
  Figure_get_pad (target_figure w_mixed RNone) (Some "pad_bot"%string) w_mixed
  = (Ok (RPad 2), w_mixed) /\
  config_ok default_axes = true /\
  formatted w_mixed [ROpaque 0; RGraph 0; RHist 0; RHist 1] = [RGraph 0; RHist 0] /\
  exists w',
    format_canvas_axes default_axes (Some "pad_bot"%string) RNone w_mixed = (Ok tt, w') /\
    graphs w' !! 0%nat = Some (format_TGraph default_axes 0.35 (ex_graph "g0")) /\
    hists w' !! 0%nat
    = Some (format_TH1 default_axes 0.35 (ex_hist "h0" [0; 1; 2; 4; 0]%float)) /\
    hists w' !! 1%nat = Some (ex_hist "h1" [0; 2; 2; 2; 0]%float).
Proof.
  split; [reflexivity|]. split; [reflexivity|]. split; [reflexivity|].
  destruct (format_canvas_axes_formats_up_to_first_Zaxis
              default_axes (Some "pad_bot"%string) RNone w_mixed 2%nat
              (set_fPrimitives [(ROpaque 0, ""%string); (RGraph 0, "P"%string);
                                (RHist 0, "pE1"%string); (RHist 1, "pE1"%string)]
                 (fresh_pad "pad_bot" "" None 0 0 1 0.35))
              eq_refl eq_refl eq_refl eq_refl)
    as (w' & Hrun & _ & Hh & Hg & _).
  exists w'. split; [exact Hrun|].
  split; [exact (Hg 0%nat)|]. split; [exact (Hh 0%nat) | exact (Hh 1%nat)].
Defined.

(** C5 on three histograms and two colors: two histograms are drawn and
    styled, the third is dropped. *)
Lemma plot_hist_draws_each_series_witness :
  canvas_kwargs_ok no_kwargs = true /\
  Forall (fun r => is_hist w_hists r = true) [RHist 0; RHist 1] /\
  exists w' pd h0 h1,
    plot_hist [RHist 0; RHist 1; RHist 2] "x" "y" [2; 4] [20; 21; 22] "pE1"
              no_kwargs w_hists
    = (Ok (RFigure 1), w') /\
    pads w' !! 0%nat = Some pd /\
    fPrimitives pd = [(RHist 0, "pE1"%string); (RHist 1, "pE1"%string)] /\
    hists w' !! 0%nat = Some h0 /\ fAtt h0 = mkTAtt 2 2 20 1 /\
    hists w' !! 1%nat = Some h1 /\ fAtt h1 = mkTAtt 4 4 21 1 /\
    hists w' !! 2%nat = Some (ex_hist "h2" [0; 3; 0; 8; 0]%float).
Proof.
  assert (H1 : canvas_kwargs_ok no_kwargs = true) by reflexivity.
  assert (H2 : Forall (fun r => is_hist w_hists r = true) [RHist 0; RHist 1])
    by (repeat constructor).
  split; [exact H1|]. split; [exact H2|].
  destruct (plot_hist_draws_each_series
              [RHist 0; RHist 1; RHist 2] "x" "y" [2; 4] [20; 21; 22] "pE1"
              no_kwargs w_hists H1 H2)
    as (w' & F & pd & Hrun & _ & _ & _ & _ & Hpd & Hprims & Hatt & Hrest).
  destruct (Hatt 0%nat 0%nat 2 20 ltac:(cbn; lia) eq_refl eq_refl eq_refl) as (h0 & Hh0 & Ha0).
  { intros [|[|i']] Hi'; cbn in Hi'; try lia. discriminate. }
  destruct (Hatt 1%nat 1%nat 4 21 ltac:(cbn; lia) eq_refl eq_refl eq_refl) as (h1 & Hh1 & Ha1).
  { intros i' Hi'. cbn in Hi'. lia. }
  exists w', pd, h0, h1.
  split; [exact Hrun|]. split; [exact Hpd|]. split; [exact Hprims|].
  split; [exact Hh0|]. split; [exact Ha0|]. split; [exact Hh1|]. split; [exact Ha1|].
  rewrite (Hrest 2%nat); [reflexivity|].
  cbn. intros Hin. apply elem_of_cons in Hin. destruct Hin as [E|Hin]; [discriminate E|].
  apply elem_of_cons in Hin. destruct Hin as [E|Hin]; [discriminate E|].
  apply elem_of_nil in Hin. exact Hin.
Defined.

(** C6 on the bottom pad of [w_mixed], of height 0.35. *)
Lemma format_canvas_axes_offsets_witness :
  Figure_get_pad (target_figure w_mixed RNone) (Some "pad_bot"%string) w_mixed
  = (Ok (RPad 2), w_mixed) /\
  config_ok default_axes = true /\
  exists w' h,
    format_canvas_axes default_axes (Some "pad_bot"%string) RNone w_mixed = (Ok tt, w') /\
    hists w' !! 0%nat = Some h /\
    fTitleOffset (fXaxis h) = (0.98 / 0.35)%float /\
    fLabelOffset (fXaxis h) = (0.002 / 0.35)%float /\
    fTickLength (fXaxis h) = (0.02 / 0.35)%float /\
    fTitleOffset (fYaxis h) = 1.75%float /\ fLabelOffset (fYaxis h) = 0.006%float /\
    fTitleOffset (fZaxis h) = 0.85%float /\ fLabelOffset (fZaxis h) = 0.002%float.
Proof.
  split; [reflexivity|]. split; [reflexivity|].
  destruct (format_canvas_axes_offsets
              default_axes (Some "pad_bot"%string) RNone w_mixed 2%nat
              (set_fPrimitives [(ROpaque 0, ""%string); (RGraph 0, "P"%string);
                                (RHist 0, "pE1"%string); (RHist 1, "pE1"%string)]
                 (fresh_pad "pad_bot" "" None 0 0 1 0.35))
              eq_refl eq_refl eq_refl eq_refl)
    as (w' & Hrun & Hh & _).
  assert (Hex : exists h, hists w' !! 0%nat = Some h).
  { destruct (format_canvas_axes_spec
              default_axes (Some "pad_bot"%string) RNone w_mixed 2%nat _
              eq_refl eq_refl eq_refl eq_refl)
      as (w2 & Hrun2 & _ & Hh2 & _).
    rewrite Hrun in Hrun2. injection Hrun2 as <-. rewrite (Hh2 0%nat). eexists. reflexivity. }
  destruct Hex as [h Hh0].
  destruct (Hh 0%nat h) as ((Hx1 & Hx2 & Hx3) & (Hy1 & Hy2) & (Hz1 & Hz2)).
  { right. left. }
  { exact Hh0. }
  exists w', h. split; [exact Hrun|]. split; [exact Hh0|].
  split; [exact Hx1|]. split; [exact Hx2|]. split; [exact Hx3|].
  split; [exact Hy1|]. split; [exact Hy2|]. split; [exact Hz1 | exact Hz2].
Defined.

(** C7 on three x values and two y values. *)
Lemma fill_length_mismatch_witness :
  length (items (PyList [1; 2; 3]%float)) <> length (items (NdArray [1; 2]%float)) /\
  fill (fun h _ _ _ _ => Ok h) (fun h _ _ => h) (RHist 0)
       (PyList [1; 2; 3]%float) (NdArray [1; 2]%float) w_hists
  = (Ok tt, with_stdout [fill_message] w_hists).
Proof.
  assert (H : length (items (PyList [1; 2; 3]%float))
              <> length (items (NdArray [1; 2]%float))) by (cbn; lia).
  split; [exact H|].
  exact (proj1 (fill_length_mismatch (fun h _ _ _ _ => Ok h) (fun h _ _ => h)
                  (RHist 0) (PyList [1; 2; 3]%float) (NdArray [1; 2]%float) w_hists H)).
Defined.

(** C9 on the histogram h0, of contents 1, 2, 4, shifted by one bin: 1 and
    2 move to bins 2 and 3, and 4 is lost. *)
Lemma shift_copies_all_but_last_bin_witness :
  exists h',
    shift (RHist 0) 1 w_hists
    = (Ok (RHist 3), with_hists (hists w_hists ++ [h']) w_hists) /\
    TH1_GetBinContent h' 2 = 1%float /\
    TH1_GetBinContent h' 3 = 2%float /\
    TH1_GetBinContent h' 4 = 0%float.
Proof.
  destruct (shift_copies_all_but_last_bin w_hists 0%nat
              (ex_hist "h0" [0; 1; 2; 4; 0]%float) 1 eq_refl eq_refl)
    as (h' & Hrun & _ & Hcopy & Hlast).
  exists h'. split; [exact Hrun|].
  split; [exact (Hcopy 1 ltac:(cbn; lia) ltac:(cbn; lia))|].
  split; [exact (Hcopy 2 ltac:(cbn; lia) ltac:(cbn; lia))|].
  exact (Hlast ltac:(cbn; lia)).
Defined.

(** C10, amended, on the bottom pad of [w_mixed]: the defaults return,
    and the defaults with [YNDiv=None] raise TypeError. *)
Lemma format_canvas_axes_YNDiv_None_raises_witness :
  Figure_get_pad (target_figure w_mixed RNone) (Some "pad_bot"%string) w_mixed
  = (Ok (RPad 2), w_mixed) /\
  (truthy (XNDiv default_axes) = false /\ is_Some (first_three (YNDiv default_axes))) /\
  (xndiv_ok no_YNDiv = true /\ YNDiv no_YNDiv = None) /\
  fst (format_canvas_axes default_axes (Some "pad_bot"%string) RNone w_mixed) = Ok tt /\
  fst (format_canvas_axes no_YNDiv (Some "pad_bot"%string) RNone w_mixed)
  = Raise TypeError.
Proof.
  assert (Hex : exists r,
             r ∈ region_primitives
                   (set_fPrimitives [(ROpaque 0, ""%string); (RGraph 0, "P"%string);
                                     (RHist 0, "pE1"%string); (RHist 1, "pE1"%string)]
                      (fresh_pad "pad_bot" "" None 0 0 1 0.35)) /\
             has_GetXaxis w_mixed r = true)
    by (exists (RGraph 0); split; [right; left | reflexivity]).
  assert (Hy : is_Some (first_three (YNDiv default_axes))) by (eexists; reflexivity).
  split; [reflexivity|]. split; [split; [reflexivity | exact Hy]|].
  split; [split; reflexivity|]. split.
  - exact (proj1 (format_canvas_axes_YNDiv_None_raises default_axes
                    (Some "pad_bot"%string) RNone w_mixed 2%nat _
                    eq_refl eq_refl eq_refl Hex) eq_refl Hy).
  - exact (proj2 (format_canvas_axes_YNDiv_None_raises no_YNDiv
                    (Some "pad_bot"%string) RNone w_mixed 2%nat _
                    eq_refl eq_refl eq_refl Hex) eq_refl eq_refl).
Defined.



(** X3 on the canvas "a" and the histogram h0. *)
Lemma add_hist_draws_into_new_canvas_witness :
  exists w' pd,
    (create_canvas "a" "" 700 500 ;; add_hist (RHist 0) "pE1" None) w_hists
    = (Ok tt, w') /\
    get_figure w' = (Ok (RFigure 1), w') /\
    pads w' !! 0%nat = Some pd /\
    fPrimitives pd = [(RHist 0, "pE1"%string)].
Proof.
  destruct (add_hist_draws_into_new_canvas "a" "" 700 500 0%nat "pE1" w_hists
              ltac:(cbn; lia))
    as (w' & pd & Hrun & Hfig & _ & Hpd & _ & _ & Hprims & _).
  exists w', pd. split; [exact Hrun|]. split; [exact Hfig|].
  split; [exact Hpd | exact Hprims].
Defined.

(** X4 on the surface of a ratio figure, which holds the two pads only,
    with [YNDiv=None]. *)
Lemma format_canvas_axes_without_axes_witness :
  region_primitives <$> pads w_ratio !! 0%nat = Some [RPad 1; RPad 2] /\
  format_canvas_axes no_YNDiv None RNone w_ratio = (Ok tt, w_ratio).
Proof.
  split; [reflexivity|].
  refine (format_canvas_axes_without_axes no_YNDiv None RNone w_ratio 0%nat _
            eq_refl eq_refl _).
  repeat constructor.
Defined.


(** X6 on the bottom pad of [w_mixed]. *)
Lemma format_canvas_axes_idempotent_witness :
  exists w',
    format_canvas_axes default_axes (Some "pad_bot"%string) RNone w_mixed = (Ok tt, w') /\
    format_canvas_axes default_axes (Some "pad_bot"%string) RNone w' = (Ok tt, w').
Proof.
  exact (format_canvas_axes_idempotent default_axes (Some "pad_bot"%string) RNone
           w_mixed 2%nat _ eq_refl eq_refl eq_refl eq_refl).
Defined.

(** X7 on the ratio plot of three histograms: histogram 0 is the one
    formatted in the top pad, histogram 3 (the first ratio) the one formatted
    in the bottom pad. *)
Lemma format_ratio_canvas_axes_overrides_witness :
  exists w' htop hbot,
    format_ratio_canvas_axes default_axes RNone w_ratio_plot = (Ok tt, w') /\
    hists w' !! 0%nat = Some htop /\
    fLabelOffset (fXaxis htop) = (0.1 / (1 - 0.35))%float /\
    fLabelOffset (fYaxis htop) = 0.006%float /\
    fNdivisions (fYaxis htop) = 510 /\
    hists w' !! 3%nat = Some hbot /\
    fLabelOffset (fXaxis hbot) = (0.002 / (0.35 - 0))%float /\
    fLabelOffset (fYaxis hbot) = 0.009%float /\
    fNdivisions (fYaxis hbot) = 505.
Proof.
  destruct (format_ratio_canvas_axes_overrides default_axes RNone w_ratio_plot
              1%nat 2%nat _ _ eq_refl eq_refl eq_refl eq_refl eq_refl eq_refl
              ltac:(eexists; reflexivity))
    as (w' & Hrun & Hsame & Hbot & Htop & _).
  destruct Hsame as (_ & _ & _ & _ & _ & Hlen & _).
  destruct (lookup_lt_is_Some_2 (hists w') 0%nat) as [htop Hh0];
    [rewrite Hlen; cbn; lia|].
  destruct (lookup_lt_is_Some_2 (hists w') 3%nat) as [hbot Hh3];
    [rewrite Hlen; cbn; lia|].
  destruct (Htop 0%nat htop) as (Ht1 & Ht2 & n1 & n2 & n3 & Hn & Ht3).
  { left. }
  { cbn. intros Hin. apply list_elem_of_singleton in Hin. discriminate Hin. }
  { exact Hh0. }
  destruct (Hbot 3%nat hbot) as (Hb1 & Hb2 & Hb3).
  { left. }
  { exact Hh3. }
  exists w', htop, hbot.
  split; [exact Hrun|]. split; [exact Hh0|]. split; [exact Ht1|]. split; [exact Ht2|].
  split; [injection Hn as <- <- <-; exact Ht3|].
  split; [exact Hh3|]. split; [exact Hb1|]. split; [exact Hb2 | exact Hb3].
Defined.

(** X8 on two histograms. *)
Lemma plot_hist_formats_first_series_only_witness :
  exists w' h0 h1,
    plot_hist [RHist 0; RHist 1] "x" "y" [2; 4] [20; 21] "pE1" no_kwargs w_hists
    = (Ok (RFigure 1), w') /\
    hists w' !! 0%nat = Some h0 /\ fLabelSize (fXaxis h0) = 18%float /\
    hists w' !! 1%nat = Some h1 /\ fLabelSize (fXaxis h1) = 0%float /\
    fYaxis h1 = ex_axis.
Proof.
  destruct (plot_hist_formats_first_series_only
              [RHist 0; RHist 1] "x" "y" [2; 4] [20; 21] "pE1" no_kwargs w_hists 0%nat
              eq_refl ltac:(repeat constructor) ltac:(cbn; lia) eq_refl)
    as (w' & h0 & Hrun & Hh0 & Hl0 & _ & _ & _ & _ & Hothers).
  destruct (Hothers 1%nat 1%nat _ ltac:(cbn; lia) eq_refl ltac:(lia) eq_refl)
    as (h1 & Hh1 & Hx1 & Hy1 & _).
  exists w', h0, h1. split; [exact Hrun|]. split; [exact Hh0|]. split; [exact Hl0|].
  split; [exact Hh1|]. split; [rewrite Hx1; reflexivity | exact Hy1].
Defined.

(** X9 on three histograms and the draw option "E". *)
Lemma plot_hist_ratios_draws_both_pads_witness :
  exists w' pdt pdb ratio1 ratio2,
    plot_hist_ratios_draw [RHist 0; RHist 1; RHist 2] [1; 2; 4] [20; 21; 22]
                          "den" "E" no_kwargs w_hists
    = (Ok (RFigure 1), w') /\
    pads w' !! 1%nat = Some pdt /\ pads w' !! 2%nat = Some pdb /\
    fPrimitives pdt = [(RHist 0, "E"%string); (RHist 1, "E"%string); (RHist 2, "E"%string)] /\
    fPrimitives pdb = [(RHist 3, "P"%string); (RHist 4, "P"%string)] /\
    hists w' !! 3%nat = Some ratio1 /\ fAtt ratio1 = mkTAtt 2 2 21 1 /\
    hists w' !! 4%nat = Some ratio2 /\ fAtt ratio2 = mkTAtt 4 4 22 1.
Proof.
  destruct (plot_hist_ratios_draws_both_pads
              [RHist 0; RHist 1; RHist 2] [1; 2; 4] [20; 21; 22] "den" "E"
              no_kwargs w_hists eq_refl ltac:(repeat constructor))
    as (w' & pdt & pdb & Hrun & Hpt & Hpb & _ & Hprt & Hprb & _ & Hatt).
  destruct (Hatt 1%nat 2 21 ltac:(cbn; lia) eq_refl eq_refl) as (ratio1 & Hr1 & Ha1).
  destruct (Hatt 2%nat 4 22 ltac:(cbn; lia) eq_refl eq_refl) as (ratio2 & Hr2 & Ha2).
  exists w', pdt, pdb, ratio1, ratio2.
  split; [exact Hrun|]. split; [exact Hpt|]. split; [exact Hpb|].
  split; [exact Hprt|]. split; [exact Hprb|].
  split; [exact Hr1|]. split; [exact Ha1|]. split; [exact Hr2 | exact Ha2].
Defined.


(** X11 with the keywords [canw=800], on two histograms and a ratio
    canvas. *)
Lemma plot_profiles_needs_a_name_witness :
  plot_profiles (fun _ _ _ => ret tt) [RHist 0; RHist 1] "x" "y" [2; 4] [20; 21] "pE1"
                true "Ratio" "den" width_kwargs w_hists
  = (Raise TypeError, w_hists).
Proof.
  exact (plot_profiles_needs_a_name (fun _ _ _ => ret tt) [RHist 0; RHist 1] "x" "y"
           [2; 4] [20; 21] "pE1" true "Ratio" "den" width_kwargs w_hists
           eq_refl eq_refl).
Defined.

(** X12 with [doRatioCanvas=True], a ratio fraction and one histogram. *)
Lemma plot_profiles_rejects_ratio_keyword_witness :
  plot_profiles (fun _ _ _ => ret tt) [RHist 0] "x" "y" [2] [20] "pE1"
                true "Ratio" "den" (ratio_kwargs 0.3) w_hists
  = (Raise TypeError, w_hists).
Proof.
  exact (plot_profiles_rejects_ratio_keyword (fun _ _ _ => ret tt) [RHist 0] "x" "y"
           [2] [20] "pE1" true "Ratio" "den" (ratio_kwargs 0.3) w_hists
           ltac:(right; cbn; lia) ltac:(eexists; reflexivity)).
Defined.

(** X13 on the histogram h0, of integral 7. *)
Lemma density_scales_by_inverse_integral_witness :
  exists h',
    density ex_Integral (RHist 0) w_hists
    = (Ok (RHist 3), with_hists (hists w_hists ++ [h']) w_hists) /\
    fName h' = "h0_density"%string /\
    TH1_GetBinContent h' 3 = (1 / 7 * 4)%float.
Proof.
  destruct (density_scales_by_inverse_integral ex_Integral w_hists 0%nat
              (ex_hist "h0" [0; 1; 2; 4; 0]%float) eq_refl eq_refl)
    as (h' & Hrun & Hname & _ & Hcell & _).
  exists h'. split; [exact Hrun|]. split; [exact Hname|].
  exact (Hcell 3 ltac:(cbn; lia)).
Defined.

(** X14 on a histogram without entries. *)
Lemma density_zero_integral_raises_witness :
  fst (density ex_Integral (RHist 0) w_empty_hist) = Raise ZeroDivisionError /\
  hists (snd (density ex_Integral (RHist 0) w_empty_hist)) !! 0%nat
  = Some (ex_hist "e" [0; 0; 0; 0; 0]%float).
Proof.
  destruct (density_zero_integral_raises ex_Integral w_empty_hist 0%nat
              (ex_hist "e" [0; 0; 0; 0; 0]%float) eq_refl eq_refl) as [Hr Hk].
  split; [exact Hr|]. exact (Hk 0%nat _ eq_refl).
Defined.

(** X15 on h1 and h0. *)
Lemma divide_and_hist_divide_differ_in_name_only_witness :
  exists r1 r2,
    divide (RHist 1) (RHist 0) w_hists
    = (Ok (RHist 3), with_hists (hists w_hists ++ [r1]) w_hists) /\
    hist_divide (RHist 1) (RHist 0) w_hists
    = (Ok (RHist 3), with_hists (hists w_hists ++ [r2]) w_hists) /\
    fName r1 = "h1_ratio"%string /\ fName r2 = "h1_over_h0"%string /\
    fArray r1 = [0; 2; 1; 0.5; 0]%float /\ fArray r2 = fArray r1.
Proof.
  destruct (divide_and_hist_divide_differ_in_name_only w_hists 1%nat 0%nat
              (ex_hist "h1" [0; 2; 2; 2; 0]%float) (ex_hist "h0" [0; 1; 2; 4; 0]%float)
              eq_refl eq_refl)
    as (r1 & r2 & Hd & Hh & Hn1 & Hn2 & Hc & Heq).
  exists r1, r2. split; [exact Hd|]. split; [exact Hh|].
  split; [exact Hn1|]. split; [exact Hn2|]. split; [exact Hc|].
  exact (f_equal fArray (eq_sym Heq)).
Defined.

(** X16 on the histogram h0, of contents 1, 2, 4: the 4 of the last bin
    is lost. *)
Lemma shift_by_zero_drops_last_bin_witness :
  exists h',
    shift (RHist 0) 0 w_hists
    = (Ok (RHist 3), with_hists (hists w_hists ++ [h']) w_hists) /\
    fName h' = "h0_shift"%string /\
    TH1_GetBinContent h' 1 = 1%float /\
    TH1_GetBinContent h' 2 = 2%float /\
    TH1_GetBinContent h' 3 = 0%float.
Proof.
  destruct (shift_by_zero_drops_last_bin w_hists 0%nat
              (ex_hist "h0" [0; 1; 2; 4; 0]%float) eq_refl eq_refl)
    as (h' & Hrun & Hname & _ & Hkeep & Hzero & _).
  exists h'. split; [exact Hrun|]. split; [exact Hname|].
  split; [exact (Hkeep 1 ltac:(cbn; lia))|].
  split; [exact (Hkeep 2 ltac:(cbn; lia))|].
  exact (Hzero 3 ltac:(cbn; lia) ltac:(right; cbn; lia)).
Defined.


(** X18 on the histogram h0, of contents 1, 2, 4, shifted by one bin and
    back: only the 1 of bin 1 is left. *)
Lemma shift_there_and_back_is_lossy_witness :
  exists h1 h2 w1,
    shift (RHist 0) 1 w_hists = (Ok (RHist 3), w1) /\
    shift (RHist 3) (-1) w1
    = (Ok (RHist 4), with_hists (hists w_hists ++ [h1; h2]) w_hists) /\
    fName h2 = "h0_shift_shift"%string /\
    TH1_GetBinContent h2 1 = 1%float /\
    TH1_GetBinContent h2 2 = 0%float /\
    TH1_GetBinContent h2 3 = 0%float.
Proof.
  destruct (shift_there_and_back_is_lossy w_hists 0%nat
              (ex_hist "h0" [0; 1; 2; 4; 0]%float) 1 eq_refl eq_refl)
    as (h1 & h2 & w1 & Hr1 & Hr2 & Hname & Hcell).
  exists h1, h2, w1. split; [exact Hr1|]. split; [exact Hr2|]. split; [exact Hname|].
  split; [exact (Hcell 1 ltac:(cbn; lia))|].
  split; [exact (Hcell 2 ltac:(cbn; lia)) | exact (Hcell 3 ltac:(cbn; lia))].
Defined.

(** X19 on two pairs of values, with a [FillN] that always raises
    TypeError: bin 1 goes from 1 to 3. *)
Lemma fill_falls_back_to_Fill_witness :
  exists h',
    fill (fun _ _ _ _ _ => Raise TypeError) ex_Fill (RHist 0)
         (PyList [1; 2]%float) (NdArray [5; 6]%float) w_hists
    = (Ok tt, with_hists (<[0%nat := h']> (hists w_hists)) w_hists) /\
    fArray h' = [0; 3; 2; 4; 0]%float.
Proof.
  exists (fill_each ex_Fill (ex_hist "h0" [0; 1; 2; 4; 0]%float)
            [(1, 5); (2, 6)]%float).
  split; [|reflexivity].
  exact (fill_falls_back_to_Fill (fun _ _ _ _ _ => Raise TypeError) ex_Fill
           w_hists 0%nat (ex_hist "h0" [0; 1; 2; 4; 0]%float)
           (PyList [1; 2]%float) (NdArray [5; 6]%float) eq_refl eq_refl eq_refl).
Defined.

(** X20 with a [FillN] that empties the histogram, and with one that
    raises ValueError. *)
Lemma fill_uses_FillN_first_witness :
  fill (fun h _ _ _ _ => Ok (TH1_Reset h)) ex_Fill (RHist 0)
       (PyList [1; 2]%float) (PyList [5; 6]%float) w_hists
  = (Ok tt, with_hists (<[0%nat := TH1_Reset (ex_hist "h0" [0; 1; 2; 4; 0]%float)]>
                          (hists w_hists)) w_hists) /\
  fill (fun _ _ _ _ _ => Raise ValueError) ex_Fill (RHist 0)
       (PyList [1; 2]%float) (PyList [5; 6]%float) w_hists
  = (Raise ValueError, w_hists).
Proof.
  split.
  - exact (proj1 (fill_uses_FillN_first (fun h _ _ _ _ => Ok (TH1_Reset h)) ex_Fill
                    w_hists 0%nat (ex_hist "h0" [0; 1; 2; 4; 0]%float)
                    (PyList [1; 2]%float) (PyList [5; 6]%float) eq_refl eq_refl)
                 _ eq_refl).
  - refine (proj2 (fill_uses_FillN_first (fun _ _ _ _ _ => Raise ValueError) ex_Fill
                     w_hists 0%nat (ex_hist "h0" [0; 1; 2; 4; 0]%float)
                     (PyList [1; 2]%float) (PyList [5; 6]%float) eq_refl eq_refl)
                  ValueError eq_refl _).
    discriminate.
Defined.

(** X23 with a [set_axis_labels] that does nothing, on two histograms and
    a ratio canvas: the histograms h0 and h1 keep their cells. *)
Lemma plot_profiles_keeps_the_contents_witness :
  exists e,
    TH1_contents <$> hists
      (snd (plot_profiles (fun _ _ _ => ret tt) [RHist 0; RHist 1] "x" "y" [2; 4]
                          [20; 21] "pE1" true "Ratio" "den" no_kwargs w_hists))
    = [("h0"%string, 3, [0; 1; 2; 4; 0]%float);
       ("h1"%string, 3, [0; 2; 2; 2; 0]%float);
       ("h2"%string, 3, [0; 3; 0; 8; 0]%float)] ++ e.
Proof.
  exact (proj1 (plot_profiles_keeps_the_contents (fun _ _ _ => ret tt)
                  [RHist 0; RHist 1] "x" "y" [2; 4] [20; 21] "pE1" true "Ratio" "den"
                  no_kwargs w_hists
                  (fun _ _ _ => preserves_ret contents_kept tt))).
Defined.
